(** * Shop Platform SDK for Python: verification of [sdk/python/shop/client.py]

    A shallow embedding of the client module: Python values and strings,
    the webhook signature verifier (with the HMAC-SHA256 it calls), the
    entity codec, the request executor [ShopClient._request] on top of the
    retry policy it configures on its session, and the resource routers. *)

From Stdlib Require Import String Ascii.
From Stdlib Require Import List NArith ZArith QArith Qminmax Bool Lia.
From Stdlib Require Import DecimalString PrimFloat.
From Equations Require Import Equations.
Import ListNotations.


Set Warnings "-register-all".

(* ===================================================================== *)
(** * Python strings                                                      *)
(* ===================================================================== *)

Module Py.

(** A Python [str] is a sequence of Unicode code points.  Code points are
    kept as numbers: the verifier depends on which of them are ASCII and on
    their UTF-8 encoding. *)
Definition str := list N.

(** A Python [bytes] object: numbers below 256. *)
Definition bytes := list N.

(** The code points of a string literal of the source (all of them ASCII). *)
Definition lit (s : string) : str :=
  map N_of_ascii (list_ascii_of_string s).

Fixpoint str_eqb (a b : str) : bool :=
  match a, b with
  | [], [] => true
  | x :: a', y :: b' => N.eqb x y && str_eqb a' b'
  | _, _ => false
  end.

(** [str(n)] for an [int]. *)
Definition str_of_int (z : Z) : str :=
  lit (NilZero.string_of_int (Z.to_int z)).

(** [s.isascii()]. *)
Definition isascii (s : str) : bool := forallb (fun c => (c <? 128)%N) s.

(** Python's truth value testing ([if x:]), per type of the tested value. *)
Class Truthy (A : Type) := truthy : A -> bool.

#[global] Instance truthy_bool : Truthy bool := fun b => b.
#[global] Instance truthy_int : Truthy Z := fun z => negb (z =? 0)%Z.
#[global] Instance truthy_float : Truthy float := fun f => negb (PrimFloat.eqb f 0%float).
#[global] Instance truthy_list {A} : Truthy (list A) :=
  fun l => match l with [] => false | _ :: _ => true end.
#[global] Instance truthy_str : Truthy str := truthy_list.
#[global] Instance truthy_option {A} `{Truthy A} : Truthy (option A) :=
  fun o => match o with Some a => truthy a | None => false end.

End Py.

(* ===================================================================== *)
(** * TYPES: the enumerations                                             *)
(* ===================================================================== *)

Module Types.
Import Py.

Inductive OrderStatus :=
| PENDING | PAID | PROCESSING | SHIPPED | DELIVERED | CANCELLED | REFUNDED.

Definition OrderStatus_members : list OrderStatus :=
  [PENDING; PAID; PROCESSING; SHIPPED; DELIVERED; CANCELLED; REFUNDED].

Definition OrderStatus_value (s : OrderStatus) : str :=
  match s with
  | PENDING => lit "pending"
  | PAID => lit "paid"
  | PROCESSING => lit "processing"
  | SHIPPED => lit "shipped"
  | DELIVERED => lit "delivered"
  | CANCELLED => lit "cancelled"
  | REFUNDED => lit "refunded"
  end.

Inductive WebhookEvent :=
| ORDER_CREATED | ORDER_PAID | ORDER_SHIPPED | ORDER_DELIVERED | ORDER_CANCELLED
| PRODUCT_CREATED | PRODUCT_UPDATED | PRODUCT_DELETED | INVENTORY_LOW.

Definition WebhookEvent_value (e : WebhookEvent) : str :=
  match e with
  | ORDER_CREATED => lit "order.created"
  | ORDER_PAID => lit "order.paid"
  | ORDER_SHIPPED => lit "order.shipped"
  | ORDER_DELIVERED => lit "order.delivered"
  | ORDER_CANCELLED => lit "order.cancelled"
  | PRODUCT_CREATED => lit "product.created"
  | PRODUCT_UPDATED => lit "product.updated"
  | PRODUCT_DELETED => lit "product.deleted"
  | INVENTORY_LOW => lit "inventory.low"
  end.

(** Members of a [str]-mixin enumeration are non-empty strings. *)
#[global] Instance truthy_OrderStatus : Truthy OrderStatus :=
  fun s => truthy (OrderStatus_value s).

(** The dataclasses of the module. *)
Inductive class_name :=
| Address | ProductVariant | Product | OrderItem | Order | Webhook | PaginatedList.

End Types.

(* ===================================================================== *)
(** * Python values, exceptions, results                                  *)
(* ===================================================================== *)

Module Obj.
Import Py Types.

(** The values that flow through the client: decoded JSON ([None], [bool],
    [int], [float], [str], [list], [dict] with string keys in insertion
    order), members of [OrderStatus], and instances of the dataclasses with
    their fields in declaration order. *)
Inductive value :=
| VNone
| VBool (b : bool)
| VInt (z : Z)
| VFloat (f : float)
| VStr (s : str)
| VList (l : list value)
| VDict (d : list (str * value))
| VStatus (s : OrderStatus)
| VObject (cls : class_name) (fields : list (str * value)).

Definition dict := list (str * value).

(** [d.get(k)], as an option. *)
Fixpoint dict_get (k : str) (d : dict) : option value :=
  match d with
  | [] => None
  | (k', v) :: d' => if str_eqb k k' then Some v else dict_get k d'
  end.

(** [d[k] = v]: an existing key keeps its position, a new key goes last. *)
Fixpoint dict_set (k : str) (v : value) (d : dict) : dict :=
  match d with
  | [] => [(k, v)]
  | (k', v') :: d' =>
      if str_eqb k k' then (k', v) :: d' else (k', v') :: dict_set k v d'
  end.

Fixpoint dict_remove (k : str) (d : dict) : dict :=
  match d with
  | [] => []
  | (k', v') :: d' =>
      if str_eqb k k' then d' else (k', v') :: dict_remove k d'
  end.

(** A dict display [{k1: v1, ...}] with distinct literal keys. *)
Definition dict_of (l : list (string * value)) : dict :=
  map (fun kv => (lit (fst kv), snd kv)) l.

#[global] Instance truthy_value : Truthy value :=
  fun v =>
    match v with
    | VNone => false
    | VBool b => b
    | VInt z => truthy z
    | VFloat f => truthy f
    | VStr s => truthy s
    | VList l => truthy l
    | VDict d => truthy d
    | VStatus s => truthy s
    | VObject _ _ => true
    end.

(** What can go wrong at the transport level of one attempt
    ([urllib3.exceptions]). *)
Inductive transport_error :=
| NewConnectionError
| ConnectTimeoutError
| ReadTimeoutError
| ProtocolError.

(** The reason carried by [MaxRetryError]: the last error, or
    [ResponseError] for the last status. *)
Inductive retry_reason :=
| ReasonError (e : transport_error)
| ResponseError (status : Z).

Inductive exn :=
(* builtins *)
| ValueError
| TypeError
| KeyError
| AttributeError
| UnicodeEncodeError
| OverflowError
(* class ShopAPIError(Exception) *)
| ShopAPIError (code message details : value)
(* urllib3.exceptions *)
| MaxRetryError (reason : retry_reason)
| Urllib3Error (e : transport_error)
(* requests.exceptions *)
| RetryError (reason : retry_reason)
| ConnectTimeout (reason : retry_reason)
| ConnectionError (reason : retry_reason)
| ReadTimeout.

(** A computation that returns or raises. *)
Inductive result (A : Type) :=
| Ok (a : A)
| Raise (e : exn).
Arguments Ok {A} a.
Arguments Raise {A} e.

Definition bind {A B} (r : result A) (k : A -> result B) : result B :=
  match r with
  | Ok a => k a
  | Raise e => Raise e
  end.

Fixpoint mapM {A B} (f : A -> result B) (l : list A) : result (list B) :=
  match l with
  | [] => Ok []
  | a :: l' =>
      bind (f a) (fun b => bind (mapM f l') (fun bs => Ok (b :: bs)))
  end.

(** [s.encode()]: UTF-8.  A lone surrogate (U+D800..U+DFFF) raises
    [UnicodeEncodeError]; numbers above U+10FFFF are not code points and do
    not occur in a [str]. *)
Definition encode_cp (c : N) : result bytes :=
  if (c <? 0x80)%N then Ok [c]
  else if (c <? 0x800)%N then
    Ok [N.lor 0xC0 (N.shiftr c 6); N.lor 0x80 (N.land c 0x3F)]
  else if (c <? 0x10000)%N then
    if ((0xD800 <=? c) && (c <=? 0xDFFF))%N then Raise UnicodeEncodeError
    else Ok [N.lor 0xE0 (N.shiftr c 12);
             N.lor 0x80 (N.land (N.shiftr c 6) 0x3F);
             N.lor 0x80 (N.land c 0x3F)]
  else if (c <=? 0x10FFFF)%N then
    Ok [N.lor 0xF0 (N.shiftr c 18);
        N.lor 0x80 (N.land (N.shiftr c 12) 0x3F);
        N.lor 0x80 (N.land (N.shiftr c 6) 0x3F);
        N.lor 0x80 (N.land c 0x3F)]
  else Raise UnicodeEncodeError.

Fixpoint encode (s : str) : result bytes :=
  match s with
  | [] => Ok []
  | c :: s' =>
      bind (encode_cp c) (fun bs =>
      bind (encode s') (fun rest => Ok (bs ++ rest)))
  end.

(** [v[k]] with a string key. *)
Definition getitem (v : value) (k : str) : result value :=
  match v with
  | VDict d => match dict_get k d with Some x => Ok x | None => Raise KeyError end
  | _ => Raise TypeError
  end.

(** [for x in v]: the elements of a list, the keys of a dict, the
    characters of a string. *)
Definition iterate (v : value) : result (list value) :=
  match v with
  | VList l => Ok l
  | VDict d => Ok (map (fun kv => VStr (fst kv)) d)
  | VStr s => Ok (map (fun c => VStr [c]) s)
  | VStatus s => Ok (map (fun c => VStr [c]) (OrderStatus_value s))
  | _ => Raise TypeError
  end.

(** [**v]: the keyword arguments of a call. *)
Definition kwargs (v : value) : result dict :=
  match v with
  | VDict d => Ok d
  | _ => Raise TypeError
  end.

End Obj.

Notation "x <- c1 ;; c2" := (Obj.bind c1 (fun x => c2))
  (at level 61, c1 at next level, right associativity).

(* ===================================================================== *)
(** * [hashlib.sha256] and [hmac]                                         *)
(* ===================================================================== *)

(** SHA-256 as in FIPS 180-4, on 32-bit words kept in [N] with the
    wrap-around written out. *)
Module Sha256.
Import Py Obj.
Local Open Scope N_scope.

Definition mask32 : N := 0xFFFFFFFF.
Definition add32 (x y : N) : N := (x + y) mod 2 ^ 32.
Definition not32 (x : N) : N := N.lxor x mask32.
Definition rotr (n x : N) : N :=
  N.lor (N.shiftr x n) (N.land (N.shiftl x (32 - n)) mask32).

Definition Ch (x y z : N) : N := N.lxor (N.land x y) (N.land (not32 x) z).
Definition Maj (x y z : N) : N :=
  N.lxor (N.lxor (N.land x y) (N.land x z)) (N.land y z).
Definition bsig0 (x : N) : N := N.lxor (N.lxor (rotr 2 x) (rotr 13 x)) (rotr 22 x).
Definition bsig1 (x : N) : N := N.lxor (N.lxor (rotr 6 x) (rotr 11 x)) (rotr 25 x).
Definition ssig0 (x : N) : N := N.lxor (N.lxor (rotr 7 x) (rotr 18 x)) (N.shiftr x 3).
Definition ssig1 (x : N) : N := N.lxor (N.lxor (rotr 17 x) (rotr 19 x)) (N.shiftr x 10).

(** The round constants are the first 32 bits of the fractional parts of
    the cube roots of the first 64 primes, the initial state those of the
    square roots of the first 8; both tables are computed from that
    description. *)
Definition primes64 : list N :=
  [2; 3; 5; 7; 11; 13; 17; 19; 23; 29; 31; 37; 41; 43; 47; 53; 59; 61; 67;
   71; 73; 79; 83; 89; 97; 101; 103; 107; 109; 113; 127; 131; 137; 139; 149;
   151; 157; 163; 167; 173; 179; 181; 191; 193; 197; 199; 211; 223; 227; 229;
   233; 239; 241; 251; 257; 263; 269; 271; 277; 281; 283; 293; 307; 311].

(** Integer cube root, one bit at a time from bit [i] down. *)
Fixpoint icbrt_from (i : nat) (n r : N) : N :=
  let r' := r + 2 ^ N.of_nat i in
  let r1 := if r' * r' * r' <=? n then r' else r in
  match i with
  | O => r1
  | S j => icbrt_from j n r1
  end.

Definition frac_cbrt32 (p : N) : N := icbrt_from 40 (p * 2 ^ 96) 0 mod 2 ^ 32.
Definition frac_sqrt32 (p : N) : N := N.sqrt (p * 2 ^ 64) mod 2 ^ 32.

Definition K : list N := Eval vm_compute in map frac_cbrt32 primes64.
Definition H0 : list N := Eval vm_compute in map frac_sqrt32 (firstn 8 primes64).

(** Message schedule: the 16 words of the block extended to 64.  [expand]
    keeps the words newest first. *)
Fixpoint expand (n : nat) (W : list N) : list N :=
  match n with
  | O => W
  | S n' =>
      let wt := add32 (add32 (ssig1 (nth 1 W 0)) (nth 6 W 0))
                      (add32 (ssig0 (nth 14 W 0)) (nth 15 W 0)) in
      expand n' (wt :: W)
  end.

Definition schedule (block : list N) : list N := rev (expand 48 (rev block)).

(** One round on the working variables [a; b; c; d; e; f; g; h]. *)
Definition round (v : list N) (kw : N * N) : list N :=
  match v with
  | [a; b; c; d; e; f; g; h] =>
      let t1 := add32 (add32 (add32 (add32 h (bsig1 e)) (Ch e f g)) (fst kw)) (snd kw) in
      let t2 := add32 (bsig0 a) (Maj a b c) in
      [add32 t1 t2; a; b; c; add32 d t1; e; f; g]
  | _ => v
  end.

Fixpoint add_words (x y : list N) : list N :=
  match x, y with
  | a :: x', b :: y' => add32 a b :: add_words x' y'
  | _, _ => []
  end.

Definition compress (H block : list N) : list N :=
  add_words H (fold_left round (combine K (schedule block)) H).

(** Big-endian words of a byte string (whose length is a multiple of 4). *)
Fixpoint words_of_bytes (bs : bytes) : list N :=
  match bs with
  | b0 :: b1 :: b2 :: b3 :: rest =>
      (b0 * 2 ^ 24 + b1 * 2 ^ 16 + b2 * 2 ^ 8 + b3) :: words_of_bytes rest
  | _ => []
  end.

Definition bytes_of_word (x : N) : bytes :=
  [N.shiftr x 24 mod 256; N.shiftr x 16 mod 256; N.shiftr x 8 mod 256; x mod 256].

(** Padding: a 1 bit, zeros up to 56 modulo 64 bytes, the bit length on 64
    bits. *)
Definition pad (msg : bytes) : bytes :=
  let len := length msg in
  let zeros := ((64 - (len + 9) mod 64) mod 64)%nat in
  let bits := N.of_nat len * 8 in
  msg ++ [0x80] ++ repeat 0 zeros
      ++ flat_map bytes_of_word [N.shiftr bits 32 mod 2 ^ 32; bits mod 2 ^ 32].

(** Absorb the words sixteen at a time. *)
Definition absorb (st : list N * list N) (wd : N) : list N * list N :=
  let buf := snd st ++ [wd] in
  if (length buf =? 16)%nat then (compress (fst st) buf, []) else (fst st, buf).

Definition sha256 (msg : bytes) : bytes :=
  flat_map bytes_of_word
    (fst (fold_left absorb (words_of_bytes (pad msg)) (H0, []))).

End Sha256.

(** [hmac.new(key, msg, hashlib.sha256)] (RFC 2104, block size 64) and
    [hexdigest]. *)
Module Hmac.
Import Py Obj.
Local Open Scope N_scope.

Definition block_size : nat := 64.

Definition block_key (key : bytes) : bytes :=
  let k := if (block_size <? length key)%nat then Sha256.sha256 key else key in
  k ++ repeat 0 (block_size - length k).

Definition hmac_sha256 (key msg : bytes) : bytes :=
  let k := block_key key in
  Sha256.sha256 (map (N.lxor 0x5C) k ++ Sha256.sha256 (map (N.lxor 0x36) k ++ msg)).

Definition hex_digits : str := lit "0123456789abcdef".

Definition hex_digit (n : N) : N := nth (N.to_nat (n mod 16)) hex_digits 48.

Definition hex_of_byte (b : N) : str := [hex_digit (b / 16); hex_digit b].

Definition hexdigest (digest : bytes) : str := flat_map hex_of_byte digest.

(** [hmac.compare_digest(a, b)] on two [str]: both must be ASCII, otherwise
    it raises [TypeError]; the result is their equality. *)
Definition compare_digest (a b : str) : result bool :=
  if isascii a && isascii b then Ok (str_eqb a b) else Raise TypeError.

End Hmac.

(* ===================================================================== *)
(** * Entity codec: the dataclasses and their [from_dict]                 *)
(* ===================================================================== *)

Module Codec.
Import Py Types Obj.
Local Open Scope string_scope.
Local Open Scope list_scope.

(** The fields of a [@dataclass]: those without a default, then those with
    one, in declaration order. *)
Record schema := { required : list string; optional : list (string * value) }.

Definition dataclass_schema (cls : class_name) : schema :=
  match cls with
  | Address =>
      {| required := ["first_name"; "last_name"; "address1"; "city"; "region";
                      "postal_code"; "country"];
         optional := [("company", VNone); ("address2", VNone); ("phone", VNone)] |}
  | ProductVariant =>
      {| required := ["id"; "sku"; "name"; "price"; "inventory"];
         optional := [("options", VDict [])] |}
  | Product =>
      {| required := ["id"; "sku"; "name"; "description"; "price"; "currency";
                      "category_id"; "images"; "inventory"; "status";
                      "created_at"; "updated_at"];
         optional := [("compare_at_price", VNone); ("variants", VList []);
                      ("attributes", VDict [])] |}
  | OrderItem =>
      {| required := ["product_id"; "sku"; "name"; "quantity"; "price";
                      "total_price"];
         optional := [("variant_id", VNone)] |}
  | Order =>
      {| required := ["id"; "order_number"; "status"; "customer_email";
                      "customer_name"; "shipping_address"; "billing_address";
                      "items"; "subtotal"; "shipping_cost"; "tax"; "discount";
                      "total"; "currency"; "created_at"; "updated_at"];
         optional := [("notes", VNone)] |}
  | Webhook =>
      {| required := ["id"; "url"; "events"; "active"; "created_at"];
         optional := [("secret", VNone)] |}
  | PaginatedList =>
      {| required := ["items"; "total"; "page"; "limit"; "total_pages"];
         optional := [] |}
  end.

Definition field_names (sc : schema) : list str :=
  map lit (required sc) ++ map (fun p => lit (fst p)) (optional sc).

Definition field_value (kw : dict) (name : string) (default : value) : value :=
  match dict_get (lit name) kw with
  | Some v => v
  | None => default
  end.

(** [cls] called with the keyword arguments [kw]: the generated [__init__] raises [TypeError] on an
    unexpected keyword and on a missing field without default; field values
    are stored as given. *)
Definition new (cls : class_name) (kw : dict) : result value :=
  let sc := dataclass_schema cls in
  if existsb (fun kv => negb (existsb (str_eqb (fst kv)) (field_names sc))) kw
  then Raise TypeError
  else if existsb (fun r => match dict_get (lit r) kw with
                            | Some _ => false
                            | None => true
                            end) (required sc)
  then Raise TypeError
  else Ok (VObject cls
             (map (fun r => (lit r, field_value kw r VNone)) (required sc)
              ++ map (fun p => (lit (fst p), field_value kw (fst p) (snd p)))
                     (optional sc))).

(** [obj.name]. *)
Definition getattr (v : value) (name : string) : option value :=
  match v with
  | VObject _ fields => dict_get (lit name) fields
  | _ => None
  end.

(** [OrderStatus(v)]: the member whose value is [v]; [ValueError] when there
    is none. *)
Definition OrderStatus_call (v : value) : result OrderStatus :=
  match v with
  | VStatus s => Ok s
  | VStr s =>
      match find (fun m => str_eqb s (OrderStatus_value m)) OrderStatus_members with
      | Some m => Ok m
      | None => Raise ValueError
      end
  | _ => Raise ValueError
  end.

(** [data[k] = v]. *)
Definition setitem (data : value) (k : string) (v : value) : result value :=
  match data with
  | VDict d => Ok (VDict (dict_set (lit k) v d))
  | _ => Raise TypeError
  end.

(** The list comprehension that calls [cls] on the keywords of each [x]
    in [v]. *)
Definition new_each (cls : class_name) (v : value) : result value :=
  l <- iterate v ;;
  objs <- mapM (fun x => kw <- kwargs x ;; new cls kw) l ;;
  Ok (VList objs).

(** [Order.from_dict]. *)
Definition Order_from_dict (data : value) : result value :=
  st <- getitem data (lit "status") ;;
  s <- OrderStatus_call st ;;
  data <- setitem data "status" (VStatus s) ;;
  sa <- getitem data (lit "shipping_address") ;;
  kw <- kwargs sa ;;
  a <- new Address kw ;;
  data <- setitem data "shipping_address" a ;;
  ba <- getitem data (lit "billing_address") ;;
  kw <- kwargs ba ;;
  b <- new Address kw ;;
  data <- setitem data "billing_address" b ;;
  its <- getitem data (lit "items") ;;
  items <- new_each OrderItem its ;;
  data <- setitem data "items" items ;;
  kw <- kwargs data ;;
  new Order kw.

(** [Product.from_dict]: [data.pop("variants", [])], then the constructor
    on the remaining keys and the rebuilt variants. *)
Definition Product_from_dict (data : value) : result value :=
  match data with
  | VDict d =>
      let popped := match dict_get (lit "variants") d with
                    | Some v => v
                    | None => VList []
                    end in
      variants <- new_each ProductVariant popped ;;
      new Product (dict_set (lit "variants") variants (dict_remove (lit "variants") d))
  | VList _ => Raise TypeError
  | _ => Raise AttributeError
  end.

(** [PaginatedList(items=[f(x) for x in result["items"]], total=..., ...)]. *)
Definition paginated (f : value -> result value) (res : value) : result value :=
  its <- getitem res (lit "items") ;;
  l <- iterate its ;;
  items <- mapM f l ;;
  total <- getitem res (lit "total") ;;
  page <- getitem res (lit "page") ;;
  limit <- getitem res (lit "limit") ;;
  total_pages <- getitem res (lit "total_pages") ;;
  new PaginatedList
    (dict_of [("items", VList items); ("total", total); ("page", page);
              ("limit", limit); ("total_pages", total_pages)]).

End Codec.

(* ===================================================================== *)
(** * HTTP: requests, responses, the network and the trace of a call      *)
(* ===================================================================== *)

Module Http.
Import Py Types Obj.

(** The methods the routers pass to [_request]. *)
Inductive Method := GET | POST | PUT | PATCH | DELETE.

Definition Method_str (m : Method) : str :=
  match m with
  | GET => lit "GET"
  | POST => lit "POST"
  | PUT => lit "PUT"
  | PATCH => lit "PATCH"
  | DELETE => lit "DELETE"
  end.

(** The arguments of [session.request]. *)
Record Request := {
  method : Method;
  url : str;
  params : option dict;
  json : option dict;
  timeout : Z
}.

(** What the client looks at in a response: [status_code], [text], the
    outcome of [response.json()] ([None] when it raises [ValueError], the
    body not being JSON) and, for the retry policy, the [Retry-After] header
    in seconds when the response carries one. *)
Record Response := {
  status_code : Z;
  text : str;
  json_body : option value;
  retry_after : option N
}.

(** One attempt on the wire: a response, or a transport failure. *)
Inductive attempt :=
| Responded (r : Response)
| Failed (e : transport_error).

(** The remote side, as seen by one call: what its n-th attempt meets. *)
Definition network := nat -> attempt.

(** The observable steps of a call. *)
Inductive event :=
| EvSend (req : Request)
| EvSleep (seconds : Q)
| EvJson.

(** A computation with its trace. *)
Definition exec (A : Type) : Type := result A * list event.

Definition lift {A} (r : result A) : exec A := (r, []).

Definition ebind {A B} (m : exec A) (k : A -> exec B) : exec B :=
  match fst m with
  | Ok a => (fst (k a), snd m ++ snd (k a))
  | Raise e => (Raise e, snd m)
  end.

Definition outcome {A} (m : exec A) : result A := fst m.
Definition trace {A} (m : exec A) : list event := snd m.

(** The requests put on the wire and the sleeps between them. *)
Fixpoint sent (log : list event) : list Request :=
  match log with
  | [] => []
  | EvSend req :: log' => req :: sent log'
  | _ :: log' => sent log'
  end.

Fixpoint delays (log : list event) : list Q :=
  match log with
  | [] => []
  | EvSleep d :: log' => d :: delays log'
  | _ :: log' => delays log'
  end.

Fixpoint decodes (log : list event) : nat :=
  match log with
  | [] => O
  | EvJson :: log' => S (decodes log')
  | _ :: log' => decodes log'
  end.

Definition attempts {A} (m : exec A) : nat := length (sent (trace m)).

End Http.

Notation "x <~ c1 ;; c2" := (Http.ebind c1 (fun x => c2))
  (at level 61, c1 at next level, right associativity).

(* ===================================================================== *)
(** * The retry policy of the session: [urllib3.util.retry.Retry]         *)
(* ===================================================================== *)

(** The client builds [Retry(total=max_retries, backoff_factor=0.5,
    status_forcelist=[429, 500, 502, 503, 504])] and mounts it on its
    session; every other parameter of the policy keeps its default.  The
    retry loop itself is the library's ([Retry] and
    [HTTPConnectionPool.urlopen] of urllib3 1.26, [HTTPAdapter.send] of
    requests); it is written out here as far as the client's calls reach
    it. *)
Module Urllib3.
Import Py Types Obj Http.
Local Open Scope Z_scope.

Record Retry := {
  total : Z;
  backoff_factor : Q;
  status_forcelist : list Z;
  history : list retry_reason
}.

(** [Retry.DEFAULT_ALLOWED_METHODS]: the idempotent methods. *)
Definition DEFAULT_ALLOWED_METHODS : list str :=
  map lit ["HEAD"; "GET"; "PUT"; "DELETE"; "OPTIONS"; "TRACE"]%string.

Definition RETRY_AFTER_STATUS_CODES : list Z := [413; 429; 503].

Definition DEFAULT_BACKOFF_MAX : Q := 120.

Definition mem (x : Z) (l : list Z) : bool := existsb (Z.eqb x) l.

(** [_is_method_retryable]. *)
Definition is_method_retryable (m : Method) : bool :=
  existsb (str_eqb (Method_str m)) DEFAULT_ALLOWED_METHODS.

(** [_is_connection_error]: [ConnectTimeoutError] and its subclass
    [NewConnectionError]. *)
Definition is_connection_error (e : transport_error) : bool :=
  match e with
  | ConnectTimeoutError | NewConnectionError => true
  | _ => false
  end.

(** [_is_read_error]. *)
Definition is_read_error (e : transport_error) : bool :=
  match e with
  | ReadTimeoutError | ProtocolError => true
  | _ => false
  end.

(** [is_retry(method, status_code, has_retry_after)]. *)
Definition is_retry (r : Retry) (m : Method) (status : Z) (has_retry_after : bool) : bool :=
  if negb (is_method_retryable m) then false
  else if truthy (status_forcelist r) && mem status (status_forcelist r) then true
  else truthy (total r) && has_retry_after && mem status RETRY_AFTER_STATUS_CODES.

(** [is_exhausted]: [total] is the only counter that is set, and
    [filter(None, ...)] drops it when it is zero. *)
Definition is_exhausted (r : Retry) : bool :=
  match filter truthy [total r] with
  | [] => false
  | counts => fold_right Z.min (total r) counts <? 0
  end.

(** [get_backoff_time]: nothing before the second consecutive failure, then
    [backoff_factor * 2 ** (n - 1)] capped at [DEFAULT_BACKOFF_MAX].  The
    product is a [float]: it is exact as long as the power of two converts,
    and [2 ** 1024] raises [OverflowError]. *)
Definition get_backoff_time (r : Retry) : result Q :=
  let n := length (history r) in
  if (n <=? 1)%nat then Ok 0%Q
  else if (1024 <=? n - 1)%nat then Raise OverflowError
  else Ok (Qmin DEFAULT_BACKOFF_MAX
                (Qred (backoff_factor r * inject_Z (2 ^ Z.of_nat (n - 1))))).

(** [sleep(response)]: the [Retry-After] of the response when it has one
    that is not zero, the backoff otherwise; no sleep for a backoff of 0. *)
Definition sleep (r : Retry) (response : option Response) : result (list event) :=
  match match response with
        | Some rs => match retry_after rs with
                     | Some s => if truthy (Z.of_N s) then Some s else None
                     | None => None
                     end
        | None => None
        end with
  | Some s => Ok [EvSleep (inject_Z (Z.of_N s))]
  | None =>
      backoff <- get_backoff_time r ;;
      Ok (if Qle_bool backoff 0 then [] else [EvSleep backoff])
  end.

(** [increment]: one retry is consumed and the failure recorded; a read
    error on a method that is not retryable is raised again as it is, and
    running out of retries raises [MaxRetryError] with the failure as its
    reason. *)
Definition increment (r : Retry) (m : Method) (a : attempt) : result Retry :=
  let reason := match a with
                | Failed e => ReasonError e
                | Responded rs => ResponseError (status_code rs)
                end in
  let reraise := match a with
                 | Failed e =>
                     if is_connection_error e then None
                     else if is_read_error e && negb (is_method_retryable m)
                          then Some e else None
                 | Responded _ => None
                 end in
  match reraise with
  | Some e => Raise (Urllib3Error e)
  | None =>
      let new_retry := {| total := total r - 1;
                          backoff_factor := backoff_factor r;
                          status_forcelist := status_forcelist r;
                          history := history r ++ [reason] |} in
      if is_exhausted new_retry then Raise (MaxRetryError reason)
      else Ok new_retry
  end.

(** What one pass through the body of [urlopen] decides after its attempt:
    the call is over, or it goes round again with the incremented [Retry]
    after the given sleep. *)
Inductive pass :=
| Done (r : result Response)
| Again (retries : Retry) (slept : list event).

Definition urlopen_pass (retries : Retry) (m : Method) (a : attempt) : pass :=
  let retry :=
    match increment retries m a with
    | Raise x => Done (Raise x)
    | Ok retries' =>
        match sleep retries' (match a with Responded rs => Some rs | Failed _ => None end) with
        | Raise x => Done (Raise x)
        | Ok slept => Again retries' slept
        end
    end in
  match a with
  | Failed _ => retry
  | Responded rs =>
      let has_retry_after := match retry_after rs with Some _ => true | None => false end in
      if is_retry retries m (status_code rs) has_retry_after then retry
      else Done (Ok rs)
  end.

(** The termination argument of [urlopen]: a pass that goes round again has
    consumed one of the retries that were left. *)
Ltac increment_consumes Hi :=
  unfold increment in Hi;
  repeat match type of Hi with
         | context [is_connection_error ?e] =>
             destruct (is_connection_error e); cbv beta iota in Hi
         | context [is_read_error ?e && ?b] =>
             destruct (is_read_error e && b); cbv beta iota in Hi
         end;
  try discriminate Hi;
  match type of Hi with
  | context [is_exhausted ?x] =>
      let Hex := fresh "Hex" in
      let E0 := fresh "E0" in
      destruct (is_exhausted x) eqn:Hex; [discriminate Hi|];
      inversion Hi; subst; clear Hi;
      unfold is_exhausted in Hex; simpl in Hex;
      unfold truthy, truthy_int in Hex; simpl;
      match type of Hex with
      | context [?t =? 0] =>
          destruct (t =? 0) eqn:E0; simpl in Hex;
          [apply Z.eqb_eq in E0 | apply Z.ltb_ge in Hex]
      end
  end.

Ltac pass_decreases H :=
  match type of H with
  | urlopen_pass _ _ ?a = _ =>
      let a' := fresh "a" in
      revert H; generalize a; intros a' H
  end;
  unfold urlopen_pass in H;
  match type of H with
  | context [increment ?r ?m ?a] =>
      let Hi := fresh "Hi" in
      let Hs := fresh "Hs" in
      destruct (increment r m a) eqn:Hi;
      [ match type of H with
        | context [sleep ?r1 ?o] => destruct (sleep r1 o) eqn:Hs
        end |];
      (destruct a; [destruct (is_retry _ _ _ _)|]); inversion H; subst;
      increment_consumes Hi; lia
  end.

Definition inspect {A} (a : A) : {b : A | a = b} := exist _ a eq_refl.

(** [urlopen]: the attempt, and the recursive call for a retry.  [n] counts
    the attempts made so far; [total] goes down at each retry. *)
Equations urlopen (net : network) (req : Request) (retries : Retry) (n : nat)
  : exec Response by wf (Z.to_nat (total retries + 1)) lt :=
urlopen net req retries n with inspect (urlopen_pass retries (method req) (net n)) := {
  | exist _ (Done r) _ => (r, [EvSend req])
  | exist _ (Again retries' slept) H =>
      (fst (urlopen net req retries' (S n)),
       EvSend req :: slept ++ snd (urlopen net req retries' (S n)))
}.
Next Obligation. pass_decreases H. Qed.
Next Obligation. pass_decreases H. Qed.

(** [HTTPAdapter.send]: the exceptions of urllib3 become those of
    requests. *)
Definition HTTPAdapter_send (max_retries : Retry) (net : network) (req : Request)
  : exec Response :=
  let r := urlopen net req max_retries 0 in
  (match fst r with
   | Raise (MaxRetryError (ReasonError ConnectTimeoutError)) =>
       Raise (ConnectTimeout (ReasonError ConnectTimeoutError))
   | Raise (MaxRetryError (ResponseError s)) => Raise (RetryError (ResponseError s))
   | Raise (MaxRetryError reason) => Raise (ConnectionError reason)
   | Raise (Urllib3Error ReadTimeoutError) => Raise ReadTimeout
   | Raise (Urllib3Error e) => Raise (ConnectionError (ReasonError e))
   | other => other
   end, snd r).

End Urllib3.

(* ===================================================================== *)
(** * CLIENT: [ShopClient]                                                *)
(* ===================================================================== *)

Module Client.
Import Py Types Obj Http Urllib3.
Local Open Scope string_scope.
Local Open Scope list_scope.
Local Open Scope Z_scope.

(** [requests.Session] with the adapter mounted on both schemes. *)
Record Session := {
  adapter_max_retries : Retry;
  headers : list (str * str)
}.

(** [session.request], for a request that the session can prepare, as
    far as it is the adapter's [send]: every attempt that is answered, is
    answered without a redirect for the session to follow (a status of
    301, 302, 303, 307 or 308 with a [Location] header).  Preparing the
    request, which refuses a URL without scheme and a body with a NaN, and
    following redirects are requests' own and are not written out. *)
Definition Session_request (s : Session) (net : network) (req : Request)
  : exec Response :=
  HTTPAdapter_send (adapter_max_retries s) net req.

Record ShopClient := {
  api_key : str;
  base_url : str;
  client_timeout : Z;
  session : Session
}.

Definition DEFAULT_BASE_URL : str := lit "https://api.shop.com/v1".
Definition DEFAULT_TIMEOUT : Z := 30.
Definition DEFAULT_MAX_RETRIES : Z := 3.

(** [ShopClient.__init__]; an argument that is not passed is [None] here
    and takes the default of the signature. *)
Definition ShopClient_init (api_key : str) (base_url : option str)
    (timeout max_retries : option Z) : ShopClient :=
  let max_retries := match max_retries with
                     | Some n => n
                     | None => DEFAULT_MAX_RETRIES
                     end in
  let retry_strategy :=
    {| total := max_retries;
       backoff_factor := 0.5;
       status_forcelist := [429; 500; 502; 503; 504];
       history := [] |} in
  {| api_key := api_key;
     base_url := if truthy base_url
                 then match base_url with Some u => u | None => DEFAULT_BASE_URL end
                 else DEFAULT_BASE_URL;
     client_timeout := match timeout with Some t => t | None => DEFAULT_TIMEOUT end;
     session :=
       {| adapter_max_retries := retry_strategy;
          headers := [(lit "Authorization", lit "Bearer " ++ api_key);
                      (lit "Content-Type", lit "application/json");
                      (lit "User-Agent", lit "shop-python-sdk/1.0.0")] |} |}.

(** [error_data.get(key, default)] on what [response.json()] returned: only
    a dict has a [get]. *)
Definition get_or (error_data : value) (key : string) (default : value)
  : result value :=
  match error_data with
  | VDict d => Ok (match dict_get (lit key) d with Some v => v | None => default end)
  | _ => Raise AttributeError
  end.

(** [response.json()]. *)
Definition Response_json (response : Response) : exec value :=
  (match json_body response with
   | Some v => Ok v
   | None => Raise ValueError
   end, [EvJson]).

(** The [try] block of [_request] with its [except ValueError] handler. *)
Definition raise_for_error (response : Response) : exec value :=
  let attempt_envelope :=
    error_data <~ Response_json response ;;
    lift (code <- get_or error_data "code" (VStr (lit "unknown")) ;;
          message <- get_or error_data "message" (VStr (text response)) ;;
          details <- get_or error_data "details" VNone ;;
          Raise (ShopAPIError code message details)) in
  match fst attempt_envelope with
  | Raise ValueError =>
      (Raise (ShopAPIError
                (VStr (lit "http_error"))
                (VStr (lit "HTTP " ++ str_of_int (status_code response)
                       ++ lit ": " ++ text response))
                VNone),
       snd attempt_envelope)
  | _ => attempt_envelope
  end.

(** [ShopClient._request]. *)
Definition _request (self : ShopClient) (net : network) (method : Method)
    (path : str) (params json : option dict) : exec value :=
  let url := base_url self ++ path in
  response <~ Session_request (session self) net
                {| Http.method := method; url := url; params := params;
                   json := json; timeout := client_timeout self |} ;;
  if status_code response >=? 400 then raise_for_error response
  else if status_code response =? 204 then lift (Ok (VDict []))
  else Response_json response.

End Client.

(* ===================================================================== *)
(** * The resource routers                                                *)
(* ===================================================================== *)

(** An [Optional] argument as a Python value. *)
Definition opt_value {A} (f : A -> Obj.value) (o : option A) : Obj.value :=
  match o with
  | Some a => f a
  | None => Obj.VNone
  end.

(** PRODUCTS API *)
Module ProductsAPI.
Import Py Types Obj Http Codec Client.
Local Open Scope string_scope.
Local Open Scope list_scope.

Definition str_dict (d : list (str * str)) : value :=
  VDict (map (fun kv => (fst kv, VStr (snd kv))) d).

(** The body that [create] builds. *)
Definition create_data (sku name description : str) (price : float)
    (category_id : str) (images : option (list str)) (inventory : Z)
    (compare_at_price : option float) (attributes : option (list (str * str)))
  : dict :=
  let data :=
    dict_of [("sku", VStr sku);
             ("name", VStr name);
             ("description", VStr description);
             ("price", VFloat price);
             ("category_id", VStr category_id);
             ("images", if truthy images then opt_value (fun l => VList (map VStr l)) images
                        else VList []);
             ("inventory", VInt inventory)] in
  let data := if truthy compare_at_price
              then dict_set (lit "compare_at_price") (opt_value VFloat compare_at_price) data
              else data in
  let data := if truthy attributes
              then dict_set (lit "attributes") (opt_value str_dict attributes) data
              else data in
  data.

Definition create (self : ShopClient) (net : network) (sku name description : str)
    (price : float) (category_id : str) (images : option (list str)) (inventory : Z)
    (compare_at_price : option float) (attributes : option (list (str * str)))
  : exec value :=
  result <~ _request self net POST (lit "/products") None
              (Some (create_data sku name description price category_id images
                                 inventory compare_at_price attributes)) ;;
  lift (Product_from_dict result).

Definition get (self : ShopClient) (net : network) (product_id : str) : exec value :=
  result <~ _request self net GET (lit "/products/" ++ product_id) None None ;;
  lift (Product_from_dict result).

Definition update (self : ShopClient) (net : network) (product_id : str)
    (updates : dict) : exec value :=
  result <~ _request self net PUT (lit "/products/" ++ product_id) None (Some updates) ;;
  lift (Product_from_dict result).

Definition delete (self : ShopClient) (net : network) (product_id : str) : exec value :=
  _ <~ _request self net DELETE (lit "/products/" ++ product_id) None None ;;
  lift (Ok VNone).

(** The defaults of [page] and [limit] in the signature of [list]. *)
Definition default_page : Z := 1.
Definition default_limit : Z := 20.

(** The query parameters that [list] builds. *)
Definition list_params (page limit : Z) (category_id status search : option str)
  : dict :=
  let params := dict_of [("page", VInt page); ("limit", VInt limit)] in
  let params := if truthy category_id
                then dict_set (lit "category_id") (opt_value VStr category_id) params
                else params in
  let params := if truthy status
                then dict_set (lit "status") (opt_value VStr status) params
                else params in
  let params := if truthy search
                then dict_set (lit "search") (opt_value VStr search) params
                else params in
  params.

Definition list (self : ShopClient) (net : network) (page limit : Z)
    (category_id status search : option str) : exec value :=
  result <~ _request self net GET (lit "/products")
              (Some (list_params page limit category_id status search)) None ;;
  lift (paginated Product_from_dict result).

Definition update_inventory (self : ShopClient) (net : network) (product_id : str)
    (quantity : Z) : exec value :=
  _ <~ _request self net PATCH (lit "/products/" ++ product_id ++ lit "/inventory") None
         (Some (dict_of [("inventory", VInt quantity)])) ;;
  lift (Ok VNone).

Definition bulk_create (self : ShopClient) (net : network) (products : List.list dict)
  : exec value :=
  result <~ _request self net POST (lit "/products/bulk") None
              (Some (dict_of [("products", VList (map VDict products))])) ;;
  lift (l <- iterate result ;; ps <- mapM Product_from_dict l ;; Ok (VList ps)).

Definition bulk_update_inventory (self : ShopClient) (net : network)
    (updates : List.list dict) : exec value :=
  _ <~ _request self net PATCH (lit "/products/inventory/bulk") None
         (Some (dict_of [("updates", VList (map VDict updates))])) ;;
  lift (Ok VNone).

End ProductsAPI.

(** ORDERS API *)
Module OrdersAPI.
Import Py Types Obj Http Codec Client.
Local Open Scope string_scope.
Local Open Scope list_scope.

(** A [datetime], through the only thing the router asks of it. *)
Record datetime := { isoformat : str }.

#[global] Instance truthy_datetime : Truthy datetime := fun _ => true.

Definition get (self : ShopClient) (net : network) (order_id : str) : exec value :=
  result <~ _request self net GET (lit "/orders/" ++ order_id) None None ;;
  lift (Order_from_dict result).

Definition list_params (page limit : Z) (status : option OrderStatus)
    (since : option datetime) : dict :=
  let params := dict_of [("page", VInt page); ("limit", VInt limit)] in
  let params := if truthy status
                then dict_set (lit "status")
                       (opt_value (fun s => VStr (OrderStatus_value s)) status) params
                else params in
  let params := if truthy since
                then dict_set (lit "since")
                       (opt_value (fun d => VStr (isoformat d)) since) params
                else params in
  params.

Definition list (self : ShopClient) (net : network) (page limit : Z)
    (status : option OrderStatus) (since : option datetime) : exec value :=
  result <~ _request self net GET (lit "/orders")
              (Some (list_params page limit status since)) None ;;
  lift (paginated Order_from_dict result).

Definition update_status (self : ShopClient) (net : network) (order_id : str)
    (status : OrderStatus) : exec value :=
  result <~ _request self net PATCH (lit "/orders/" ++ order_id ++ lit "/status") None
              (Some (dict_of [("status", VStr (OrderStatus_value status))])) ;;
  lift (Order_from_dict result).

Definition add_tracking (self : ShopClient) (net : network)
    (order_id carrier tracking_number : str) : exec value :=
  _ <~ _request self net POST (lit "/orders/" ++ order_id ++ lit "/tracking") None
         (Some (dict_of [("carrier", VStr carrier);
                         ("tracking_number", VStr tracking_number)])) ;;
  lift (Ok VNone).

Definition fulfill (self : ShopClient) (net : network) (order_id : str)
    (items : List.list dict) : exec value :=
  _ <~ _request self net POST (lit "/orders/" ++ order_id ++ lit "/fulfill") None
         (Some (dict_of [("items", VList (map VDict items))])) ;;
  lift (Ok VNone).

Definition cancel_data (reason : option str) : dict :=
  dict_of [("reason", opt_value VStr reason)].

Definition cancel (self : ShopClient) (net : network) (order_id : str)
    (reason : option str) : exec value :=
  result <~ _request self net POST (lit "/orders/" ++ order_id ++ lit "/cancel") None
              (Some (cancel_data reason)) ;;
  lift (Order_from_dict result).

Definition refund_data (amount : option float) (reason : option str) : dict :=
  dict_of [("amount", opt_value VFloat amount); ("reason", opt_value VStr reason)].

Definition refund (self : ShopClient) (net : network) (order_id : str)
    (amount : option float) (reason : option str) : exec value :=
  result <~ _request self net POST (lit "/orders/" ++ order_id ++ lit "/refund") None
              (Some (refund_data amount reason)) ;;
  lift (Order_from_dict result).

End OrdersAPI.

(** WEBHOOKS API *)
Module WebhooksAPI.
Import Py Types Obj Http Codec Client.
Local Open Scope string_scope.
Local Open Scope list_scope.

Definition event_values (events : List.list WebhookEvent) : value :=
  VList (map (fun e => VStr (WebhookEvent_value e)) events).

Definition create (self : ShopClient) (net : network) (url : str)
    (events : List.list WebhookEvent) : exec value :=
  result <~ _request self net POST (lit "/webhooks") None
              (Some (dict_of [("url", VStr url); ("events", event_values events)])) ;;
  lift (kw <- kwargs result ;; new Webhook kw).

Definition delete (self : ShopClient) (net : network) (webhook_id : str) : exec value :=
  _ <~ _request self net DELETE (lit "/webhooks/" ++ webhook_id) None None ;;
  lift (Ok VNone).

Definition list (self : ShopClient) (net : network) : exec value :=
  result <~ _request self net GET (lit "/webhooks") None None ;;
  lift (new_each Webhook result).

Definition update_data (url : option str) (events : option (List.list WebhookEvent))
    (active : option bool) : dict :=
  let data := [] in
  let data := if truthy url
              then dict_set (lit "url") (opt_value VStr url) data else data in
  let data := if truthy events
              then dict_set (lit "events") (opt_value event_values events) data
              else data in
  let data := match active with
              | Some b => dict_set (lit "active") (VBool b) data
              | None => data
              end in
  data.

Definition update (self : ShopClient) (net : network) (webhook_id : str)
    (url : option str) (events : option (List.list WebhookEvent))
    (active : option bool) : exec value :=
  result <~ _request self net PATCH (lit "/webhooks/" ++ webhook_id) None
              (Some (update_data url events active)) ;;
  lift (kw <- kwargs result ;; new Webhook kw).

(** [verify_signature]: the hex digest of the HMAC-SHA256 of the payload
    under the secret, compared to the signature with
    [hmac.compare_digest]. *)
Definition expected_signature (payload secret : str) : result str :=
  key <- encode secret ;;
  msg <- encode payload ;;
  Ok (Hmac.hexdigest (Hmac.hmac_sha256 key msg)).

Definition verify_signature (payload signature secret : str) : result bool :=
  expected <- expected_signature payload secret ;;
  Hmac.compare_digest signature expected.

End WebhooksAPI.

(** CATEGORIES API *)
Module CategoriesAPI.
Import Py Types Obj Http Client.

Definition list (self : ShopClient) (net : network) : exec value :=
  _request self net GET (lit "/categories") None None.

Definition get (self : ShopClient) (net : network) (category_id : str) : exec value :=
  _request self net GET (lit "/categories/" ++ category_id) None None.

End CategoriesAPI.


(* ===================================================================== *)
(** * Vocabulary of the statements                                        *)
(* ===================================================================== *)

Module Spec.
Import Py Types Obj Http Urllib3 Client.
Local Open Scope string_scope.
Local Open Scope list_scope.
Local Open Scope Z_scope.

(** The status codes that the client asks its session to retry. *)
Definition RETRY_STATUSES : list Z := [429; 500; 502; 503; 504].

(** The request that [_request] hands to its session. *)
Definition request_of (self : ShopClient) (m : Method) (path : str)
    (params json : option dict) : Request :=
  {| method := m; url := base_url self ++ path; params := params;
     json := json; timeout := client_timeout self |}.

(** An attempt that the retry policy answers with a retry, for a method it
    may retry: any transport failure, or a response with one of the
    statuses above (and no [Retry-After] header to override the backoff). *)
Definition retryable_failure (a : attempt) : Prop :=
  match a with
  | Failed _ => True
  | Responded r => mem (status_code r) RETRY_STATUSES = true /\ retry_after r = None
  end.

(** The exception of requests that reports the failure of the last
    attempt once the retries are used up. *)
Definition surfaced (a : attempt) : exn :=
  match a with
  | Responded r => RetryError (ResponseError (status_code r))
  | Failed ConnectTimeoutError => ConnectTimeout (ReasonError ConnectTimeoutError)
  | Failed e => ConnectionError (ReasonError e)
  end.

(** The sleep before the attempt that follows [k] consecutive failures,
    for [k] at least 2: half a second doubled [k - 1] times, at most 120. *)
Definition backoff_delay (k : nat) : Q :=
  Qmin 120 (Qred (0.5 * inject_Z (2 ^ Z.of_nat (k - 1)))).

(** The typed error that [_request] raises for a failing response whose
    body is the JSON object [d]. *)
Definition envelope_error (r : Response) (d : dict) : exn :=
  ShopAPIError
    (match dict_get (lit "code") d with Some v => v | None => VStr (lit "unknown") end)
    (match dict_get (lit "message") d with Some v => v | None => VStr (text r) end)
    (match dict_get (lit "details") d with Some v => v | None => VNone end).

(** The typed error that [_request] raises for a failing response whose
    body is not JSON. *)
Definition http_error (r : Response) : exn :=
  ShopAPIError
    (VStr (lit "http_error"))
    (VStr (lit "HTTP " ++ str_of_int (status_code r) ++ lit ": " ++ text r))
    VNone.

(** A string that [encode] accepts: code points that are not surrogates. *)
Definition encodable (s : str) : bool :=
  forallb (fun c => ((c <? 0xD800) || ((0xDFFF <? c) && (c <=? 0x10FFFF)))%N) s.


(** A field that is left out of a body or of the query parameters. *)
Definition omitted (k : string) (d : dict) : Prop := dict_get (lit k) d = None.

(** The reason that [MaxRetryError] carries for a failed attempt. *)
Definition reason_of (a : attempt) : retry_reason :=
  match a with
  | Failed e => ReasonError e
  | Responded r => ResponseError (status_code r)
  end.

(** The sleep after [k] consecutive failures. *)
Definition backoff_events (k : nat) : list event :=
  if (k <=? 1)%nat then [] else [EvSleep (backoff_delay k)].

(** The trace of a call that fails [S t] times in a row, starting after [h]
    recorded failures. *)
Fixpoint exhausted_log (req : Request) (h t : nat) : list event :=
  match t with
  | O => [EvSend req]
  | S t' => EvSend req :: backoff_events (S h) ++ exhausted_log req (S h) t'
  end.

(** The events of a sleep. *)
Definition is_sleep (ev : event) : Prop :=
  match ev with
  | EvSleep _ => True
  | _ => False
  end.

(** The bodies and the query parameters of the requests of a call. *)
Definition every_body (P : dict -> Prop) (call : exec value) : Prop :=
  sent (trace call) <> []
  /\ forall req, In req (sent (trace call)) -> exists d, json req = Some d /\ P d.

Definition every_query (P : dict -> Prop) (call : exec value) : Prop :=
  sent (trace call) <> []
  /\ forall req, In req (sent (trace call)) -> exists d, params req = Some d /\ P d.

(** An order object whose parts other than [status] decode: both addresses
    and every item are accepted by their dataclass, and the keys are those
    of [Order]. *)
Definition decodable_parts (d : dict) : Prop :=
  (exists sa kw a, dict_get (lit "shipping_address") d = Some sa
                   /\ kwargs sa = Ok kw /\ Codec.new Address kw = Ok a)
  /\ (exists ba kw b, dict_get (lit "billing_address") d = Some ba
                      /\ kwargs ba = Ok kw /\ Codec.new Address kw = Ok b)
  /\ (exists its items, dict_get (lit "items") d = Some its
                        /\ Codec.new_each OrderItem its = Ok items)
  /\ (exists o, Codec.new Order d = Ok o).

(** A raw order as the API returns it, up to its status. *)
Definition raw_address : value :=
  VDict (dict_of [("first_name", VStr (lit "Ada")); ("last_name", VStr (lit "Lovelace"));
                  ("address1", VStr (lit "12 St James Square")); ("city", VStr (lit "London"));
                  ("region", VStr (lit "LND")); ("postal_code", VStr (lit "SW1Y 4JH"));
                  ("country", VStr (lit "GB"))]).

Definition raw_item : value :=
  VDict (dict_of [("product_id", VStr (lit "p1")); ("sku", VStr (lit "S-1"));
                  ("name", VStr (lit "Shoe")); ("quantity", VInt 2);
                  ("price", VFloat 10%float); ("total_price", VFloat 20%float)]).

Definition raw_order (status : string) : dict :=
  dict_of [("id", VStr (lit "o1")); ("order_number", VStr (lit "1001"));
           ("status", VStr (lit status));
           ("customer_email", VStr (lit "ada@example.com"));
           ("customer_name", VStr (lit "Ada Lovelace"));
           ("shipping_address", raw_address); ("billing_address", raw_address);
           ("items", VList [raw_item]);
           ("subtotal", VFloat 20%float); ("shipping_cost", VFloat 5%float);
           ("tax", VFloat 0%float); ("discount", VFloat 0%float);
           ("total", VFloat 25%float); ("currency", VStr (lit "GBP"));
           ("created_at", VStr (lit "2024-01-01T00:00:00Z"));
           ("updated_at", VStr (lit "2024-01-02T00:00:00Z"))].

(** The signature of "payload" under "secret". *)
Definition payload_signature : str :=
  lit "b82fcb791acec57859b989b430a826488ce2e479fdf92326bd0a2e8375a42ba4".


(** The statuses for which requests follows the [Location] header of a
    response ([requests.models.REDIRECT_STATI]). *)
Definition REDIRECT_STATI : list Z := [301; 302; 303; 307; 308].

(** An attempt whose answer leaves the session no redirect to follow. *)
Definition not_redirected (a : attempt) : bool :=
  match a with
  | Responded r => negb (mem (status_code r) REDIRECT_STATI)
  | Failed _ => true
  end.

(** A call whose attempts are all made with the arguments that the router
    gives to [_request]: method, path, query parameters and body. *)
Definition carries (self : ShopClient) (call : exec value) (m : Method) (path : str)
    (params json : option dict) : Prop :=
  forall req, In req (sent (trace call)) -> req = request_of self m path params json.

(** The exception (or the result) that [_request] draws from a failing
    response. *)
Definition classified (r : Response) : exn :=
  match json_body r with
  | Some (VDict d) => envelope_error r d
  | Some _ => AttributeError
  | None => http_error r
  end.

(** What [_request] does after its session has returned a response. *)
Definition after_response (response : Response) : exec value :=
  if (status_code response >=? 400)%Z then raise_for_error response
  else if (status_code response =? 204)%Z then lift (Ok (VDict []))
  else Response_json response.


(** A failed attempt after which the session tries again, as long as it has
    retries left: a connection failure for any method; for the methods the
    policy may retry, also a read failure or a response with one of the
    retried statuses (and no [Retry-After] header to override the
    backoff). *)
Definition retried (m : Method) (a : attempt) : Prop :=
  match a with
  | Failed e => is_connection_error e = true \/ is_method_retryable m = true
  | Responded r =>
      is_method_retryable m = true
      /\ mem (status_code r) RETRY_STATUSES = true /\ retry_after r = None
  end.

(** A response that ends the call of the session: it is not a redirect
    that the session would follow, and the policy does not retry it. *)
Definition settles (m : Method) (r : Response) : Prop :=
  mem (status_code r) REDIRECT_STATI = false
  /\ (is_method_retryable m = false
      \/ (mem (status_code r) RETRY_STATUSES = false
          /\ (status_code r <> 413 \/ retry_after r = None))).

(** The value that [_request] returns for a response below 400. *)
Definition returned (r : Response) : result value :=
  if (status_code r =? 204)%Z then Ok (VDict [])
  else match json_body r with
       | Some v => Ok v
       | None => Raise ValueError
       end.

(** A result that is thrown away: [None] is returned in its place. *)
Definition discarded (res : result value) : result value :=
  match res with
  | Ok _ => Ok VNone
  | Raise e => Raise e
  end.


End Spec.

(* ===================================================================== *)
(** * Strings and dicts                                                   *)
(* ===================================================================== *)

Module PyFacts.
Import Py Types Obj.

Lemma str_eqb_refl (s : str) : str_eqb s s = true.
Proof.
  induction s as [|c s IH]; simpl; [reflexivity|].
  now rewrite N.eqb_refl, IH.
Qed.

Lemma str_eqb_eq (a b : str) : str_eqb a b = true <-> a = b.
Proof.
  split.
  - revert b. induction a as [|x a IH]; intros [|y b] H; simpl in H;
      try discriminate; [reflexivity|].
    apply andb_true_iff in H. destruct H as [Hx Hab].
    apply N.eqb_eq in Hx. apply IH in Hab. now subst.
  - intros ->. apply str_eqb_refl.
Qed.

Lemma str_eqb_neq (a b : str) : str_eqb a b = false <-> a <> b.
Proof.
  split.
  - intros H E. apply str_eqb_eq in E. congruence.
  - intros H. destruct (str_eqb a b) eqn:E; [|reflexivity].
    apply str_eqb_eq in E. contradiction.
Qed.

Lemma dict_get_set_same k v d : dict_get k (dict_set k v d) = Some v.
Proof.
  induction d as [|[k' v'] d IH]; simpl.
  - now rewrite str_eqb_refl.
  - destruct (str_eqb k k') eqn:E; simpl; rewrite E; [reflexivity | exact IH].
Qed.

Lemma dict_get_set_other k k' v d :
  k <> k' -> dict_get k (dict_set k' v d) = dict_get k d.
Proof.
  intros Hne. induction d as [|[k0 v0] d IH]; simpl.
  - apply str_eqb_neq in Hne. now rewrite Hne.
  - destruct (str_eqb k' k0) eqn:E; simpl.
    + apply str_eqb_eq in E. subst k0. apply str_eqb_neq in Hne.
      now rewrite Hne.
    + now rewrite IH.
Qed.

Lemma dict_set_keys k v d x :
  dict_get k d = Some x -> map fst (dict_set k v d) = map fst d.
Proof.
  induction d as [|[k0 v0] d IH]; simpl; [discriminate|].
  destruct (str_eqb k k0) eqn:E; simpl; [reflexivity|].
  intros H. now rewrite IH.
Qed.

Lemma dict_get_keys k d d' :
  map fst d = map fst d' ->
  (dict_get k d = None <-> dict_get k d' = None).
Proof.
  revert d'. induction d as [|[k0 v0] d IH]; intros [|[k1 v1] d'] H;
    simpl in *; try discriminate; [tauto|].
  inversion H; subst. destruct (str_eqb k k1); [split; discriminate|].
  now apply IH.
Qed.

End PyFacts.

(* ===================================================================== *)
(** * The request executor                                                *)
(* ===================================================================== *)

Module ExecutorFacts.
Import Py Types Obj Http Urllib3 Client Spec.
Local Open Scope Z_scope.

(** The recursion of [urlopen], unfolded once. *)
Lemma urlopen_unfold net req retries n :
  urlopen net req retries n =
  match urlopen_pass retries (method req) (net n) with
  | Done r => (r, [EvSend req])
  | Again retries' slept =>
      (fst (urlopen net req retries' (S n)),
       EvSend req :: slept ++ snd (urlopen net req retries' (S n)))
  end.
Proof.
  rewrite urlopen_equation_1.
  generalize (inspect (urlopen_pass retries (method req) (net n))).
  intros [p e]. destruct p; simpl; rewrite e; reflexivity.
Qed.

(** A pass that goes round again went through [increment] and [sleep]. *)
Lemma urlopen_pass_again retries m a retries' slept :
  urlopen_pass retries m a = Again retries' slept ->
  increment retries m a = Ok retries'
  /\ sleep retries' (match a with Responded rs => Some rs | Failed _ => None end)
     = Ok slept.
Proof.
  unfold urlopen_pass. intros H.
  destruct (increment retries m a) as [r1|x] eqn:Hi.
  - destruct (sleep r1 _) as [evs|x] eqn:Hs.
    + destruct a as [rs|e]; [destruct (is_retry _ _ _ _)|];
        inversion H; subst; split; (reflexivity || exact Hs).
    + destruct a as [rs|e]; [destruct (is_retry _ _ _ _)|]; discriminate.
  - destruct a as [rs|e]; [destruct (is_retry _ _ _ _)|]; discriminate.
Qed.

Lemma sleep_only_sleeps retries response slept :
  sleep retries response = Ok slept -> Forall is_sleep slept.
Proof.
  unfold sleep.
  match goal with
  | |- context [match ?o with Some s => Ok _ | None => _ end] => destruct o
  end.
  - intros H; inversion H; subst. repeat constructor.
  - destruct (get_backoff_time retries) as [b|x]; simpl; [|discriminate].
    intros H; inversion H; subst.
    destruct (Qle_bool b 0); repeat constructor.
Qed.

Lemma sent_sleeps l l' : Forall is_sleep l -> sent (l ++ l') = sent l'.
Proof.
  induction 1 as [|ev l Hev _ IH]; [reflexivity|].
  destruct ev; try contradiction. exact IH.
Qed.

Lemma decodes_sleeps l l' : Forall is_sleep l -> decodes (l ++ l') = decodes l'.
Proof.
  induction 1 as [|ev l Hev _ IH]; [reflexivity|].
  destruct ev; try contradiction. exact IH.
Qed.

Lemma delays_sleeps l l' :
  Forall is_sleep l -> delays (l ++ l') = delays l ++ delays l'.
Proof.
  induction 1 as [|ev l Hev _ IH]; [reflexivity|].
  destruct ev; try contradiction. simpl. now rewrite IH.
Qed.

(** Every request of a call is the one request it was given, and there is
    at least one. *)
Lemma urlopen_sent net req retries n :
  exists k, sent (snd (urlopen net req retries n)) = repeat req (S k).
Proof.
  apply (urlopen_elim
           (fun net req retries n res =>
              exists k, sent (snd res) = repeat req (S k))).
  - intros net0 req0 retries0 n0 r e _. exists O. reflexivity.
  - intros net0 req0 retries0 n0 retries' slept H [k IH] _.
    exists (S k). simpl. f_equal.
    apply urlopen_pass_again in H. destruct H as [_ Hs].
    apply sleep_only_sleeps in Hs.
    rewrite (sent_sleeps _ _ Hs). exact IH.
Qed.

(** The session itself never decodes a body. *)
Lemma urlopen_decodes net req retries n :
  decodes (snd (urlopen net req retries n)) = O.
Proof.
  apply (urlopen_elim (fun net req retries n res => decodes (snd res) = O)).
  - intros net0 req0 retries0 n0 r e _. reflexivity.
  - intros net0 req0 retries0 n0 retries' slept H IH _.
    simpl. apply urlopen_pass_again in H. destruct H as [_ Hs].
    apply sleep_only_sleeps in Hs.
    rewrite (decodes_sleeps _ _ Hs). exact IH.
Qed.

Section Configured.

Variables (api_key : str) (base_url : option str) (timeout max_retries : option Z).

Let self := ShopClient_init api_key base_url timeout max_retries.
Let retries := adapter_max_retries (session self).

(** The statuses of the policy are the ones of the source. *)
Lemma configured_forcelist : status_forcelist retries = RETRY_STATUSES.
Proof. reflexivity. Qed.

Lemma configured_backoff_factor : backoff_factor retries = 0.5%Q.
Proof. reflexivity. Qed.

Lemma configured_history : history retries = [].
Proof. reflexivity. Qed.

(** A response that the policy does not retry ends the call of the session
    at the first attempt. *)
Lemma session_first_response net m path params json r :
  net O = Responded r ->
  is_retry retries m (status_code r)
    (match retry_after r with Some _ => true | None => false end) = false ->
  Session_request (session self) net (request_of self m path params json)
  = (Ok r, [EvSend (request_of self m path params json)]).
Proof.
  intros Hnet Hno. unfold Session_request, HTTPAdapter_send.
  fold retries. rewrite urlopen_unfold. rewrite Hnet.
  unfold urlopen_pass. simpl method. rewrite Hno. reflexivity.
Qed.

Lemma not_retried_status m r :
  mem (status_code r) RETRY_STATUSES = false ->
  (status_code r <> 413 \/ retry_after r = None) ->
  is_retry retries m (status_code r)
    (match retry_after r with Some _ => true | None => false end) = false.
Proof.
  intros Hfl Hra. unfold is_retry. rewrite configured_forcelist.
  destruct (negb (is_method_retryable m)); [reflexivity|].
  rewrite Hfl. rewrite andb_false_r.
  destruct (retry_after r) eqn:Era; [|now rewrite andb_false_r].
  destruct Hra as [Hra|Hra]; [|discriminate].
  rewrite andb_true_r. apply andb_false_iff. right.
  unfold RETRY_AFTER_STATUS_CODES, mem. simpl.
  unfold mem, RETRY_STATUSES in Hfl. simpl in Hfl.
  repeat (apply orb_false_iff in Hfl; destruct Hfl as [? Hfl]).
  destruct (status_code r =? 413) eqn:E413; [apply Z.eqb_eq in E413; contradiction|].
  simpl. rewrite H, H2. reflexivity.
Qed.

Lemma not_retried_method m r :
  is_method_retryable m = false ->
  is_retry retries m (status_code r)
    (match retry_after r with Some _ => true | None => false end) = false.
Proof. intros H. unfold is_retry. now rewrite H. Qed.

(** What [_request] does with the response its session returns. *)
Lemma request_of_response net m path params json r :
  Session_request (session self) net (request_of self m path params json)
  = (Ok r, [EvSend (request_of self m path params json)]) ->
  _request self net m path params json
  = (fst (if status_code r >=? 400 then raise_for_error r
          else if status_code r =? 204 then lift (Ok (VDict []))
          else Response_json r),
     EvSend (request_of self m path params json)
       :: snd (if status_code r >=? 400 then raise_for_error r
               else if status_code r =? 204 then lift (Ok (VDict []))
               else Response_json r)).
Proof.
  intros H. unfold _request. unfold request_of in H. rewrite H.
  unfold ebind. simpl. reflexivity.
Qed.

Lemma raise_for_error_object r d :
  json_body r = Some (VDict d) ->
  raise_for_error r = (Raise (envelope_error r d), [EvJson]).
Proof.
  intros H. unfold raise_for_error, Response_json, ebind, lift. rewrite H.
  reflexivity.
Qed.

Lemma raise_for_error_not_json r :
  json_body r = None ->
  raise_for_error r = (Raise (http_error r), [EvJson]).
Proof.
  intros H. unfold raise_for_error, Response_json, ebind, lift. rewrite H.
  reflexivity.
Qed.

Lemma raise_for_error_not_object r v :
  json_body r = Some v ->
  (forall d, v <> VDict d) ->
  raise_for_error r = (Raise AttributeError, [EvJson]).
Proof.
  intros H Hv. unfold raise_for_error, Response_json, ebind, lift. rewrite H.
  destruct v; try reflexivity. exfalso. eapply Hv. reflexivity.
Qed.

End Configured.

End ExecutorFacts.

(* ===================================================================== *)
(** * Exhausting the retries                                              *)
(* ===================================================================== *)

Module RetryFacts.
Import Py Types Obj Http Urllib3 Client Spec ExecutorFacts.
Local Open Scope Z_scope.

Lemma backoff_delay_positive k : Qle_bool (backoff_delay k) 0 = false.
Proof.
  destruct (Qle_bool (backoff_delay k) 0) eqn:E; [|reflexivity].
  apply Qle_bool_iff in E. exfalso.
  apply (Qlt_irrefl 0). eapply Qlt_le_trans; [|exact E].
  unfold backoff_delay. apply Q.min_glb_lt; [reflexivity|].
  rewrite Qred_correct.
  apply Qmult_lt_0_compat; [reflexivity|].
  change 0%Q with (inject_Z 0). rewrite <- Zlt_Qlt.
  apply Z.pow_pos_nonneg; lia.
Qed.

Lemma get_backoff_time_configured t hist :
  (length hist <= 1024)%nat ->
  get_backoff_time {| total := t; backoff_factor := 0.5;
                      status_forcelist := RETRY_STATUSES; history := hist |}
  = Ok (if (length hist <=? 1)%nat then 0%Q else backoff_delay (length hist)).
Proof.
  intros Hlen. unfold get_backoff_time. cbn [history backoff_factor].
  destruct (length hist <=? 1)%nat eqn:E1; [reflexivity|].
  destruct (1024 <=? length hist - 1)%nat eqn:E2; [|reflexivity].
  apply Nat.leb_le in E2. apply Nat.leb_gt in E1. lia.
Qed.

Lemma sleep_configured t hist response :
  (length hist <= 1024)%nat ->
  match response with Some rs => retry_after rs = None | None => True end ->
  sleep {| total := t; backoff_factor := 0.5;
           status_forcelist := RETRY_STATUSES; history := hist |} response
  = Ok (backoff_events (length hist)).
Proof.
  intros Hlen Hra. unfold sleep.
  assert (E : match response with
              | Some rs => match retry_after rs with
                           | Some s => if truthy (Z.of_N s) then Some s else None
                           | None => None
                           end
              | None => None
              end = None).
  { destruct response as [rs|]; [now rewrite Hra | reflexivity]. }
  rewrite E. rewrite get_backoff_time_configured by exact Hlen.
  unfold bind, backoff_events.
  destruct (length hist <=? 1)%nat; [reflexivity|].
  now rewrite backoff_delay_positive.
Qed.

(** One pass on a failure that the policy retries. *)
Lemma urlopen_pass_retryable t hist m a :
  is_method_retryable m = true ->
  retryable_failure a ->
  (length hist + t <= 1024)%nat ->
  urlopen_pass {| total := Z.of_nat t; backoff_factor := 0.5;
                  status_forcelist := RETRY_STATUSES; history := hist |} m a
  = match t with
    | O => Done (Raise (MaxRetryError (reason_of a)))
    | S t' =>
        Again {| total := Z.of_nat t'; backoff_factor := 0.5;
                 status_forcelist := RETRY_STATUSES;
                 history := hist ++ [reason_of a] |}
              (backoff_events (S (length hist)))
    end.
Proof.
  intros Hm Ha Hlen.
  assert (Hinc : increment {| total := Z.of_nat t; backoff_factor := 0.5;
                              status_forcelist := RETRY_STATUSES; history := hist |} m a
                 = match t with
                   | O => Raise (MaxRetryError (reason_of a))
                   | S t' => Ok {| total := Z.of_nat t'; backoff_factor := 0.5;
                                   status_forcelist := RETRY_STATUSES;
                                   history := hist ++ [reason_of a] |}
                   end).
  { unfold increment.
    assert (Hre : match a with
                  | Failed e =>
                      if is_connection_error e then None
                      else if is_read_error e && negb (is_method_retryable m)
                           then Some e else None
                  | Responded _ => None
                  end = None).
    { destruct a as [rs|e]; [reflexivity|]. rewrite Hm.
      rewrite andb_false_r. now destruct (is_connection_error e). }
    rewrite Hre. fold (reason_of a). unfold is_exhausted. simpl.
    unfold truthy, truthy_int.
    destruct t as [|t'].
    - reflexivity.
    - replace (Z.of_nat (S t') - 1) with (Z.of_nat t') by lia.
      destruct (Z.of_nat t' =? 0) eqn:E0; simpl; [reflexivity|].
      assert (Hlt : (Z.min (Z.of_nat t') (Z.of_nat t') <? 0) = false)
        by (apply Z.ltb_ge; lia).
      now rewrite Hlt. }
  unfold urlopen_pass. rewrite Hinc.
  assert (Hretry : match a with
                   | Responded rs =>
                       is_retry {| total := Z.of_nat t; backoff_factor := 0.5;
                                   status_forcelist := RETRY_STATUSES; history := hist |}
                         m (status_code rs)
                         (match retry_after rs with Some _ => true | None => false end)
                       = true
                   | Failed _ => True
                   end).
  { destruct a as [rs|e]; [|exact I]. destruct Ha as [Hst _].
    unfold is_retry. rewrite Hm. simpl. simpl in Hst. now rewrite Hst. }
  destruct t as [|t'].
  - destruct a as [rs|e]; [now rewrite Hretry | reflexivity].
  - rewrite sleep_configured.
    + rewrite length_app. simpl length. rewrite Nat.add_1_r.
      destruct a as [rs|e]; [now rewrite Hretry | reflexivity].
    + rewrite length_app. simpl. lia.
    + destruct a as [rs|e]; [apply Ha | exact I].
Qed.

(** A call whose attempts all fail in a way the policy retries uses up its
    retries and raises [MaxRetryError] for the last failure. *)
Lemma urlopen_exhausts net req :
  is_method_retryable (method req) = true ->
  (forall k, retryable_failure (net k)) ->
  forall t hist n,
    (length hist + t <= 1024)%nat ->
    urlopen net req {| total := Z.of_nat t; backoff_factor := 0.5;
                       status_forcelist := RETRY_STATUSES; history := hist |} n
    = (Raise (MaxRetryError (reason_of (net (n + t)%nat))),
       exhausted_log req (length hist) t).
Proof.
  intros Hm Hnet. induction t as [|t IH]; intros hist n Hlen.
  - rewrite urlopen_unfold, urlopen_pass_retryable by auto.
    now rewrite Nat.add_0_r.
  - rewrite urlopen_unfold, urlopen_pass_retryable by auto.
    rewrite IH by (rewrite length_app; simpl; lia).
    rewrite length_app. simpl length. rewrite Nat.add_1_r.
    simpl fst. simpl snd. replace (S n + t)%nat with (n + S t)%nat by lia.
    replace (S (n + t)) with (n + S t)%nat by lia. reflexivity.
Qed.

Lemma backoff_events_sleeps k : Forall is_sleep (backoff_events k).
Proof. unfold backoff_events. destruct (k <=? 1)%nat; repeat constructor. Qed.

Lemma exhausted_log_sent req h t :
  sent (exhausted_log req h t) = repeat req (S t).
Proof.
  revert h. induction t as [|t IH]; intros h; [reflexivity|].
  simpl. f_equal. rewrite (sent_sleeps _ _ (backoff_events_sleeps _)). apply IH.
Qed.

Lemma exhausted_log_decodes req h t : decodes (exhausted_log req h t) = O.
Proof.
  revert h. induction t as [|t IH]; intros h; [reflexivity|].
  simpl. rewrite (decodes_sleeps _ _ (backoff_events_sleeps _)). apply IH.
Qed.

Lemma exhausted_log_delays_from req h t :
  (1 <= h)%nat ->
  delays (exhausted_log req h t) = map backoff_delay (seq (S h) t).
Proof.
  revert h. induction t as [|t IH]; intros h Hh; [reflexivity|].
  simpl. rewrite (delays_sleeps _ _ (backoff_events_sleeps _)).
  rewrite IH by lia. unfold backoff_events.
  destruct h as [|h']; [lia|]. reflexivity.
Qed.

Lemma exhausted_log_delays req t :
  delays (exhausted_log req 0 t) = map backoff_delay (seq 2 (t - 1)).
Proof.
  destruct t as [|t]; [reflexivity|].
  simpl. rewrite exhausted_log_delays_from by lia.
  now rewrite Nat.sub_0_r.
Qed.

End RetryFacts.

(* ===================================================================== *)
(** * Request Executor and Error Classifier: the claims                   *)
(* ===================================================================== *)

Module RequestExecutor.
Import Py Types Obj Http Urllib3 Client Spec ExecutorFacts RetryFacts.
Local Open Scope Z_scope.

Lemma retryable_methods m :
  is_method_retryable m = true <-> In m [GET; PUT; DELETE].
Proof.
  destruct m; vm_compute; split; intros H; try discriminate; try reflexivity;
    try tauto;
    repeat match goal with
           | H : _ \/ _ |- _ => destruct H as [H|H]; try discriminate
           | H : False |- _ => destruct H
           end.
Qed.

Lemma retry_status_is_failure s : mem s RETRY_STATUSES = true -> 400 <= s.
Proof.
  unfold mem, RETRY_STATUSES. simpl. rewrite !orb_true_iff.
  rewrite !Z.eqb_eq. lia.
Qed.

(** A failing response that is not retried: one attempt, no sleep, and the
    response goes to the error classifier. *)
Lemma failing_response_not_retried api_key base_url timeout max_retries
    net m path params json r :
  let self := ShopClient_init api_key base_url timeout max_retries in
  net O = Responded r ->
  400 <= status_code r ->
  is_retry (adapter_max_retries (session self)) m (status_code r)
    (match retry_after r with Some _ => true | None => false end) = false ->
  _request self net m path params json
  = (fst (raise_for_error r),
     EvSend (request_of self m path params json) :: snd (raise_for_error r)).
Proof.
  intros self Hnet Hst Hno. subst self.
  rewrite (request_of_response api_key base_url timeout max_retries
             net m path params json r).
  - assert (E : (status_code r >=? 400) = true) by (apply Z.geb_le; lia).
    now rewrite E.
  - now apply session_first_response.
Qed.

(** C1, as amended.  With the policy that the client configures (default
    [max_retries] 3), a call whose every attempt meets a status in
    {429, 500, 502, 503, 504} or a transport failure makes exactly
    [max_retries + 1] attempts when its method is GET, PUT or DELETE; it
    does not sleep before the first retry and sleeps
    min(120, 0.5 * 2^(k-1)) seconds before the k-th one (1, 2, 4, ...),
    and the exception that reaches the caller reports the failure of the
    last attempt.  For POST and PATCH a response with such a status is not
    retried: one attempt, and the typed error of the response. *)
Theorem retry_policy :
  forall api_key base_url timeout (max_retries : Z) net m path params json,
    0 <= max_retries <= 1024 ->
    (forall k, retryable_failure (net k)) ->
    let self := ShopClient_init api_key base_url timeout (Some max_retries) in
    let call := _request self net m path params json in
    ShopClient_init api_key base_url timeout None
    = ShopClient_init api_key base_url timeout (Some 3)
    /\ (In m [GET; PUT; DELETE] ->
        attempts call = S (Z.to_nat max_retries)
        /\ delays (trace call) = map backoff_delay (seq 2 (Z.to_nat max_retries - 1))
        /\ outcome call = Raise (surfaced (net (Z.to_nat max_retries))))
    /\ map backoff_delay [2; 3; 4; 5; 6; 7; 8; 9]%nat
       = [1; 2; 4; 8; 16; 32; 64; 120]%Q
    /\ (In m [POST; PATCH] ->
        forall r, net O = Responded r ->
          attempts call = 1%nat
          /\ delays (trace call) = []
          /\ (forall d, json_body r = Some (VDict d) ->
                outcome call = Raise (envelope_error r d))
          /\ (json_body r = None -> outcome call = Raise (http_error r))).
Proof.
  intros api_key base_url timeout max_retries net m path params json
         Hmr Hnet self call. subst call self.
  set (self := ShopClient_init api_key base_url timeout (Some max_retries)).
  set (call := _request self net m path params json).
  split; [reflexivity|]. split; [|split; [vm_compute; reflexivity|]].
  - intros Hm. apply retryable_methods in Hm.
    assert (Hopen :
      urlopen net (request_of self m path params json)
        (adapter_max_retries (session self)) 0
      = (Raise (MaxRetryError (reason_of (net (Z.to_nat max_retries)))),
         exhausted_log (request_of self m path params json) 0
                       (Z.to_nat max_retries))).
    { pose proof (urlopen_exhausts net (request_of self m path params json)
                    Hm Hnet (Z.to_nat max_retries) [] 0%nat) as H.
      simpl length in H. rewrite Nat.add_0_l in H.
      rewrite Z2Nat.id in H by lia.
      apply H. lia. }
    assert (Hcall :
      call = (Raise (surfaced (net (Z.to_nat max_retries))),
              exhausted_log (request_of self m path params json) 0
                            (Z.to_nat max_retries))).
    { unfold call, _request, Session_request, HTTPAdapter_send.
      unfold request_of in Hopen. rewrite Hopen. unfold ebind. simpl fst.
      simpl snd. f_equal.
      destruct (net (Z.to_nat max_retries)) as [rs|[]]; reflexivity. }
    rewrite Hcall. unfold attempts, trace, outcome. simpl fst. simpl snd.
    rewrite exhausted_log_sent, exhausted_log_delays, repeat_length.
    repeat split.
  - intros Hm r Hr.
    assert (Hno : is_method_retryable m = false).
    { destruct Hm as [<-|[<-|[]]]; reflexivity. }
    pose proof (Hnet O) as H0. rewrite Hr in H0. destruct H0 as [Hst _].
    apply retry_status_is_failure in Hst.
    assert (Hcall := failing_response_not_retried api_key base_url timeout
                       (Some max_retries) net m path params json r Hr Hst
                       (not_retried_method api_key base_url timeout
                          (Some max_retries) m r Hno)).
    fold self in Hcall. fold call in Hcall.
    repeat split.
    + rewrite Hcall. unfold attempts, trace. simpl snd.
      unfold raise_for_error, Response_json, ebind, lift.
      destruct (json_body r) as [[]|]; reflexivity.
    + rewrite Hcall. unfold trace. simpl snd.
      unfold raise_for_error, Response_json, ebind, lift.
      destruct (json_body r) as [[]|]; reflexivity.
    + intros d Hd. rewrite Hcall. unfold outcome.
      now rewrite (raise_for_error_object r d Hd).
    + intros Hd. rewrite Hcall. unfold outcome.
      now rewrite (raise_for_error_not_json r Hd).
Qed.

(** The retry policy at the defaults: four attempts of a GET that always
    meets 503, sleeps of 1 and 2 seconds, and [RetryError] for the last
    503. *)
Lemma retry_policy_witness :
  let unavailable := fun _ : nat =>
    Responded {| status_code := 503; text := lit "busy";
                 json_body := None; retry_after := None |} in
  let call := _request (ShopClient_init (lit "key") None None (Some 3))
                       unavailable GET (lit "/products") None None in
  attempts call = 4%nat
  /\ delays (trace call) = map backoff_delay [2; 3]%nat
  /\ outcome call = Raise (RetryError (ResponseError 503)).
Proof.
  intros unavailable call.
  assert (Hnet : forall k, retryable_failure (unavailable k))
    by (intros k; split; reflexivity).
  destruct (retry_policy (lit "key") None None 3 unavailable
              GET (lit "/products") None None
              (conj (proj1 (Z.leb_le 0 3) eq_refl) (proj1 (Z.leb_le 3 1024) eq_refl))
              Hnet)
    as [_ [H _]].
  exact (H (or_introl eq_refl)).
Defined.

(** C1 as stated fails: a POST that meets 503 is attempted once, not four
    times, and the sleeps of a GET that keeps meeting 503 are 1 and 2
    seconds after a first retry without delay, not 0.5, 1 and 2. *)
Lemma post_is_not_retried_and_backoff_skips_first :
  let unavailable := fun _ : nat =>
    Responded {| status_code := 503; text := lit "busy";
                 json_body := None; retry_after := None |} in
  let self := ShopClient_init (lit "key") None None None in
  attempts (_request self unavailable POST (lit "/products") None (Some [])) = 1%nat
  /\ attempts (_request self unavailable GET (lit "/products") None None) = 4%nat
  /\ delays (trace (_request self unavailable GET (lit "/products") None None))
     = [1; 2]%Q.
Proof. vm_compute. repeat split. Qed.

(** C5, as amended.  A response with a status of 400 or more outside
    {429, 500, 502, 503, 504}, other than a 413 that carries a
    [Retry-After] header, ends the call at its first attempt, without any
    sleep; the error raised is the typed API error of the response when its
    body is a JSON object or is not JSON. *)
Theorem non_retryable_status_single_attempt :
  forall api_key base_url timeout max_retries net m path params json r,
    net O = Responded r ->
    400 <= status_code r ->
    mem (status_code r) RETRY_STATUSES = false ->
    status_code r <> 413 \/ retry_after r = None ->
    let self := ShopClient_init api_key base_url timeout max_retries in
    let call := _request self net m path params json in
    attempts call = 1%nat
    /\ delays (trace call) = []
    /\ (forall d, json_body r = Some (VDict d) ->
          outcome call = Raise (envelope_error r d))
    /\ (json_body r = None -> outcome call = Raise (http_error r)).
Proof.
  intros api_key base_url timeout max_retries net m path params json r
         Hr Hst Hfl Hra self call. subst call self.
  set (self := ShopClient_init api_key base_url timeout max_retries).
  set (call := _request self net m path params json).
  assert (Hcall := failing_response_not_retried api_key base_url timeout
                     max_retries net m path params json r Hr Hst
                     (not_retried_status api_key base_url timeout
                        max_retries m r Hfl Hra)).
  fold self in Hcall. fold call in Hcall.
  repeat split.
  - rewrite Hcall. unfold attempts, trace. simpl snd.
    unfold raise_for_error, Response_json, ebind, lift.
    destruct (json_body r) as [[]|]; reflexivity.
  - rewrite Hcall. unfold trace. simpl snd.
    unfold raise_for_error, Response_json, ebind, lift.
    destruct (json_body r) as [[]|]; reflexivity.
  - intros d Hd. rewrite Hcall. unfold outcome.
    now rewrite (raise_for_error_object r d Hd).
  - intros Hd. rewrite Hcall. unfold outcome.
    now rewrite (raise_for_error_not_json r Hd).
Qed.

(** A 404 with the envelope of the API: one attempt and the typed error. *)
Lemma non_retryable_status_single_attempt_witness :
  let r := {| status_code := 404; text := lit "{}";
              json_body := Some (VDict [(lit "code", VStr (lit "not_found"))]);
              retry_after := None |} in
  let call := _request (ShopClient_init (lit "key") None None None)
                       (fun _ => Responded r) GET (lit "/products/42") None None in
  attempts call = 1%nat
  /\ delays (trace call) = []
  /\ outcome call
     = Raise (ShopAPIError (VStr (lit "not_found")) (VStr (lit "{}")) VNone).
Proof.
  intros r call.
  destruct (non_retryable_status_single_attempt (lit "key") None None None
              (fun _ => Responded r) GET (lit "/products/42") None None
              r eq_refl (proj1 (Z.leb_le 400 404) eq_refl) eq_refl
              (or_intror eq_refl))
    as [Ha [Hd [Ho _]]].
  split; [exact Ha | split; [exact Hd | exact (Ho _ eq_refl)]].
Defined.

(** C5 as stated fails: 413 is outside the retried statuses, yet a GET that
    meets a 413 with a [Retry-After] header sleeps for it and tries
    again. *)
Lemma payload_too_large_with_retry_after_is_retried :
  let net := fun n : nat =>
    match n with
    | O => Responded {| status_code := 413; text := lit "too large";
                        json_body := None; retry_after := Some 7%N |}
    | S _ => Responded {| status_code := 200; text := lit "{}";
                          json_body := Some (VDict []); retry_after := None |}
    end in
  let call := _request (ShopClient_init (lit "key") None None None)
                       net GET (lit "/categories") None None in
  mem 413 RETRY_STATUSES = false
  /\ attempts call = 2%nat
  /\ delays (trace call) = [7]%Q
  /\ outcome call = Ok (VDict []).
Proof. vm_compute. repeat split. Qed.

(** C7.  When the response that the session returns has status 204, the
    call returns the empty object, and [response.json()] is not called:
    the trace of the call is that of the session, which has no decoding in
    it. *)
Theorem no_content_yields_empty_object :
  forall self net m path params json r,
    outcome (Session_request (session self) net (request_of self m path params json))
    = Ok r ->
    status_code r = 204 ->
    let call := _request self net m path params json in
    outcome call = Ok (VDict [])
    /\ decodes (trace call) = O
    /\ trace call
       = trace (Session_request (session self) net (request_of self m path params json)).
Proof.
  intros self net m path params json r Hr Hst call.
  assert (Hcall : call = (Ok (VDict []),
                          trace (Session_request (session self) net
                                   (request_of self m path params json)))).
  { unfold call, _request, ebind. unfold outcome, request_of in Hr.
    rewrite Hr. rewrite Hst. simpl fst. simpl snd.
    unfold trace, request_of. now rewrite app_nil_r. }
  rewrite Hcall. split; [reflexivity|]. split; [|reflexivity].
  unfold trace. simpl snd. apply urlopen_decodes.
Qed.

(** The deletion of a product that the server answers with 204, at the
    first attempt and after a first attempt that met 503. *)
Lemma no_content_yields_empty_object_witness :
  let r := {| status_code := 204; text := []; json_body := None;
              retry_after := None |} in
  let busy := {| status_code := 503; text := lit "busy"; json_body := None;
                 retry_after := None |} in
  let self := ShopClient_init (lit "key") None None None in
  outcome (_request self (fun _ => Responded r) DELETE (lit "/products/42") None None)
  = Ok (VDict [])
  /\ outcome (_request self
                (fun n => match n with O => Responded busy | S _ => Responded r end)
                DELETE (lit "/products/42") None None)
     = Ok (VDict []).
Proof.
  intros r busy self. split.
  - exact (proj1 (no_content_yields_empty_object self (fun _ => Responded r)
                    DELETE (lit "/products/42") None None r eq_refl eq_refl)).
  - exact (proj1 (no_content_yields_empty_object self
                    (fun n => match n with O => Responded busy | S _ => Responded r end)
                    DELETE (lit "/products/42") None None r eq_refl eq_refl)).
Defined.

End RequestExecutor.

Module ErrorClassifier.
Import Py Types Obj Http Urllib3 Client Spec ExecutorFacts.
Local Open Scope Z_scope.

(** C2, at the input where the code departs from it.  A failing response
    whose body is JSON but not an object (here the array [[]] with status
    400) reaches [error_data.get], which only a dict has: the call raises
    [AttributeError], not the typed error with code "unknown" and the raw
    text as message. *)
Theorem error_body_not_an_object_raises_attribute_error :
  let r := {| status_code := 400; text := lit "[]";
              json_body := Some (VList []); retry_after := None |} in
  let call := _request (ShopClient_init (lit "key") None None None)
                       (fun _ => Responded r) GET (lit "/products/42") None None in
  outcome call = Raise AttributeError
  /\ outcome call <> Raise (ShopAPIError (VStr (lit "unknown")) (VStr (text r)) VNone)
  /\ attempts call = 1%nat.
Proof.
  vm_compute. repeat split. discriminate.
Qed.

(** Where the classifier does what C2 says: a body that is a JSON object,
    and a body that is not JSON. *)
Lemma classifier_on_object r d :
  json_body r = Some (VDict d) ->
  outcome (raise_for_error r) = Raise (envelope_error r d).
Proof. intros H. unfold outcome. now rewrite (raise_for_error_object r d H). Qed.

Lemma classifier_on_non_json r :
  json_body r = None ->
  outcome (raise_for_error r) = Raise (http_error r).
Proof. intros H. unfold outcome. now rewrite (raise_for_error_not_json r H). Qed.

(** The example of the specification: status 409 with the envelope
    [{"code": "invalid_sku", "message": "SKU already exists"}]. *)
Example invalid_sku_conflict :
  let r := {| status_code := 409; text := lit "...";
              json_body := Some (VDict (dict_of
                [("code", VStr (lit "invalid_sku"));
                 ("message", VStr (lit "SKU already exists"))]%string));
              retry_after := None |} in
  let call := _request (ShopClient_init (lit "key") None None None)
                       (fun _ => Responded r) POST (lit "/products") None (Some []) in
  outcome call = Raise (ShopAPIError (VStr (lit "invalid_sku"))
                                     (VStr (lit "SKU already exists")) VNone)
  /\ attempts call = 1%nat.
Proof. vm_compute. repeat split. Qed.

End ErrorClassifier.

(* ===================================================================== *)
(** * Resource Routers: what a router call puts on the wire               *)
(* ===================================================================== *)

Module RouterFacts.
Import Py Types Obj Http Urllib3 Client Spec PyFacts ExecutorFacts.

Lemma sent_app l l' : sent (l ++ l') = sent l ++ sent l'.
Proof.
  induction l as [|ev l IH]; [reflexivity|].
  destruct ev; simpl; now rewrite IH.
Qed.

(** Decoding the result of a call adds nothing to its trace. *)
Lemma trace_decoded {A B} (m : exec A) (f : A -> result B) :
  trace (x <~ m ;; lift (f x)) = trace m.
Proof.
  unfold trace, ebind, lift. destruct (fst m); simpl; [apply app_nil_r|reflexivity].
Qed.

Lemma sent_ebind {A B} (m : exec A) (k : A -> exec B) :
  (forall a, sent (snd (k a)) = []) ->
  sent (trace (ebind m k)) = sent (snd m).
Proof.
  intros Hk. unfold trace, ebind. destruct (fst m) as [a|e]; [|reflexivity].
  simpl. rewrite sent_app, Hk. apply app_nil_r.
Qed.

(** Every attempt of [_request] carries the method, the URL, the query
    parameters and the body it was called with. *)
Lemma request_sent self net m path params json :
  exists k, sent (trace (_request self net m path params json))
            = repeat (request_of self m path params json) (S k).
Proof.
  destruct (urlopen_sent net (request_of self m path params json)
              (adapter_max_retries (session self)) O) as [k Hk].
  exists k. unfold _request. rewrite sent_ebind.
  - exact Hk.
  - intros response.
    destruct (status_code response >=? 400)%Z;
      [|destruct (status_code response =? 204)%Z]; try reflexivity.
    unfold raise_for_error, Response_json, ebind, lift.
    destruct (json_body response) as [[]|]; reflexivity.
Qed.

Lemma request_every_body self net m path params d (P : dict -> Prop) :
  P d -> every_body P (_request self net m path params (Some d)).
Proof.
  intros HP. destruct (request_sent self net m path params (Some d)) as [k Hk].
  unfold every_body. rewrite Hk. split; [discriminate|].
  intros req Hin. apply repeat_spec in Hin. subst req. exists d. now split.
Qed.

Lemma request_every_query self net m path d json (P : dict -> Prop) :
  P d -> every_query P (_request self net m path (Some d) json).
Proof.
  intros HP. destruct (request_sent self net m path (Some d) json) as [k Hk].
  unfold every_query. rewrite Hk. split; [discriminate|].
  intros req Hin. apply repeat_spec in Hin. subst req. exists d. now split.
Qed.

Lemma decoded_every_body (P : dict -> Prop) (m : exec value) (f : value -> result value) :
  every_body P m -> every_body P (x <~ m ;; lift (f x)).
Proof. unfold every_body. now rewrite trace_decoded. Qed.

Lemma decoded_every_query (P : dict -> Prop) (m : exec value) (f : value -> result value) :
  every_query P m -> every_query P (x <~ m ;; lift (f x)).
Proof. unfold every_query. now rewrite trace_decoded. Qed.

End RouterFacts.

Module ResourceRouters.
Import Py Types Obj Http Urllib3 Client Spec PyFacts ExecutorFacts RouterFacts.
Local Open Scope string_scope.
Local Open Scope list_scope.

(** What each router call sends. *)
Lemma create_sends self net sku name description price category_id images
    inventory compare_at_price attributes (P : dict -> Prop) :
  P (ProductsAPI.create_data sku name description price category_id images
       inventory compare_at_price attributes) ->
  every_body P (ProductsAPI.create self net sku name description price category_id
                  images inventory compare_at_price attributes).
Proof. intros H. apply decoded_every_body. now apply request_every_body. Qed.

Lemma products_list_sends self net page limit category_id status search
    (P : dict -> Prop) :
  P (ProductsAPI.list_params page limit category_id status search) ->
  every_query P (ProductsAPI.list self net page limit category_id status search).
Proof. intros H. apply decoded_every_query. now apply request_every_query. Qed.

Lemma orders_list_sends self net page limit status since (P : dict -> Prop) :
  P (OrdersAPI.list_params page limit status since) ->
  every_query P (OrdersAPI.list self net page limit status since).
Proof. intros H. apply decoded_every_query. now apply request_every_query. Qed.

Lemma webhooks_update_sends self net webhook_id url events active (P : dict -> Prop) :
  P (WebhooksAPI.update_data url events active) ->
  every_body P (WebhooksAPI.update self net webhook_id url events active).
Proof. intros H. apply decoded_every_body. now apply request_every_body. Qed.

Lemma cancel_sends self net order_id reason (P : dict -> Prop) :
  P (OrdersAPI.cancel_data reason) ->
  every_body P (OrdersAPI.cancel self net order_id reason).
Proof. intros H. apply decoded_every_body. now apply request_every_body. Qed.

Lemma refund_sends self net order_id amount reason (P : dict -> Prop) :
  P (OrdersAPI.refund_data amount reason) ->
  every_body P (OrdersAPI.refund self net order_id amount reason).
Proof. intros H. apply decoded_every_body. now apply request_every_body. Qed.

(** Cases on the truth value of an optional argument. *)
Ltac by_truth :=
  repeat match goal with
         | |- context [@truthy ?A ?I None] => change (@truthy A I None) with false
         | |- context [@truthy ?A ?I ?x] => destruct (@truthy A I x)
         end;
  reflexivity.

Lemma create_data_compare_at_price sku name description price category_id images
    inventory compare_at_price attributes :
  dict_get (lit "compare_at_price")
    (ProductsAPI.create_data sku name description price category_id images
       inventory compare_at_price attributes)
  = if truthy compare_at_price then Some (opt_value VFloat compare_at_price) else None.
Proof.
  unfold ProductsAPI.create_data.
  destruct (truthy compare_at_price); destruct (truthy attributes);
    destruct (truthy images); reflexivity.
Qed.

Lemma create_data_attributes sku name description price category_id images
    inventory compare_at_price attributes :
  dict_get (lit "attributes")
    (ProductsAPI.create_data sku name description price category_id images
       inventory compare_at_price attributes)
  = if truthy attributes then Some (opt_value ProductsAPI.str_dict attributes) else None.
Proof.
  unfold ProductsAPI.create_data.
  destruct (truthy compare_at_price); destruct (truthy attributes);
    destruct (truthy images); reflexivity.
Qed.

(** C6, as amended.  An optional argument that is left absent is omitted
    from the body or from the query parameters by [products.create]
    ([compare_at_price], [attributes]), [products.list] ([category_id],
    [status], [search]), [orders.list] ([status], [since]) and
    [webhooks.update] ([url], [events], [active]); [products.create] sends
    absent [images] as an empty list, not as a null. *)
Theorem absent_optionals_are_omitted :
  forall self net,
    (forall sku name description price category_id images inventory attributes,
        every_body (omitted "compare_at_price")
          (ProductsAPI.create self net sku name description price category_id
             images inventory None attributes))
    /\ (forall sku name description price category_id images inventory compare_at_price,
        every_body (omitted "attributes")
          (ProductsAPI.create self net sku name description price category_id
             images inventory compare_at_price None))
    /\ (forall sku name description price category_id inventory compare_at_price attributes,
        every_body (fun d => dict_get (lit "images") d = Some (VList []))
          (ProductsAPI.create self net sku name description price category_id
             None inventory compare_at_price attributes))
    /\ (forall page limit status search,
        every_query (omitted "category_id")
          (ProductsAPI.list self net page limit None status search))
    /\ (forall page limit category_id search,
        every_query (omitted "status")
          (ProductsAPI.list self net page limit category_id None search))
    /\ (forall page limit category_id status,
        every_query (omitted "search")
          (ProductsAPI.list self net page limit category_id status None))
    /\ (forall page limit since,
        every_query (omitted "status") (OrdersAPI.list self net page limit None since))
    /\ (forall page limit status,
        every_query (omitted "since") (OrdersAPI.list self net page limit status None))
    /\ (forall webhook_id events active,
        every_body (omitted "url") (WebhooksAPI.update self net webhook_id None events active))
    /\ (forall webhook_id url active,
        every_body (omitted "events") (WebhooksAPI.update self net webhook_id url None active))
    /\ (forall webhook_id url events,
        every_body (omitted "active") (WebhooksAPI.update self net webhook_id url events None)).
Proof.
  intros self net. repeat match goal with |- _ /\ _ => split end; intros.
  1-3: apply create_sends; unfold omitted.
  4-6: apply products_list_sends; unfold omitted, ProductsAPI.list_params.
  7-8: apply orders_list_sends; unfold omitted, OrdersAPI.list_params.
  9-11: apply webhooks_update_sends; unfold omitted, WebhooksAPI.update_data.
  - rewrite create_data_compare_at_price. reflexivity.
  - rewrite create_data_attributes. reflexivity.
  - unfold ProductsAPI.create_data. by_truth.
  - by_truth.
  - by_truth.
  - by_truth.
  - by_truth.
  - by_truth.
  - destruct active; by_truth.
  - destruct active; by_truth.
  - by_truth.
Qed.

(** C6 as stated fails: with [reason] and [amount] absent, [orders.cancel]
    and [orders.refund] send them as explicit nulls, and [products.create]
    sends absent [images] as an empty list. *)
Lemma cancel_and_refund_send_explicit_nulls :
  let self := ShopClient_init (lit "key") None None None in
  let net := fun _ : nat =>
    Responded {| status_code := 200; text := lit "{}";
                 json_body := Some (VDict []); retry_after := None |} in
  map json (sent (trace (OrdersAPI.cancel self net (lit "42") None)))
  = [Some (dict_of [("reason", VNone)])]
  /\ map json (sent (trace (OrdersAPI.refund self net (lit "42") None None)))
     = [Some (dict_of [("amount", VNone); ("reason", VNone)])]
  /\ map json (sent (trace (ProductsAPI.create self net (lit "S-1") (lit "Shoe")
                              (lit "A shoe") 10%float (lit "shoes") None 0 None None)))
     = [Some (dict_of [("sku", VStr (lit "S-1")); ("name", VStr (lit "Shoe"));
                       ("description", VStr (lit "A shoe")); ("price", VFloat 10%float);
                       ("category_id", VStr (lit "shoes")); ("images", VList []);
                       ("inventory", VInt 0)])].
Proof. vm_compute. repeat split. Qed.

(** C8.  [products.list] with [category_id="shoes"], [status="active"] and
    the default [page] and [limit] sends GET requests to [/products] whose
    query parameters are [page=1], [limit=20], [category_id=shoes] and
    [status=active], in this order, and nothing for [search]. *)
Theorem list_products_query :
  forall self net,
    let query := dict_of [("page", VInt 1); ("limit", VInt 20);
                          ("category_id", VStr (lit "shoes"));
                          ("status", VStr (lit "active"))] in
    (exists k,
        sent (trace (ProductsAPI.list self net ProductsAPI.default_page
                       ProductsAPI.default_limit (Some (lit "shoes"))
                       (Some (lit "active")) None))
        = repeat {| method := GET; url := base_url self ++ lit "/products";
                    params := Some query; json := None;
                    timeout := client_timeout self |} (S k))
    /\ omitted "search" query
    /\ ~ In (lit "search") (map fst query).
Proof.
  intros self net query. split; [|split].
  - unfold ProductsAPI.list. rewrite trace_decoded.
    apply (request_sent self net GET (lit "/products") (Some query) None).
  - reflexivity.
  - vm_compute. intros H.
    repeat match goal with
           | H : _ \/ _ |- _ => destruct H as [H|H]; try discriminate
           | H : False |- _ => destruct H
           end.
Qed.

(** C10.  In [products.create] a [compare_at_price] of 0.0 and an empty
    [attributes] map are dropped like absent ones: the call is the same,
    and a [compare_at_price] that is in the body is never zero. *)
Theorem create_drops_zero_compare_at_price :
  forall self net sku name description price category_id images inventory,
    (forall attributes,
        ProductsAPI.create self net sku name description price category_id images
          inventory (Some 0%float) attributes
        = ProductsAPI.create self net sku name description price category_id images
            inventory None attributes)
    /\ (forall compare_at_price,
        ProductsAPI.create self net sku name description price category_id images
          inventory compare_at_price (Some [])
        = ProductsAPI.create self net sku name description price category_id images
            inventory compare_at_price None)
    /\ (forall attributes,
        every_body (omitted "compare_at_price")
          (ProductsAPI.create self net sku name description price category_id images
             inventory (Some 0%float) attributes))
    /\ (forall compare_at_price,
        every_body (omitted "attributes")
          (ProductsAPI.create self net sku name description price category_id images
             inventory compare_at_price (Some [])))
    /\ (forall compare_at_price attributes,
        every_body
          (fun d => match dict_get (lit "compare_at_price") d with
                    | Some v => exists f, v = VFloat f /\ PrimFloat.eqb f 0%float = false
                    | None => True
                    end)
          (ProductsAPI.create self net sku name description price category_id images
             inventory compare_at_price attributes)).
Proof.
  intros self net sku name description price category_id images inventory.
  split; [reflexivity|]. split; [reflexivity|].
  repeat match goal with |- _ /\ _ => split end; intros.
  1-2: apply create_sends; unfold omitted.
  3: apply create_sends.
  - rewrite create_data_compare_at_price. reflexivity.
  - rewrite create_data_attributes. reflexivity.
  - rewrite create_data_compare_at_price.
    destruct compare_at_price as [f|]; [|exact I].
    unfold truthy, truthy_option, truthy, truthy_float.
    destruct (PrimFloat.eqb f 0) eqn:E; simpl; [exact I|].
    exists f. split; [reflexivity | exact E].
Qed.

End ResourceRouters.

(* ===================================================================== *)
(** * Entity Codec: decoding an order                                     *)
(* ===================================================================== *)

Module EntityCodec.
Import Py Types Obj Codec Spec PyFacts.
Local Open Scope string_scope.
Local Open Scope list_scope.

(** The constructor of a dataclass only looks at the keywords it is given,
    not at their values. *)
Lemma existsb_keys (p : str -> bool) (d : dict) :
  existsb (fun kv => p (fst kv)) d = existsb p (map fst d).
Proof. induction d as [|kv d IH]; simpl; [reflexivity | now rewrite IH]. Qed.

Lemma dict_get_is_none_keys k d d' :
  map fst d = map fst d' ->
  match dict_get k d with Some _ => false | None => true end
  = match dict_get k d' with Some _ => false | None => true end.
Proof.
  intros H. pose proof (dict_get_keys k d d' H) as [H1 H2].
  destruct (dict_get k d), (dict_get k d'); try reflexivity.
  - discriminate (H2 eq_refl).
  - discriminate (H1 eq_refl).
Qed.

Lemma new_accepts_same_keys cls kw kw' :
  map fst kw = map fst kw' ->
  (exists o, new cls kw = Ok o) -> exists o', new cls kw' = Ok o'.
Proof.
  intros Hk [o Ho]. unfold new in *.
  rewrite (existsb_keys
             (fun k => negb (existsb (str_eqb k) (field_names (dataclass_schema cls))))) in *.
  rewrite <- Hk.
  destruct (existsb _ (map fst kw)); [discriminate|].
  assert (E : existsb (fun r => match dict_get (lit r) kw' with
                                | Some _ => false | None => true end)
                (required (dataclass_schema cls))
            = existsb (fun r => match dict_get (lit r) kw with
                                | Some _ => false | None => true end)
                (required (dataclass_schema cls))).
  { clear Ho. induction (required (dataclass_schema cls)) as [|r l IH]; [reflexivity|].
    simpl. rewrite IH. f_equal. apply dict_get_is_none_keys. now symmetry. }
  rewrite E. destruct (existsb _ (required _)); [discriminate|].
  eexists. reflexivity.
Qed.

(** The fields of a new [Order] are read from the keywords. *)
Lemma new_order_status kw o :
  new Order kw = Ok o ->
  getattr o "status" = Some (field_value kw "status" VNone).
Proof.
  unfold new. destruct (existsb _ kw); [discriminate|].
  destruct (existsb _ (required _)); [discriminate|].
  intros H. inversion H; subst. reflexivity.
Qed.

(** [OrderStatus(v)] on the strings of the enumeration and on the others. *)
Lemma OrderStatus_call_member st :
  OrderStatus_call (VStr (OrderStatus_value st)) = Ok st.
Proof. destruct st; reflexivity. Qed.

Lemma OrderStatus_call_unknown s :
  ~ In s (map OrderStatus_value OrderStatus_members) ->
  OrderStatus_call (VStr s) = Raise ValueError.
Proof.
  intros Hnot. unfold OrderStatus_call.
  destruct (find _ OrderStatus_members) as [m|] eqn:E; [|reflexivity].
  apply find_some in E. destruct E as [Hin Heq].
  apply str_eqb_eq in Heq. exfalso. apply Hnot. subst s. now apply in_map.
Qed.

(** [Order.from_dict] after the status has been looked up. *)
Lemma Order_from_dict_status d v :
  dict_get (lit "status") d = Some v ->
  Order_from_dict (VDict d)
  = (s <- OrderStatus_call v ;;
     data <- setitem (VDict d) "status" (VStatus s) ;;
     sa <- getitem data (lit "shipping_address") ;;
     kw <- kwargs sa ;;
     a <- new Address kw ;;
     data <- setitem data "shipping_address" a ;;
     ba <- getitem data (lit "billing_address") ;;
     kw <- kwargs ba ;;
     b <- new Address kw ;;
     data <- setitem data "billing_address" b ;;
     its <- getitem data (lit "items") ;;
     items <- new_each OrderItem its ;;
     data <- setitem data "items" items ;;
     kw <- kwargs data ;;
     new Order kw).
Proof. intros H. unfold Order_from_dict. cbn [getitem]. now rewrite H. Qed.

Ltac run := cbn [bind setitem getitem kwargs].

Lemma decoded_status d st o :
  dict_get (lit "status") d = Some (VStr (OrderStatus_value st)) ->
  Order_from_dict (VDict d) = Ok o ->
  getattr o "status" = Some (VStatus st).
Proof.
  intros Hst. rewrite (Order_from_dict_status d _ Hst).
  rewrite OrderStatus_call_member. run.
  destruct (dict_get (lit "shipping_address") _) as [sa|]; [|discriminate]. run.
  destruct (kwargs sa) as [kw1|]; [|discriminate]. run.
  destruct (new Address kw1) as [a|]; [|discriminate]. run.
  destruct (dict_get (lit "billing_address") _) as [ba|]; [|discriminate]. run.
  destruct (kwargs ba) as [kw2|]; [|discriminate]. run.
  destruct (new Address kw2) as [b|]; [|discriminate]. run.
  destruct (dict_get (lit "items") _) as [its|]; [|discriminate]. run.
  destruct (new_each OrderItem its) as [items|]; [|discriminate]. run.
  intros Hnew. rewrite (new_order_status _ _ Hnew). f_equal.
  unfold field_value.
  rewrite !dict_get_set_other by (vm_compute; discriminate).
  now rewrite dict_get_set_same.
Qed.

Lemma decodes_when_parts_do d st :
  dict_get (lit "status") d = Some (VStr (OrderStatus_value st)) ->
  decodable_parts d ->
  exists o, Order_from_dict (VDict d) = Ok o.
Proof.
  intros Hst [[sa [kw1 [a [Hsa [Hkw1 Ha]]]]] [[ba [kw2 [b [Hba [Hkw2 Hb]]]]]
              [[its [items [Hits Hitems]]] Hnew]]].
  rewrite (Order_from_dict_status d _ Hst).
  rewrite OrderStatus_call_member. run.
  set (d1 := dict_set (lit "status") (VStatus st) d).
  assert (K1 : map fst d1 = map fst d) by (eapply dict_set_keys; eassumption).
  assert (G1 : dict_get (lit "shipping_address") d1 = Some sa).
  { unfold d1. rewrite dict_get_set_other by (vm_compute; discriminate). exact Hsa. }
  rewrite G1. run. rewrite Hkw1. run. rewrite Ha. run.
  set (d2 := dict_set (lit "shipping_address") a d1).
  assert (K2 : map fst d2 = map fst d).
  { unfold d2. rewrite (dict_set_keys _ a d1 sa G1). exact K1. }
  assert (G2 : dict_get (lit "billing_address") d2 = Some ba).
  { unfold d2, d1. rewrite !dict_get_set_other by (vm_compute; discriminate).
    exact Hba. }
  rewrite G2. run. rewrite Hkw2. run. rewrite Hb. run.
  set (d3 := dict_set (lit "billing_address") b d2).
  assert (K3 : map fst d3 = map fst d).
  { unfold d3. rewrite (dict_set_keys _ b d2 ba G2). exact K2. }
  assert (G3 : dict_get (lit "items") d3 = Some its).
  { unfold d3, d2, d1. rewrite !dict_get_set_other by (vm_compute; discriminate).
    exact Hits. }
  rewrite G3. run. rewrite Hitems. run.
  apply (new_accepts_same_keys Order d); [|exact Hnew].
  rewrite (dict_set_keys _ items d3 its G3). now symmetry.
Qed.

(** The values of the enumeration. *)
Lemma OrderStatus_values :
  map OrderStatus_value OrderStatus_members
  = map lit ["pending"; "paid"; "processing"; "shipped"; "delivered";
             "cancelled"; "refunded"].
Proof. reflexivity. Qed.

(** C4.  When the [status] of the raw object is a string outside the
    enumeration, [Order.from_dict] raises [ValueError]; when it is the string
    of a member, the status decodes to that member, it is the status of any
    order that decoding returns, and decoding does return one when the other
    parts of the object decode. *)
Theorem order_status_is_validated :
  forall (d : dict) (s : str),
    dict_get (lit "status") d = Some (VStr s) ->
    (~ In s (map OrderStatus_value OrderStatus_members) ->
       Order_from_dict (VDict d) = Raise ValueError)
    /\ (forall st, OrderStatus_value st = s ->
          OrderStatus_call (VStr s) = Ok st
          /\ (forall o, Order_from_dict (VDict d) = Ok o ->
                getattr o "status" = Some (VStatus st))
          /\ (decodable_parts d -> exists o, Order_from_dict (VDict d) = Ok o)).
Proof.
  intros d s Hst. split.
  - intros Hnot. rewrite (Order_from_dict_status d _ Hst).
    now rewrite (OrderStatus_call_unknown s Hnot).
  - intros st <-. split; [apply OrderStatus_call_member|]. split.
    + intros o. now apply (decoded_status d st).
    + now apply (decodes_when_parts_do d st).
Qed.

(** The order of the specification's example, with status "archived", and
    the same order with status "paid". *)
Lemma order_status_is_validated_witness :
  Order_from_dict (VDict (raw_order "archived")) = Raise ValueError
  /\ (exists o, Order_from_dict (VDict (raw_order "paid")) = Ok o
                /\ getattr o "status" = Some (VStatus PAID)).
Proof.
  split.
  - refine (proj1 (order_status_is_validated (raw_order "archived") (lit "archived")
                     eq_refl) _).
    vm_compute. intros H.
    repeat match goal with
           | H : _ \/ _ |- _ => destruct H as [H|H]; try discriminate
           | H : False |- _ => destruct H
           end.
  - destruct (proj2 (order_status_is_validated (raw_order "paid") (lit "paid") eq_refl)
                PAID eq_refl) as [_ [Hstatus Hexists]].
    assert (Hparts : decodable_parts (raw_order "paid")).
    { repeat split.
      - eexists. eexists. eexists. repeat split; vm_compute; reflexivity.
      - eexists. eexists. eexists. repeat split; vm_compute; reflexivity.
      - eexists. eexists. split; vm_compute; reflexivity.
      - eexists. vm_compute. reflexivity. }
    destruct (Hexists Hparts) as [o Ho].
    exists o. split; [exact Ho | exact (Hstatus o Ho)].
Defined.

End EntityCodec.

(* ===================================================================== *)
(** * Signature Verifier                                                  *)
(* ===================================================================== *)

Module DigestFacts.
Import Py Types Obj Spec PyFacts.
Local Open Scope N_scope.

(** Comparisons of code points, as propositions. *)
Ltac props :=
  repeat match goal with
         | H : (_ && _) = true |- _ => apply andb_true_iff in H; destruct H
         | H : (_ || _) = false |- _ => apply orb_false_iff in H; destruct H
         | H : (_ <? _) = true |- _ => apply N.ltb_lt in H
         | H : (_ <? _) = false |- _ => apply N.ltb_ge in H
         | H : (_ <=? _) = true |- _ => apply N.leb_le in H
         | H : (_ <=? _) = false |- _ => apply N.leb_gt in H
         end.

(** [encode] accepts exactly the strings without surrogates. *)
Lemma encode_cp_scalar c :
  ((c <? 0xD800) || ((0xDFFF <? c) && (c <=? 0x10FFFF))) = true ->
  exists bs, encode_cp c = Ok bs.
Proof.
  intros H.
  assert (Hp : c < 0xD800 \/ (0xDFFF < c /\ c <= 0x10FFFF)).
  { apply orb_true_iff in H. destruct H as [H|H]; props; [left | right]; lia. }
  clear H. unfold encode_cp.
  destruct (c <? 0x80) eqn:E1; [eexists; reflexivity|].
  destruct (c <? 0x800) eqn:E2; [eexists; reflexivity|].
  destruct (c <? 0x10000) eqn:E3.
  - destruct ((0xD800 <=? c) && (c <=? 0xDFFF)) eqn:E4; [|eexists; reflexivity].
    exfalso. props. lia.
  - destruct (c <=? 0x10FFFF) eqn:E4; [eexists; reflexivity|].
    exfalso. props. lia.
Qed.

Lemma encode_cp_not_scalar c :
  ((c <? 0xD800) || ((0xDFFF <? c) && (c <=? 0x10FFFF))) = false ->
  encode_cp c = Raise UnicodeEncodeError.
Proof.
  intros H.
  assert (Hp : 0xD800 <= c /\ (c <= 0xDFFF \/ 0x10FFFF < c)).
  { apply orb_false_iff in H. destruct H as [H1 H2].
    apply andb_false_iff in H2. destruct H2; props; lia. }
  clear H. unfold encode_cp.
  destruct (c <? 0x80) eqn:E1; [exfalso; props; lia|].
  destruct (c <? 0x800) eqn:E2; [exfalso; props; lia|].
  destruct (c <? 0x10000) eqn:E3.
  - destruct ((0xD800 <=? c) && (c <=? 0xDFFF)) eqn:E4; [reflexivity|].
    exfalso. apply andb_false_iff in E4. destruct E4; props; lia.
  - destruct (c <=? 0x10FFFF) eqn:E4; [|reflexivity].
    exfalso. props. lia.
Qed.

Lemma encode_encodable s :
  encodable s = true -> exists bs, encode s = Ok bs.
Proof.
  induction s as [|c s IH]; intros H; [eexists; reflexivity|].
  simpl in H. apply andb_true_iff in H. destruct H as [Hc Hs].
  destruct (encode_cp_scalar c Hc) as [bs Hbs]. destruct (IH Hs) as [rest Hrest].
  exists (bs ++ rest). simpl. now rewrite Hbs, Hrest.
Qed.

Lemma encode_not_encodable s :
  encodable s = false -> encode s = Raise UnicodeEncodeError.
Proof.
  induction s as [|c s IH]; intros H; [discriminate|].
  simpl in H. simpl.
  destruct ((c <? 0xD800) || ((0xDFFF <? c) && (c <=? 0x10FFFF))) eqn:Hc.
  - destruct (encode_cp_scalar c Hc) as [bs Hbs]. rewrite Hbs. simpl.
    simpl in H. now rewrite (IH H).
  - now rewrite (encode_cp_not_scalar c Hc).
Qed.

(** A hex digest is made of ASCII characters, two for each byte. *)
Lemma hex_digit_ascii n : (Hmac.hex_digit n <? 128) = true.
Proof.
  unfold Hmac.hex_digit.
  assert (H : forall (l : list N) i, forallb (fun c => c <? 128) l = true ->
                               (nth i l 48 <? 128) = true).
  { induction l as [|c l IH]; intros [|i] Hl; simpl in *; try reflexivity;
      apply andb_true_iff in Hl; destruct Hl as [Hc Hl]; auto. }
  apply H. reflexivity.
Qed.

Lemma hexdigest_ascii digest : isascii (Hmac.hexdigest digest) = true.
Proof.
  unfold Hmac.hexdigest, isascii.
  induction digest as [|b digest IH]; [reflexivity|].
  simpl. now rewrite !hex_digit_ascii, IH.
Qed.

Lemma hexdigest_length digest :
  length (Hmac.hexdigest digest) = (2 * length digest)%nat.
Proof.
  unfold Hmac.hexdigest. induction digest as [|b digest IH]; [reflexivity|].
  simpl. rewrite IH. lia.
Qed.

(** A SHA-256 digest has 32 bytes. *)
Lemma round_length v kw : length (Sha256.round v kw) = length v.
Proof.
  unfold Sha256.round.
  do 9 (destruct v as [|? v]; try reflexivity).
Qed.

Lemma rounds_length l v : length (fold_left Sha256.round l v) = length v.
Proof.
  revert v. induction l as [|kw l IH]; intros v; [reflexivity|].
  simpl. now rewrite IH, round_length.
Qed.

Lemma add_words_length x y : length x = length y -> length (Sha256.add_words x y) = length x.
Proof.
  revert y. induction x as [|a x IH]; intros [|b y] H; simpl in *; try discriminate;
    [reflexivity|].
  f_equal. apply IH. now inversion H.
Qed.

Lemma compress_length H block : length (Sha256.compress H block) = length H.
Proof.
  unfold Sha256.compress. apply add_words_length. now rewrite rounds_length.
Qed.

Lemma absorb_length st wd : length (fst (Sha256.absorb st wd)) = length (fst st).
Proof.
  unfold Sha256.absorb.
  destruct (length (snd st ++ [wd]) =? 16)%nat; simpl; [apply compress_length|reflexivity].
Qed.

Lemma absorbed_length ws st :
  length (fst (fold_left Sha256.absorb ws st)) = length (fst st).
Proof.
  revert st. induction ws as [|wd ws IH]; intros st; [reflexivity|].
  simpl. now rewrite IH, absorb_length.
Qed.

Lemma bytes_of_words_length ws :
  length (flat_map Sha256.bytes_of_word ws) = (4 * length ws)%nat.
Proof.
  induction ws as [|wd ws IH]; [reflexivity|]. simpl. rewrite IH. lia.
Qed.

Lemma sha256_length msg : length (Sha256.sha256 msg) = 32%nat.
Proof.
  unfold Sha256.sha256. rewrite bytes_of_words_length, absorbed_length.
  reflexivity.
Qed.

Lemma hmac_hexdigest_length key msg :
  length (Hmac.hexdigest (Hmac.hmac_sha256 key msg)) = 64%nat.
Proof.
  rewrite hexdigest_length. unfold Hmac.hmac_sha256. now rewrite sha256_length.
Qed.


End DigestFacts.

(** Single-bit mutations of the payload and of the secret: UTF-8 and the
    hex digest are injective, so a mutation that is accepted leads to two
    distinct inputs of SHA-256 with the same digest. *)
Module MutationFacts.
Import Py Types Obj Spec PyFacts DigestFacts.
Local Open Scope N_scope.


(** ** UTF-8 *)










(** ** The hex digest *)







(** ** HMAC *)








End MutationFacts.


Module SignatureVerifier.
Import Py Types Obj Spec PyFacts DigestFacts MutationFacts.
Import WebhooksAPI.

(** What [verify_signature] does once the expected signature is known. *)
Lemma verify_signature_expected payload signature secret expected :
  expected_signature payload secret = Ok expected ->
  isascii expected = true /\ length expected = 64%nat
  /\ verify_signature payload signature secret
     = if isascii signature then Ok (str_eqb signature expected) else Raise TypeError.
Proof.
  unfold verify_signature, expected_signature.
  destruct (encode secret) as [key|]; [|discriminate].
  destruct (encode payload) as [msg|]; [|discriminate].
  cbn [bind]. intros H. inversion H; subst. cbn [bind].
  split; [apply hexdigest_ascii|]. split; [apply hmac_hexdigest_length|].
  unfold Hmac.compare_digest. rewrite hexdigest_ascii, andb_true_r. reflexivity.
Qed.

Lemma expected_signature_encodable payload secret :
  encodable secret && encodable payload = true ->
  exists key msg,
    encode secret = Ok key /\ encode payload = Ok msg
    /\ expected_signature payload secret = Ok (Hmac.hexdigest (Hmac.hmac_sha256 key msg)).
Proof.
  intros H. apply andb_true_iff in H. destruct H as [Hk Hp].
  destruct (encode_encodable secret Hk) as [key Hkey].
  destruct (encode_encodable payload Hp) as [msg Hmsg].
  exists key, msg. unfold expected_signature. now rewrite Hkey, Hmsg.
Qed.

Lemma verify_signature_not_encodable payload signature secret :
  encodable secret && encodable payload = false ->
  verify_signature payload signature secret = Raise UnicodeEncodeError.
Proof.
  intros H. unfold verify_signature, expected_signature.
  destruct (encodable secret) eqn:Hk.
  - destruct (encode_encodable secret Hk) as [key Hkey]. rewrite Hkey. cbn [bind].
    simpl in H. now rewrite (encode_not_encodable payload H).
  - now rewrite (encode_not_encodable secret Hk).
Qed.





Lemma payload_signature_verifies :
  verify_signature (lit "payload") payload_signature (lit "secret") = Ok true.
Proof. vm_compute. reflexivity. Qed.



(** C9, as amended.  For a payload and a secret without lone surrogates
    and an ASCII signature, [verify_signature] returns a boolean, which is
    false whenever the signature differs from the expected 64 characters in
    length or in content.  A signature with a non-ASCII character raises
    [TypeError], and a payload or a secret with a lone surrogate raises
    [UnicodeEncodeError]. *)
Theorem verify_signature_returns_on_ascii :
  forall payload signature secret,
    (encodable secret && encodable payload = true ->
     isascii signature = true ->
     exists expected,
       expected_signature payload secret = Ok expected
       /\ verify_signature payload signature secret = Ok (str_eqb signature expected)
       /\ (signature <> expected ->
             verify_signature payload signature secret = Ok false)
       /\ (length signature <> 64%nat ->
             verify_signature payload signature secret = Ok false))
    /\ (encodable secret && encodable payload = true ->
        isascii signature = false ->
        verify_signature payload signature secret = Raise TypeError)
    /\ (encodable secret && encodable payload = false ->
        verify_signature payload signature secret = Raise UnicodeEncodeError).
Proof.
  intros payload signature secret. split; [|split].
  - intros Henc Hascii.
    destruct (expected_signature_encodable payload secret Henc)
      as [key [msg [_ [_ He]]]].
    destruct (verify_signature_expected payload signature secret _ He)
      as [_ [Hlen Hv]].
    rewrite Hascii in Hv.
    eexists. split; [exact He|]. split; [exact Hv|]. split.
    + intros Hne. rewrite Hv. f_equal. now apply str_eqb_neq.
    + intros Hne. rewrite Hv. f_equal. apply str_eqb_neq. congruence.
  - intros Henc Hascii.
    destruct (expected_signature_encodable payload secret Henc)
      as [key [msg [_ [_ He]]]].
    destruct (verify_signature_expected payload signature secret _ He)
      as [_ [_ Hv]].
    now rewrite Hv, Hascii.
  - apply verify_signature_not_encodable.
Qed.

(** A signature that is too short is rejected with false. *)
Lemma verify_signature_returns_on_ascii_witness :
  verify_signature (lit "payload") (lit "deadbeef") (lit "secret") = Ok false.
Proof.
  destruct (verify_signature_returns_on_ascii (lit "payload") (lit "deadbeef")
              (lit "secret")) as [H _].
  destruct (H eq_refl eq_refl) as [expected [_ [_ [_ Hlen]]]].
  apply Hlen. vm_compute. discriminate.
Defined.

(** C9 as stated fails: a signature with a non-ASCII character and a payload
    with a lone surrogate make [verify_signature] raise. *)
Lemma malformed_input_raises :
  verify_signature (lit "payload") [233%N] (lit "secret") = Raise TypeError
  /\ verify_signature [0xD800%N] (lit "deadbeef") (lit "secret")
     = Raise UnicodeEncodeError.
Proof. vm_compute. split; reflexivity. Qed.

End SignatureVerifier.

(* ===================================================================== *)
(** * Test vectors                                                        *)
(* ===================================================================== *)

Module TestVectors.
Import Py Obj.

Example round_constants :
  hd 0%N Sha256.K = 0x428a2f98%N /\ last Sha256.K 0%N = 0xc67178f2%N
  /\ hd 0%N Sha256.H0 = 0x6a09e667%N /\ last Sha256.H0 0%N = 0x5be0cd19%N
  /\ length Sha256.K = 64%nat /\ length Sha256.H0 = 8%nat.
Proof. vm_compute. repeat split. Qed.

Example sha256_abc :
  Hmac.hexdigest (Sha256.sha256 (lit "abc"))
  = lit "ba7816bf8f01cfea414140de5dae2223b00361a396177a9cb410ff61f20015ad".
Proof. vm_compute. reflexivity. Qed.

Example sha256_empty :
  Hmac.hexdigest (Sha256.sha256 [])
  = lit "e3b0c44298fc1c149afbf4c8996fb92427ae41e4649b934ca495991b7852b855".
Proof. vm_compute. reflexivity. Qed.

(** Messages of 55, 56, 64 and 119 bytes, around the padding boundaries. *)
Example sha256_padding :
  map (fun n => Hmac.hexdigest (Sha256.sha256 (repeat 97%N n))) [55; 56; 64; 119]%nat
  = map lit
      ["9f4390f8d30c2dd92ec9f095b65e2b9ae9b0a925a5258e241c9f1e910f734318";
       "b35439a4ac6f0948b6d6f9e3c6af0f5f590ce20f1bde7090ef7970686ec6738a";
       "ffe054fe7ae0cb6dc65c3af9b61d5209f439851db43d0ba5997337df154668eb";
       "31eba51c313a5c08226adf18d4a359cfdfd8d2e816b13f4af952f7ea6584dcfb"]%string.
Proof. vm_compute. reflexivity. Qed.

(** RFC 4231, test cases 2 and 6 (a key longer than the block). *)
Example hmac_rfc4231_case2 :
  Hmac.hexdigest (Hmac.hmac_sha256 (lit "Jefe") (lit "what do ya want for nothing?"))
  = lit "5bdcc146bf60754e6a042426089575c75a003f089d2739839dec58b964ec3843".
Proof. vm_compute. reflexivity. Qed.

Example hmac_rfc4231_case6 :
  Hmac.hexdigest
    (Hmac.hmac_sha256 (repeat 0xaa%N 131)
       (lit "Test Using Larger Than Block-Size Key - Hash Key First"))
  = lit "60e431591ee0b67f0d8a26aacbf5b77f8e0bc6213728c5140546040f0ee37f54".
Proof. vm_compute. reflexivity. Qed.

(** UTF-8 on one, two, three and four bytes. *)
Example encode_utf8 :
  encode [0x24; 0xE9; 0x20AC; 0x1F600]%N
  = Ok [0x24; 0xC3; 0xA9; 0xE2; 0x82; 0xAC; 0xF0; 0x9F; 0x98; 0x80]%N.
Proof. reflexivity. Qed.

End TestVectors.

(* ===================================================================== *)
(** * The request executor on any network                                 *)
(* ===================================================================== *)

Module ExecutorBounds.
Import Py Types Obj Http Urllib3 Client Spec PyFacts ExecutorFacts RetryFacts RouterFacts.
Local Open Scope Z_scope.

Lemma increment_total r m a r' :
  increment r m a = Ok r' -> total r' = total r - 1 /\ 0 <= total r'.
Proof.
  unfold increment.
  destruct (match a with Failed e => _ | Responded _ => None end); [discriminate|].
  match goal with
  | |- context [is_exhausted ?x] => destruct (is_exhausted x) eqn:Hex
  end; [discriminate|].
  intros H; inversion H; subst; clear H. simpl. split; [reflexivity|].
  unfold is_exhausted in Hex. simpl in Hex. unfold truthy, truthy_int in Hex.
  destruct (total r - 1 =? 0) eqn:E0; simpl in Hex.
  - apply Z.eqb_eq in E0. lia.
  - apply Z.ltb_ge in Hex. lia.
Qed.

(** The attempts of the session: one request, repeated, never more often
    than the retries allow. *)
Lemma urlopen_bounded net req retries n :
  exists k, sent (snd (urlopen net req retries n)) = repeat req (S k)
            /\ (k <= Z.to_nat (total retries))%nat.
Proof.
  apply (urlopen_elim
           (fun net req retries n res =>
              exists k, sent (snd res) = repeat req (S k)
                        /\ (k <= Z.to_nat (total retries))%nat)).
  - intros net0 req0 retries0 n0 r e _. exists O. split; [reflexivity | lia].
  - intros net0 req0 retries0 n0 retries' slept H [k [IH Hk]] _.
    apply urlopen_pass_again in H. destruct H as [Hi Hs].
    apply increment_total in Hi. destruct Hi as [Ht Hpos].
    apply sleep_only_sleeps in Hs.
    exists (S k). split.
    + simpl. f_equal. rewrite (sent_sleeps _ _ Hs). exact IH.
    + lia.
Qed.

Lemma decodes_app l l' : decodes (l ++ l') = (decodes l + decodes l')%nat.
Proof.
  induction l as [|ev l IH]; [reflexivity|].
  destruct ev; simpl; now rewrite IH.
Qed.

Lemma request_after_session self net m path params json r :
  outcome (Session_request (session self) net (request_of self m path params json))
  = Ok r ->
  _request self net m path params json
  = (fst (after_response r),
     trace (Session_request (session self) net (request_of self m path params json))
     ++ snd (after_response r)).
Proof.
  intros H. unfold _request, ebind. unfold outcome, request_of in H.
  rewrite H. reflexivity.
Qed.

Lemma request_session_raises self net m path params json e :
  outcome (Session_request (session self) net (request_of self m path params json))
  = Raise e ->
  _request self net m path params json
  = (Raise e,
     trace (Session_request (session self) net (request_of self m path params json))).
Proof.
  intros H. unfold _request, ebind. unfold outcome, request_of in H.
  rewrite H. reflexivity.
Qed.

Lemma session_decodes self net req :
  decodes (snd (Session_request (session self) net req)) = O.
Proof. unfold Session_request, HTTPAdapter_send. cbn [snd]. apply urlopen_decodes. Qed.

Lemma after_response_decodes r : (decodes (snd (after_response r)) <= 1)%nat.
Proof.
  unfold after_response.
  destruct (status_code r >=? 400); [|destruct (status_code r =? 204)].
  - unfold raise_for_error, Response_json, ebind, lift.
    destruct (json_body r) as [[]|]; simpl; lia.
  - simpl. lia.
  - simpl. lia.
Qed.

Lemma raise_for_error_classified r :
  raise_for_error r = (Raise (classified r), [EvJson]).
Proof.
  unfold raise_for_error, classified, Response_json, ebind, lift.
  destruct (json_body r) as [[]|]; reflexivity.
Qed.

Lemma after_response_success r :
  status_code r < 400 -> status_code r <> 204 ->
  after_response r = Response_json r.
Proof.
  intros Hlt Hne. unfold after_response.
  assert (E1 : (status_code r >=? 400) = false).
  { destruct (status_code r >=? 400) eqn:E; [|reflexivity].
    apply Z.geb_le in E. lia. }
  assert (E2 : (status_code r =? 204) = false) by (now apply Z.eqb_neq).
  now rewrite E1, E2.
Qed.

(** X1.  A response below 400 other than 204 is decoded once: the call
    returns the JSON value of the body, and raises [ValueError], not the
    typed API error, when the body is not JSON. *)
Theorem success_body_is_decoded_once :
  forall self net m path params json r,
    outcome (Session_request (session self) net (request_of self m path params json))
    = Ok r ->
    status_code r < 400 ->
    status_code r <> 204 ->
    let call := _request self net m path params json in
    outcome call = match json_body r with
                   | Some v => Ok v
                   | None => Raise ValueError
                   end
    /\ decodes (trace call) = 1%nat
    /\ sent (trace call)
       = sent (trace (Session_request (session self) net
                        (request_of self m path params json))).
Proof.
  intros self net m path params json r Hr Hlt Hne call. subst call.
  rewrite (request_after_session self net m path params json r Hr).
  rewrite (after_response_success r Hlt Hne).
  unfold outcome, trace, Response_json. cbn [fst snd].
  split; [reflexivity|]. split.
  - now rewrite decodes_app, session_decodes.
  - rewrite sent_app. apply app_nil_r.
Qed.

Lemma success_body_is_decoded_once_witness :
  let ok := {| status_code := 200; text := lit "<html>";
               json_body := None; retry_after := None |} in
  outcome (_request (ShopClient_init (lit "key") None None None)
             (fun _ => Responded ok) GET (lit "/categories") None None)
  = Raise ValueError.
Proof.
  intros ok.
  exact (proj1 (success_body_is_decoded_once
                  (ShopClient_init (lit "key") None None None)
                  (fun _ => Responded ok) GET (lit "/categories") None None ok
                  eq_refl (proj1 (Z.ltb_lt 200 400) eq_refl)
                  (proj1 (Z.eqb_neq 200 204) eq_refl))).
Defined.

(** X2.  A response of 400 or more never yields a result: the call raises
    after one decoding of the body, the typed error of the envelope for a
    JSON object (with the details of the envelope), the ["http_error"] one
    for a body that is not JSON, and [AttributeError] for any other JSON
    value. *)
Theorem failing_response_always_raises :
  forall self net m path params json r,
    outcome (Session_request (session self) net (request_of self m path params json))
    = Ok r ->
    400 <= status_code r ->
    let call := _request self net m path params json in
    outcome call = Raise (classified r)
    /\ (forall v, outcome call <> Ok v)
    /\ decodes (trace call) = 1%nat.
Proof.
  intros self net m path params json r Hr Hge call. subst call.
  rewrite (request_after_session self net m path params json r Hr).
  unfold after_response.
  assert (E1 : (status_code r >=? 400) = true) by (apply Z.geb_le; lia).
  rewrite E1, raise_for_error_classified.
  unfold outcome, trace. cbn [fst snd].
  split; [reflexivity|]. split; [discriminate|].
  now rewrite decodes_app, session_decodes.
Qed.

Lemma failing_response_always_raises_witness :
  let r := {| status_code := 422; text := lit "...";
              json_body := Some (VDict (dict_of
                [("message", VStr (lit "price must be positive"));
                 ("details", VDict (dict_of [("field", VStr (lit "price"))]))]%string));
              retry_after := None |} in
  outcome (_request (ShopClient_init (lit "key") None None None)
             (fun _ => Responded r) POST (lit "/products") None (Some []))
  = Raise (ShopAPIError (VStr (lit "unknown")) (VStr (lit "price must be positive"))
             (VDict (dict_of [("field", VStr (lit "price"))]%string))).
Proof.
  intros r.
  exact (proj1 (failing_response_always_raises
                  (ShopClient_init (lit "key") None None None)
                  (fun _ => Responded r) POST (lit "/products") None (Some []) r
                  eq_refl (proj1 (Z.leb_le 400 422) eq_refl))).
Defined.

(** X3.  As long as no attempt is answered with a redirect status (301,
    302, 303, 307, 308), every attempt of a call is made with the same
    arguments, there are at most [max_retries + 1] attempts (at most one
    when [max_retries] is negative), and a body is decoded at most
    once. *)
Theorem attempts_are_bounded :
  forall api_key base_url timeout max_retries net m path params json,
    (forall i, not_redirected (net i) = true) ->
    let self := ShopClient_init api_key base_url timeout max_retries in
    let call := _request self net m path params json in
    carries self call m path params json
    /\ (attempts call <= S (Z.to_nat (match max_retries with
                                      | Some n => n
                                      | None => DEFAULT_MAX_RETRIES
                                      end)))%nat
    /\ (decodes (trace call) <= 1)%nat.
Proof.
  intros api_key base_url timeout max_retries net m path params json _ self call.
  destruct (urlopen_bounded net (request_of self m path params json)
              (adapter_max_retries (session self)) O) as [k [Hk Hle]].
  assert (Hsent : sent (trace call) = repeat (request_of self m path params json) (S k)).
  { subst call. unfold _request. rewrite sent_ebind.
    - exact Hk.
    - intros response. fold (after_response response). unfold after_response.
      destruct (status_code response >=? 400);
        [|destruct (status_code response =? 204)]; try reflexivity.
      now rewrite raise_for_error_classified. }
  split; [|split].
  - intros req Hin. rewrite Hsent in Hin. now apply repeat_spec in Hin.
  - unfold attempts. rewrite Hsent, repeat_length.
    apply le_n_S. exact Hle.
  - destruct (outcome (Session_request (session self) net
                         (request_of self m path params json))) as [r|e] eqn:E.
    + subst call. rewrite (request_after_session self net m path params json r E).
      unfold trace. cbn [snd]. rewrite decodes_app, session_decodes.
      apply after_response_decodes.
    + subst call. rewrite (request_session_raises self net m path params json e E).
      unfold trace. cbn [snd]. rewrite session_decodes. lia.
Qed.

(** A GET that keeps meeting 503 with [max_retries] 2: three attempts. *)
Lemma attempts_are_bounded_witness :
  let busy := {| status_code := 503; text := lit "busy"; json_body := None;
                 retry_after := None |} in
  let call := _request (ShopClient_init (lit "key") None None (Some 2))
                       (fun _ => Responded busy) GET (lit "/categories") None None in
  (attempts call <= 3)%nat /\ (decodes (trace call) <= 1)%nat.
Proof.
  intros busy call.
  destruct (attempts_are_bounded (lit "key") None None (Some 2)
              (fun _ => Responded busy) GET (lit "/categories") None None
              (fun _ => eq_refl)) as [_ [Ha Hd]].
  split; [exact Ha | exact Hd].
Defined.

End ExecutorBounds.

(* ===================================================================== *)
(** * Retries that succeed, transport failures and [Retry-After]          *)
(* ===================================================================== *)

Module Recovery.
Import Py Types Obj Http Urllib3 Client Spec PyFacts ExecutorFacts RetryFacts RouterFacts
       ExecutorBounds.
Local Open Scope Z_scope.

(** A response that settles the call is not retried, whatever the state
    of the policy. *)
Lemma is_retry_settles t hist m r :
  settles m r ->
  is_retry {| total := t; backoff_factor := 0.5;
              status_forcelist := RETRY_STATUSES; history := hist |}
    m (status_code r)
    (match retry_after r with Some _ => true | None => false end) = false.
Proof.
  intros [_ [Hm|[Hfl Hra]]]; unfold is_retry; cbn [status_forcelist total].
  - now rewrite Hm.
  - destruct (negb (is_method_retryable m)); [reflexivity|].
    rewrite Hfl, andb_false_r.
    destruct (retry_after r) eqn:Era; [|now rewrite andb_false_r].
    destruct Hra as [Hra|Hra]; [|discriminate].
    rewrite andb_true_r. apply andb_false_iff. right.
    unfold mem, RETRY_STATUSES in Hfl. simpl in Hfl.
    repeat (apply orb_false_iff in Hfl; destruct Hfl as [? Hfl]).
    unfold RETRY_AFTER_STATUS_CODES, mem. simpl.
    apply Z.eqb_neq in Hra.
    repeat match goal with
           | H : (_ =? _) = false |- _ => rewrite H; clear H
           end.
    reflexivity.
Qed.

(** One pass on a failure after which the session tries again. *)
Lemma urlopen_pass_retried t hist m a :
  retried m a ->
  (length hist + t <= 1024)%nat ->
  urlopen_pass {| total := Z.of_nat t; backoff_factor := 0.5;
                  status_forcelist := RETRY_STATUSES; history := hist |} m a
  = match t with
    | O => Done (Raise (MaxRetryError (reason_of a)))
    | S t' =>
        Again {| total := Z.of_nat t'; backoff_factor := 0.5;
                 status_forcelist := RETRY_STATUSES;
                 history := hist ++ [reason_of a] |}
              (backoff_events (S (length hist)))
    end.
Proof.
  intros Ha Hlen. destruct a as [r|e].
  - destruct Ha as [Hm [Hst Hra]].
    apply urlopen_pass_retryable; [exact Hm | split; assumption | exact Hlen].
  - destruct Ha as [Hc|Hm];
      [|apply urlopen_pass_retryable; [exact Hm | exact I | exact Hlen]].
    unfold urlopen_pass, increment. rewrite Hc.
    unfold is_exhausted. cbn [total backoff_factor status_forcelist history].
    unfold truthy, truthy_int, filter.
    destruct t as [|t'].
    + reflexivity.
    + replace (Z.of_nat (S t') - 1) with (Z.of_nat t') by lia.
      assert (Hex : (if negb (Z.of_nat t' =? 0)
                     then (fold_right Z.min (Z.of_nat t') [Z.of_nat t'] <? 0)
                     else false) = false).
      { destruct (Z.of_nat t' =? 0); [reflexivity|]. simpl.
        apply Z.ltb_ge. lia. }
      destruct (negb (Z.of_nat t' =? 0)) eqn:E0.
      * rewrite Hex. rewrite sleep_configured.
        -- rewrite length_app. simpl length. now rewrite Nat.add_1_r.
        -- rewrite length_app. simpl. lia.
        -- exact I.
      * rewrite sleep_configured.
        -- rewrite length_app. simpl length. now rewrite Nat.add_1_r.
        -- rewrite length_app. simpl. lia.
        -- exact I.
Qed.

(** [k] failures after which the session tries again, then a response that
    settles the call: the session returns this response after [k + 1]
    attempts. *)
Lemma urlopen_recovers net req r :
  settles (method req) r ->
  forall k t hist n,
    (k <= t)%nat ->
    (length hist + t <= 1024)%nat ->
    (forall i, (i < k)%nat -> retried (method req) (net (n + i)%nat)) ->
    net (n + k)%nat = Responded r ->
    urlopen net req {| total := Z.of_nat t; backoff_factor := 0.5;
                       status_forcelist := RETRY_STATUSES; history := hist |} n
    = (Ok r, exhausted_log req (length hist) k).
Proof.
  intros Hset. induction k as [|k IH]; intros t hist n Hk Hlen Hfail Hlast.
  - rewrite urlopen_unfold. rewrite Nat.add_0_r in Hlast. rewrite Hlast.
    unfold urlopen_pass. rewrite (is_retry_settles _ _ _ _ Hset).
    reflexivity.
  - destruct t as [|t]; [lia|].
    rewrite urlopen_unfold.
    rewrite (urlopen_pass_retried (S t) hist (method req) (net n)).
    + rewrite (IH t (hist ++ [reason_of (net n)]) (S n)).
      * rewrite length_app. simpl length. rewrite Nat.add_1_r. reflexivity.
      * lia.
      * rewrite length_app. simpl. lia.
      * intros i Hi. replace (S n + i)%nat with (n + S i)%nat by lia.
        apply Hfail. lia.
      * replace (S n + k)%nat with (n + S k)%nat by lia. exact Hlast.
    + specialize (Hfail O). rewrite Nat.add_0_r in Hfail. apply Hfail. lia.
    + exact Hlen.
Qed.

(** Failures after which the session tries again, at every attempt: the
    retries are used up. *)
Lemma urlopen_gives_up net req :
  (forall i, retried (method req) (net i)) ->
  forall t hist n,
    (length hist + t <= 1024)%nat ->
    urlopen net req {| total := Z.of_nat t; backoff_factor := 0.5;
                       status_forcelist := RETRY_STATUSES; history := hist |} n
    = (Raise (MaxRetryError (reason_of (net (n + t)%nat))),
       exhausted_log req (length hist) t).
Proof.
  intros Hnet. induction t as [|t IH]; intros hist n Hlen.
  - rewrite urlopen_unfold, urlopen_pass_retried by auto.
    now rewrite Nat.add_0_r.
  - rewrite urlopen_unfold, urlopen_pass_retried by auto.
    rewrite IH by (rewrite length_app; simpl; lia).
    rewrite length_app. simpl length. rewrite Nat.add_1_r.
    simpl fst. simpl snd. replace (S n + t)%nat with (n + S t)%nat by lia.
    replace (S (n + t)) with (n + S t)%nat by lia. reflexivity.
Qed.

Lemma delays_app l l' : delays (l ++ l') = delays l ++ delays l'.
Proof.
  induction l as [|ev l IHl]; [reflexivity|].
  destruct ev; simpl; now rewrite IHl.
Qed.

Lemma after_response_quiet r :
  sent (snd (after_response r)) = [] /\ delays (snd (after_response r)) = [].
Proof.
  unfold after_response.
  destruct (status_code r >=? 400); [|destruct (status_code r =? 204)];
    try (split; reflexivity).
  rewrite raise_for_error_classified. split; reflexivity.
Qed.

(** X4.  A call that meets [k] failures after which the session tries
    again ([k] at most [max_retries]) and then a response that settles it
    (one that is neither retried nor a redirect status) hands this
    response to [_request] after [k + 1] attempts, having slept as in the
    exhausted case: not before the first retry, then 1, 2, 4, ... seconds.
    For a status below 400 other than 204 the call returns the body of
    that response. *)
Theorem retried_call_recovers :
  forall api_key base_url timeout (max_retries : Z) net m path params json k r,
    0 <= max_retries <= 1024 ->
    (k <= Z.to_nat max_retries)%nat ->
    (forall i, (i < k)%nat -> retried m (net i)) ->
    net k = Responded r ->
    settles m r ->
    let self := ShopClient_init api_key base_url timeout (Some max_retries) in
    let call := _request self net m path params json in
    outcome (Session_request (session self) net (request_of self m path params json))
    = Ok r
    /\ attempts call = S k
    /\ delays (trace call) = map backoff_delay (seq 2 (k - 1))
    /\ (status_code r < 400 -> status_code r <> 204 ->
        outcome call = match json_body r with
                       | Some v => Ok v
                       | None => Raise ValueError
                       end).
Proof.
  intros api_key base_url timeout max_retries net m path params json k r
         Hmr Hk Hfail Hlast Hset self call.
  assert (Hopen :
    urlopen net (request_of self m path params json)
      (adapter_max_retries (session self)) 0
    = (Ok r, exhausted_log (request_of self m path params json) 0 k)).
  { pose proof (urlopen_recovers net (request_of self m path params json) r
                  Hset k (Z.to_nat max_retries) [] O Hk) as H.
    rewrite Z2Nat.id in H by lia. apply H.
    - simpl. lia.
    - intros i Hi. now apply Hfail.
    - exact Hlast. }
  assert (Hsession :
    Session_request (session self) net (request_of self m path params json)
    = (Ok r, exhausted_log (request_of self m path params json) 0 k)).
  { unfold Session_request, HTTPAdapter_send. now rewrite Hopen. }
  assert (Hout : outcome (Session_request (session self) net
                            (request_of self m path params json)) = Ok r)
    by (now rewrite Hsession).
  split; [exact Hout|].
  assert (Hcall := request_after_session self net m path params json r Hout).
  fold call in Hcall. rewrite Hsession in Hcall. unfold trace in Hcall.
  cbn [snd] in Hcall.
  destruct (after_response_quiet r) as [Hq1 Hq2].
  split; [|split].
  - unfold attempts, trace. rewrite Hcall. cbn [snd].
    rewrite sent_app, Hq1, app_nil_r, exhausted_log_sent. apply repeat_length.
  - unfold trace. rewrite Hcall. cbn [snd].
    rewrite delays_app, Hq2, app_nil_r. apply exhausted_log_delays.
  - intros Hlt Hne. unfold outcome. rewrite Hcall.
    rewrite (after_response_success r Hlt Hne). reflexivity.
Qed.

(** Two answers of 503 and then the categories: three attempts, a sleep of
    one second before the third, and the categories are returned. *)
Lemma retried_call_recovers_witness :
  let busy := {| status_code := 503; text := lit "busy"; json_body := None;
                 retry_after := None |} in
  let ok := {| status_code := 200; text := lit "[]"; json_body := Some (VList []);
               retry_after := None |} in
  let net := fun n : nat =>
    match n with
    | O | S O => Responded busy
    | _ => Responded ok
    end in
  let call := _request (ShopClient_init (lit "key") None None (Some 3))
                       net GET (lit "/categories") None None in
  attempts call = 3%nat
  /\ delays (trace call) = map backoff_delay [2%nat]
  /\ outcome call = Ok (VList []).
Proof.
  intros busy ok net call.
  assert (Hfail : forall i, (i < 2)%nat -> retried GET (net i)).
  { intros [|[|i]] Hi; [repeat split | repeat split | lia]. }
  destruct (retried_call_recovers (lit "key") None None 3 net GET (lit "/categories")
              None None 2%nat ok
              (conj (proj1 (Z.leb_le 0 3) eq_refl) (proj1 (Z.leb_le 3 1024) eq_refl))
              (proj1 (Nat.leb_le 2 3) eq_refl) Hfail eq_refl
              (conj eq_refl (or_intror (conj eq_refl (or_intror eq_refl)))))
    as [_ [Ha [Hd Ho]]].
  split; [exact Ha | split; [exact Hd |]].
  exact (Ho (proj1 (Z.ltb_lt 200 400) eq_refl) (proj1 (Z.eqb_neq 200 204) eq_refl)).
Defined.

(** X5.  Connection failures are retried for every method, POST and PATCH
    included: a call whose every attempt fails to connect makes
    [max_retries + 1] attempts and raises the exception of the last
    failure.  A read failure on a POST or a PATCH is not retried: the call
    raises at its first attempt, [ReadTimeout] for a read timeout. *)
Theorem transport_failures_by_method :
  forall api_key base_url timeout (max_retries : Z) net m path params json,
    0 <= max_retries <= 1024 ->
    let self := ShopClient_init api_key base_url timeout (Some max_retries) in
    let call := _request self net m path params json in
    ((forall i, exists e, net i = Failed e /\ is_connection_error e = true) ->
     attempts call = S (Z.to_nat max_retries)
     /\ delays (trace call) = map backoff_delay (seq 2 (Z.to_nat max_retries - 1))
     /\ outcome call = Raise (surfaced (net (Z.to_nat max_retries))))
    /\ (forall e, In m [POST; PATCH] -> net O = Failed e -> is_read_error e = true ->
        attempts call = 1%nat
        /\ delays (trace call) = []
        /\ outcome call = Raise (match e with
                                 | ReadTimeoutError => ReadTimeout
                                 | _ => ConnectionError (ReasonError e)
                                 end)).
Proof.
  intros api_key base_url timeout max_retries net m path params json Hmr self call.
  split.
  - intros Hnet.
    assert (Hret : forall i, retried m (net i)).
    { intros i. destruct (Hnet i) as [e [-> He]]. now left. }
    assert (Hopen :
      urlopen net (request_of self m path params json)
        (adapter_max_retries (session self)) 0
      = (Raise (MaxRetryError (reason_of (net (Z.to_nat max_retries)))),
         exhausted_log (request_of self m path params json) 0
                       (Z.to_nat max_retries))).
    { pose proof (urlopen_gives_up net (request_of self m path params json)
                    Hret (Z.to_nat max_retries) [] 0%nat) as H.
      simpl length in H. rewrite Nat.add_0_l in H.
      rewrite Z2Nat.id in H by lia.
      apply H. lia. }
    assert (Hcall :
      call = (Raise (surfaced (net (Z.to_nat max_retries))),
              exhausted_log (request_of self m path params json) 0
                            (Z.to_nat max_retries))).
    { unfold call, _request, Session_request, HTTPAdapter_send.
      unfold request_of in Hopen. rewrite Hopen. unfold ebind. simpl fst.
      simpl snd. f_equal.
      destruct (net (Z.to_nat max_retries)) as [rs|[]]; reflexivity. }
    rewrite Hcall. unfold attempts, trace, outcome. simpl fst. simpl snd.
    rewrite exhausted_log_sent, exhausted_log_delays, repeat_length.
    split; [reflexivity|]. split; reflexivity.
  - intros e Hm He Hread.
    assert (Hno : is_method_retryable m = false).
    { destruct Hm as [<-|[<-|[]]]; reflexivity. }
    assert (Hconn : is_connection_error e = false) by (destruct e; try discriminate; reflexivity).
    assert (Hopen :
      urlopen net (request_of self m path params json)
        (adapter_max_retries (session self)) 0
      = (Raise (Urllib3Error e), [EvSend (request_of self m path params json)])).
    { rewrite urlopen_unfold. cbn [method request_of]. rewrite He.
      unfold urlopen_pass, increment. rewrite Hconn, Hread, Hno. reflexivity. }
    assert (Hcall :
      call = (Raise (match e with
                     | ReadTimeoutError => ReadTimeout
                     | _ => ConnectionError (ReasonError e)
                     end),
              [EvSend (request_of self m path params json)])).
    { unfold call, _request, Session_request, HTTPAdapter_send.
      unfold request_of in Hopen. rewrite Hopen. unfold ebind. simpl fst.
      simpl snd. f_equal. destruct e; try discriminate; reflexivity. }
    rewrite Hcall. split; [reflexivity|]. split; reflexivity.
Qed.

(** A POST that cannot connect is attempted four times; a POST whose read
    times out is attempted once. *)
Lemma transport_failures_by_method_witness :
  let self := ShopClient_init (lit "key") None None (Some 3) in
  let refused := fun _ : nat => Failed NewConnectionError in
  let stalled := fun _ : nat => Failed ReadTimeoutError in
  attempts (_request self refused POST (lit "/products") None (Some [])) = 4%nat
  /\ outcome (_request self refused POST (lit "/products") None (Some []))
     = Raise (ConnectionError (ReasonError NewConnectionError))
  /\ attempts (_request self stalled POST (lit "/products") None (Some [])) = 1%nat
  /\ outcome (_request self stalled POST (lit "/products") None (Some []))
     = Raise ReadTimeout.
Proof.
  intros self refused stalled.
  assert (Hmr : 0 <= 3 <= 1024)
    by exact (conj (proj1 (Z.leb_le 0 3) eq_refl) (proj1 (Z.leb_le 3 1024) eq_refl)).
  destruct (transport_failures_by_method (lit "key") None None 3 refused POST
              (lit "/products") None (Some []) Hmr) as [Hconn _].
  destruct (transport_failures_by_method (lit "key") None None 3 stalled POST
              (lit "/products") None (Some []) Hmr) as [_ Hread].
  destruct (Hconn (fun _ => ex_intro _ NewConnectionError (conj eq_refl eq_refl)))
    as [Ha [_ Ho]].
  destruct (Hread ReadTimeoutError (or_introl eq_refl) eq_refl eq_refl)
    as [Ha' [_ Ho']].
  split; [exact Ha | split; [exact Ho | split; [exact Ha' | exact Ho']]].
Defined.

(** X6.  A [Retry-After] header on a response that is retried replaces
    the backoff: a GET, PUT or DELETE whose first response has one of the
    retried statuses, or 413, and asks to retry after [s] seconds sleeps
    exactly [s] seconds before its second attempt, which ends the call
    when its response is neither retried nor a redirect status. *)
Theorem retry_after_replaces_the_backoff :
  forall api_key base_url timeout (max_retries : Z) net m path params json r s r',
    In m [GET; PUT; DELETE] ->
    1 <= max_retries ->
    net O = Responded r ->
    mem (status_code r) RETRY_STATUSES = true \/ status_code r = 413 ->
    retry_after r = Some s ->
    s <> 0%N ->
    net 1%nat = Responded r' ->
    settles m r' ->
    let self := ShopClient_init api_key base_url timeout (Some max_retries) in
    let call := _request self net m path params json in
    outcome (Session_request (session self) net (request_of self m path params json))
    = Ok r'
    /\ attempts call = 2%nat
    /\ delays (trace call) = [inject_Z (Z.of_N s)].
Proof.
  intros api_key base_url timeout max_retries net m path params json r s r'
         Hm Hmr Hr Hst Hra Hs Hr' Hset self call.
  apply RequestExecutor.retryable_methods in Hm.
  set (req := request_of self m path params json).
  set (retries' := {| total := max_retries - 1; backoff_factor := 0.5;
                      status_forcelist := RETRY_STATUSES;
                      history := [ResponseError (status_code r)] |}).
  assert (Hpass : urlopen_pass (adapter_max_retries (session self)) m (Responded r)
                  = Again retries' [EvSleep (inject_Z (Z.of_N s))]).
  { unfold urlopen_pass.
    assert (Hretry : is_retry (adapter_max_retries (session self)) m (status_code r)
                       (match retry_after r with Some _ => true | None => false end)
                     = true).
    { unfold is_retry. rewrite Hm, Hra. cbn [negb session self ShopClient_init
        adapter_max_retries status_forcelist total].
      destruct Hst as [Hst|Hst].
      - unfold RETRY_STATUSES in Hst. now rewrite Hst.
      - rewrite Hst. cbn. unfold truthy, truthy_int.
        assert (E : (max_retries =? 0) = false) by (apply Z.eqb_neq; lia).
        now rewrite E. }
    rewrite Hretry.
    assert (Hinc : increment (adapter_max_retries (session self)) m (Responded r)
                   = Ok retries').
    { unfold increment, is_exhausted.
      cbn [session self ShopClient_init adapter_max_retries status_forcelist total
           backoff_factor history app filter].
      unfold truthy, truthy_int.
      destruct (max_retries - 1 =? 0) eqn:E0; cbn [negb]; [reflexivity|].
      cbn [fold_right].
      assert (Hlt : (Z.min (max_retries - 1) (max_retries - 1) <? 0) = false)
        by (apply Z.ltb_ge; lia).
      now rewrite Hlt. }
    rewrite Hinc. unfold sleep. rewrite Hra. unfold truthy, truthy_int.
    assert (E : (Z.of_N s =? 0) = false) by (apply Z.eqb_neq; lia).
    now rewrite E. }
  assert (Hopen :
    urlopen net req (adapter_max_retries (session self)) 0
    = (Ok r', [EvSend req; EvSleep (inject_Z (Z.of_N s)); EvSend req])).
  { rewrite urlopen_unfold. rewrite Hr.
    replace (method req) with m by reflexivity. rewrite Hpass.
    rewrite urlopen_unfold. rewrite Hr'.
    replace (method req) with m by reflexivity.
    unfold urlopen_pass, retries'. rewrite (is_retry_settles _ _ _ _ Hset).
    reflexivity. }
  assert (Hsession :
    Session_request (session self) net req
    = (Ok r', [EvSend req; EvSleep (inject_Z (Z.of_N s)); EvSend req])).
  { unfold Session_request, HTTPAdapter_send. now rewrite Hopen. }
  assert (Hout : outcome (Session_request (session self) net req) = Ok r')
    by (now rewrite Hsession).
  split; [exact Hout|].
  assert (Hcall := request_after_session self net m path params json r' Hout).
  fold call in Hcall. fold req in Hcall. rewrite Hsession in Hcall.
  unfold trace in Hcall. cbn [snd] in Hcall.
  destruct (after_response_quiet r') as [Hq1 Hq2].
  split.
  - unfold attempts, trace. rewrite Hcall. cbn [snd].
    rewrite sent_app, Hq1. reflexivity.
  - unfold trace. rewrite Hcall. cbn [snd].
    rewrite delays_app, Hq2. reflexivity.
Qed.

(** A rate-limited GET that is told to come back after 7 seconds. *)
Lemma retry_after_replaces_the_backoff_witness :
  let limited := {| status_code := 429; text := lit "slow down"; json_body := None;
                    retry_after := Some 7%N |} in
  let ok := {| status_code := 200; text := lit "[]"; json_body := Some (VList []);
               retry_after := None |} in
  let net := fun n : nat =>
    match n with
    | O => Responded limited
    | S _ => Responded ok
    end in
  let call := _request (ShopClient_init (lit "key") None None (Some 3))
                       net GET (lit "/categories") None None in
  attempts call = 2%nat /\ delays (trace call) = [7%Q].
Proof.
  intros limited ok net call.
  destruct (retry_after_replaces_the_backoff (lit "key") None None 3 net GET
              (lit "/categories") None None limited 7%N ok
              (or_introl eq_refl) (proj1 (Z.leb_le 1 3) eq_refl) eq_refl
              (or_introl eq_refl) eq_refl (proj1 (N.eqb_neq 7 0) eq_refl) eq_refl
              (conj eq_refl (or_intror (conj eq_refl (or_intror eq_refl)))))
    as [_ [Ha Hd]].
  split; [exact Ha | exact Hd].
Defined.

(** X7.  As long as no attempt is answered with a redirect status, every
    attempt of a call is made for the base URL followed by the path, with
    the timeout of the client and the method, query parameters and body
    given to [_request]; the base URL is the default one when none or an
    empty one was given, and the timeout is 30 when none was given. *)
Theorem requests_use_the_configured_endpoint :
  forall api_key base_url timeout max_retries net m path query body req,
    (forall i, not_redirected (net i) = true) ->
    In req (sent (trace (_request (ShopClient_init api_key base_url timeout max_retries)
                           net m path query body))) ->
    url req = match base_url with
              | Some (c :: u) => c :: u
              | _ => lit "https://api.shop.com/v1"
              end ++ path
    /\ Http.timeout req = match timeout with Some t => t | None => 30 end
    /\ method req = m /\ Http.params req = query /\ Http.json req = body.
Proof.
  intros api_key base_url timeout max_retries net m path query body req _ Hin.
  destruct (request_sent (ShopClient_init api_key base_url timeout max_retries)
              net m path query body) as [k Hk].
  rewrite Hk in Hin. apply repeat_spec in Hin. subst req.
  unfold request_of. cbn [url Http.timeout method Http.params Http.json].
  split; [|split; [|repeat split]].
  - destruct base_url as [[|c u]|]; reflexivity.
  - destruct timeout; reflexivity.
Qed.

(** A client built with an empty base URL and no timeout. *)
Lemma requests_use_the_configured_endpoint_witness :
  let self := ShopClient_init (lit "key") (Some []) None None in
  let req := request_of self GET (lit "/categories") None None in
  url req = lit "https://api.shop.com/v1/categories" /\ Http.timeout req = 30.
Proof.
  intros self req.
  set (ok := {| status_code := 200; text := lit "[]"; json_body := Some (VList []);
                retry_after := None |}).
  assert (Hin : In req (sent (trace (_request self (fun _ => Responded ok) GET
                                       (lit "/categories") None None))))
    by (vm_compute; left; reflexivity).
  destruct (requests_use_the_configured_endpoint (lit "key") (Some []) None None
              (fun _ => Responded ok) GET (lit "/categories") None None req
              (fun _ => eq_refl) Hin)
    as [Hu [Ht _]].
  split; [exact Hu | exact Ht].
Defined.

End Recovery.

(* ===================================================================== *)
(** * Resource Routers: the table of operations                           *)
(* ===================================================================== *)

Module RouterTable.
Import Py Types Obj Http Urllib3 Codec Client Spec PyFacts ExecutorFacts RouterFacts
       ExecutorBounds.
Local Open Scope string_scope.
Local Open Scope list_scope.
Local Open Scope Z_scope.

Lemma carries_request self net m path params json :
  carries self (_request self net m path params json) m path params json.
Proof.
  intros req Hin. destruct (request_sent self net m path params json) as [k Hk].
  rewrite Hk in Hin. now apply repeat_spec in Hin.
Qed.

Lemma carries_decoded self net m path params json (f : value -> result value) :
  carries self (x <~ _request self net m path params json ;; lift (f x))
    m path params json.
Proof. unfold carries. rewrite trace_decoded. apply carries_request. Qed.

(** The first response, when its status is below 400, is the response of
    the call. *)
Lemma first_response_below_400 api_key base_url timeout max_retries
    net m path params json r :
  let self := ShopClient_init api_key base_url timeout max_retries in
  net O = Responded r ->
  status_code r < 400 ->
  _request self net m path params json
  = (fst (after_response r),
     EvSend (request_of self m path params json) :: snd (after_response r)).
Proof.
  intros self Hnet Hlt. subst self.
  apply (request_of_response api_key base_url timeout max_retries).
  apply session_first_response; [exact Hnet|].
  apply not_retried_status.
  - unfold mem, RETRY_STATUSES. simpl. rewrite !orb_false_r.
    repeat (apply orb_false_iff; split); apply Z.eqb_neq; lia.
  - left. lia.
Qed.

Lemma decoded_outcome (m : exec value) (f : value -> result value) :
  outcome (x <~ m ;; lift (f x))
  = match outcome m with Ok v => f v | Raise e => Raise e end.
Proof. unfold outcome, ebind, lift. destruct (fst m); reflexivity. Qed.

Lemma decoded_attempts (m : exec value) (f : value -> result value) :
  attempts (x <~ m ;; lift (f x)) = attempts m.
Proof. unfold attempts. now rewrite trace_decoded. Qed.

(** X8.  The operations of [ProductsAPI]: as long as no attempt is
    answered with a redirect status, every attempt is made with the
    method, the path, the query parameters and the body of the router. *)
Theorem products_operations :
  forall self net,
    (forall i, not_redirected (net i) = true) ->
    (forall sku name description price category_id images inventory
            compare_at_price attributes,
        carries self
          (ProductsAPI.create self net sku name description price category_id
             images inventory compare_at_price attributes)
          POST (lit "/products") None
          (Some (ProductsAPI.create_data sku name description price category_id
                   images inventory compare_at_price attributes)))
    /\ (forall product_id,
        carries self (ProductsAPI.get self net product_id)
          GET (lit "/products/" ++ product_id) None None)
    /\ (forall product_id updates,
        carries self (ProductsAPI.update self net product_id updates)
          PUT (lit "/products/" ++ product_id) None (Some updates))
    /\ (forall product_id,
        carries self (ProductsAPI.delete self net product_id)
          DELETE (lit "/products/" ++ product_id) None None)
    /\ (forall page limit category_id status search,
        carries self (ProductsAPI.list self net page limit category_id status search)
          GET (lit "/products")
          (Some (ProductsAPI.list_params page limit category_id status search)) None)
    /\ (forall product_id quantity,
        carries self (ProductsAPI.update_inventory self net product_id quantity)
          PATCH (lit "/products/" ++ product_id ++ lit "/inventory") None
          (Some [(lit "inventory", VInt quantity)]))
    /\ (forall products,
        carries self (ProductsAPI.bulk_create self net products)
          POST (lit "/products/bulk") None
          (Some [(lit "products", VList (map VDict products))]))
    /\ (forall updates,
        carries self (ProductsAPI.bulk_update_inventory self net updates)
          PATCH (lit "/products/inventory/bulk") None
          (Some [(lit "updates", VList (map VDict updates))])).
Proof.
  intros self net _.
  repeat match goal with |- _ /\ _ => split end; intros; apply carries_decoded.
Qed.

(** The deletion of a product that is answered at once. *)
Lemma products_operations_witness :
  let self := ShopClient_init (lit "key") None None None in
  let ok := {| status_code := 200; text := lit "{}"; json_body := Some (VDict []);
               retry_after := None |} in
  let call := ProductsAPI.delete self (fun _ => Responded ok) (lit "42") in
  sent (trace call) <> []
  /\ Forall (fun req => req = request_of self DELETE (lit "/products/42") None None)
            (sent (trace call)).
Proof.
  intros self ok call. split; [vm_compute; discriminate|].
  apply Forall_forall.
  destruct (products_operations self (fun _ => Responded ok) (fun _ => eq_refl))
    as [_ [_ [_ [Hdelete _]]]].
  exact (Hdelete (lit "42")).
Defined.

(** X9.  The operations of [OrdersAPI]: as long as no attempt is answered
    with a redirect status, every attempt is made with the method, the
    path, the query parameters and the body of the router. *)
Theorem orders_operations :
  forall self net,
    (forall i, not_redirected (net i) = true) ->
    (forall order_id,
        carries self (OrdersAPI.get self net order_id)
          GET (lit "/orders/" ++ order_id) None None)
    /\ (forall page limit status since,
        carries self (OrdersAPI.list self net page limit status since)
          GET (lit "/orders") (Some (OrdersAPI.list_params page limit status since)) None)
    /\ (forall order_id status,
        carries self (OrdersAPI.update_status self net order_id status)
          PATCH (lit "/orders/" ++ order_id ++ lit "/status") None
          (Some [(lit "status", VStr (OrderStatus_value status))]))
    /\ (forall order_id carrier tracking_number,
        carries self (OrdersAPI.add_tracking self net order_id carrier tracking_number)
          POST (lit "/orders/" ++ order_id ++ lit "/tracking") None
          (Some [(lit "carrier", VStr carrier);
                 (lit "tracking_number", VStr tracking_number)]))
    /\ (forall order_id items,
        carries self (OrdersAPI.fulfill self net order_id items)
          POST (lit "/orders/" ++ order_id ++ lit "/fulfill") None
          (Some [(lit "items", VList (map VDict items))]))
    /\ (forall order_id reason,
        carries self (OrdersAPI.cancel self net order_id reason)
          POST (lit "/orders/" ++ order_id ++ lit "/cancel") None
          (Some [(lit "reason", opt_value VStr reason)]))
    /\ (forall order_id amount reason,
        carries self (OrdersAPI.refund self net order_id amount reason)
          POST (lit "/orders/" ++ order_id ++ lit "/refund") None
          (Some [(lit "amount", opt_value VFloat amount);
                 (lit "reason", opt_value VStr reason)])).
Proof.
  intros self net _.
  repeat match goal with |- _ /\ _ => split end; intros; apply carries_decoded.
Qed.

(** The lookup of an order that is answered at once. *)
Lemma orders_operations_witness :
  let self := ShopClient_init (lit "key") None None None in
  let ok := {| status_code := 200; text := lit "{}"; json_body := Some (VDict []);
               retry_after := None |} in
  let call := OrdersAPI.get self (fun _ => Responded ok) (lit "o1") in
  sent (trace call) <> []
  /\ Forall (fun req => req = request_of self GET (lit "/orders/o1") None None)
            (sent (trace call)).
Proof.
  intros self ok call. split; [vm_compute; discriminate|].
  apply Forall_forall.
  destruct (orders_operations self (fun _ => Responded ok) (fun _ => eq_refl))
    as [Hget _].
  exact (Hget (lit "o1")).
Defined.

(** X10.  The operations of [WebhooksAPI] and of [CategoriesAPI]: as long
    as no attempt is answered with a redirect status, every attempt is
    made with the method, the path, the query parameters and the body of
    the router. *)
Theorem webhooks_and_categories_operations :
  forall self net,
    (forall i, not_redirected (net i) = true) ->
    (forall url events,
        carries self (WebhooksAPI.create self net url events)
          POST (lit "/webhooks") None
          (Some [(lit "url", VStr url);
                 (lit "events", VList (map (fun e => VStr (WebhookEvent_value e)) events))]))
    /\ (forall webhook_id,
        carries self (WebhooksAPI.delete self net webhook_id)
          DELETE (lit "/webhooks/" ++ webhook_id) None None)
    /\ carries self (WebhooksAPI.list self net) GET (lit "/webhooks") None None
    /\ (forall webhook_id url events active,
        carries self (WebhooksAPI.update self net webhook_id url events active)
          PATCH (lit "/webhooks/" ++ webhook_id) None
          (Some (WebhooksAPI.update_data url events active)))
    /\ carries self (CategoriesAPI.list self net) GET (lit "/categories") None None
    /\ (forall category_id,
        carries self (CategoriesAPI.get self net category_id)
          GET (lit "/categories/" ++ category_id) None None).
Proof.
  intros self net _.
  repeat match goal with |- _ /\ _ => split end; intros;
    (apply carries_decoded || apply carries_request).
Qed.

(** The list of categories, after a first attempt that met 503. *)
Lemma webhooks_and_categories_operations_witness :
  let self := ShopClient_init (lit "key") None None None in
  let busy := {| status_code := 503; text := lit "busy"; json_body := None;
                 retry_after := None |} in
  let ok := {| status_code := 200; text := lit "[]"; json_body := Some (VList []);
               retry_after := None |} in
  let net := fun n : nat => match n with O => Responded busy | S _ => Responded ok end in
  let call := CategoriesAPI.list self net in
  length (sent (trace call)) = 2%nat
  /\ Forall (fun req => req = request_of self GET (lit "/categories") None None)
            (sent (trace call)).
Proof.
  intros self busy ok net call. split; [vm_compute; reflexivity|].
  apply Forall_forall.
  assert (Hnet : forall i, not_redirected (net i) = true)
    by (intros [|i]; reflexivity).
  destruct (webhooks_and_categories_operations self net Hnet)
    as [_ [_ [_ [_ [Hlist _]]]]].
  exact Hlist.
Defined.

End RouterTable.

(* ===================================================================== *)
(** * Resource Routers: what a call returns                               *)
(* ===================================================================== *)

Module RouterResults.
Import Py Types Obj Http Urllib3 Codec Client Spec PyFacts ExecutorFacts RouterFacts
       ExecutorBounds RouterTable.
Local Open Scope string_scope.
Local Open Scope list_scope.
Local Open Scope Z_scope.

Lemma request_returned api_key base_url timeout max_retries net m path params json r :
  let self := ShopClient_init api_key base_url timeout max_retries in
  net O = Responded r ->
  status_code r < 400 ->
  outcome (_request self net m path params json) = returned r
  /\ attempts (_request self net m path params json) = 1%nat.
Proof.
  intros self Hnet Hlt. subst self.
  rewrite (first_response_below_400 api_key base_url timeout max_retries
             net m path params json r Hnet Hlt).
  unfold outcome, attempts, trace, returned, after_response. cbn [fst snd].
  assert (E1 : (status_code r >=? 400) = false).
  { destruct (status_code r >=? 400) eqn:E; [|reflexivity].
    apply Z.geb_le in E. lia. }
  rewrite E1. destruct (status_code r =? 204); split; reflexivity.
Qed.

(** A router that decodes: one attempt, and the decoder on what
    [_request] returned. *)
Lemma router_decodes api_key base_url timeout max_retries net m path params json r
    (f : value -> result value) :
  let self := ShopClient_init api_key base_url timeout max_retries in
  net O = Responded r ->
  status_code r < 400 ->
  outcome (x <~ _request self net m path params json ;; lift (f x))
  = (v <- returned r ;; f v)
  /\ attempts (x <~ _request self net m path params json ;; lift (f x)) = 1%nat.
Proof.
  intros self Hnet Hlt.
  destruct (request_returned api_key base_url timeout max_retries net m path
              params json r Hnet Hlt) as [Ho Ha].
  fold self in Ho, Ha.
  rewrite decoded_outcome, decoded_attempts, Ho. split; [|exact Ha].
  destruct (returned r); reflexivity.
Qed.

(** X11.  The operations that return nothing ([products.delete],
    [products.update_inventory], [products.bulk_update_inventory],
    [orders.add_tracking], [orders.fulfill], [webhooks.delete]) throw the
    body of the response away: for a first response below 400 that is not
    a redirect status they return [None] whatever JSON value the body is,
    and for a 204; a body that is not JSON still raises [ValueError]. *)
Theorem side_effect_calls_discard_the_body :
  forall api_key base_url timeout max_retries net r,
    net O = Responded r ->
    status_code r < 400 ->
    mem (status_code r) REDIRECT_STATI = false ->
    let self := ShopClient_init api_key base_url timeout max_retries in
    let done := discarded (returned r) in
    (status_code r = 204 \/ json_body r <> None -> done = Ok VNone)
    /\ (status_code r <> 204 -> json_body r = None -> done = Raise ValueError)
    /\ (forall product_id,
        outcome (ProductsAPI.delete self net product_id) = done)
    /\ (forall product_id quantity,
        outcome (ProductsAPI.update_inventory self net product_id quantity) = done)
    /\ (forall updates,
        outcome (ProductsAPI.bulk_update_inventory self net updates) = done)
    /\ (forall order_id carrier tracking_number,
        outcome (OrdersAPI.add_tracking self net order_id carrier tracking_number) = done)
    /\ (forall order_id items,
        outcome (OrdersAPI.fulfill self net order_id items) = done)
    /\ (forall webhook_id,
        outcome (WebhooksAPI.delete self net webhook_id) = done).
Proof.
  intros api_key base_url timeout max_retries net r Hnet Hlt _ self done.
  split; [|split].
  - unfold done, returned. intros [H204|Hbody].
    + apply Z.eqb_eq in H204. now rewrite H204.
    + destruct (status_code r =? 204); [reflexivity|].
      destruct (json_body r); [reflexivity | contradiction].
  - unfold done, returned. intros Hne Hbody. apply Z.eqb_neq in Hne.
    now rewrite Hne, Hbody.
  - subst self.
    repeat match goal with |- _ /\ _ => split end; intros;
      unfold ProductsAPI.delete, ProductsAPI.update_inventory,
        ProductsAPI.bulk_update_inventory, OrdersAPI.add_tracking,
        OrdersAPI.fulfill, WebhooksAPI.delete;
      match goal with
      | |- outcome (_ <~ _request _ _ ?m ?path ?params ?json ;; _) = _ =>
          rewrite (proj1 (router_decodes api_key base_url timeout max_retries net
                            m path params json r (fun _ => Ok VNone) Hnet Hlt))
      end;
      unfold done, discarded; destruct (returned r); reflexivity.
Qed.

(** A deletion answered with 200 and a JSON body returns [None]; answered
    with 200 and a page of HTML it raises [ValueError]. *)
Lemma side_effect_calls_discard_the_body_witness :
  let self := ShopClient_init (lit "key") None None None in
  let json := {| status_code := 200; text := lit "[1]";
                 json_body := Some (VList [VInt 1]); retry_after := None |} in
  let html := {| status_code := 200; text := lit "<html>";
                 json_body := None; retry_after := None |} in
  outcome (ProductsAPI.delete self (fun _ => Responded json) (lit "42")) = Ok VNone
  /\ outcome (ProductsAPI.delete self (fun _ => Responded html) (lit "42"))
     = Raise ValueError.
Proof.
  intros self json html.
  destruct (side_effect_calls_discard_the_body (lit "key") None None None
              (fun _ => Responded json) json eq_refl
              (proj1 (Z.ltb_lt 200 400) eq_refl) eq_refl) as [Hnone [_ [Hdel _]]].
  destruct (side_effect_calls_discard_the_body (lit "key") None None None
              (fun _ => Responded html) html eq_refl
              (proj1 (Z.ltb_lt 200 400) eq_refl) eq_refl) as [_ [Hraise [Hdel' _]]].
  split.
  - refine (eq_trans (Hdel (lit "42")) (Hnone (or_intror _))). discriminate.
  - exact (eq_trans (Hdel' (lit "42"))
             (Hraise (proj1 (Z.eqb_neq 200 204) eq_refl) eq_refl)).
Defined.

(** X12.  A first response of 204 reaches the decoders as the empty
    object: the operations that return an order or a page raise
    [KeyError], those that return a product or a webhook raise
    [TypeError], while [products.bulk_create] and [webhooks.list] return
    the empty list and the operations on categories the empty object. *)
Theorem no_content_through_the_decoders :
  forall api_key base_url timeout max_retries net r,
    net O = Responded r ->
    status_code r = 204 ->
    let self := ShopClient_init api_key base_url timeout max_retries in
    (forall order_id, outcome (OrdersAPI.get self net order_id) = Raise KeyError)
    /\ (forall order_id status,
        outcome (OrdersAPI.update_status self net order_id status) = Raise KeyError)
    /\ (forall order_id reason,
        outcome (OrdersAPI.cancel self net order_id reason) = Raise KeyError)
    /\ (forall order_id amount reason,
        outcome (OrdersAPI.refund self net order_id amount reason) = Raise KeyError)
    /\ (forall page limit status since,
        outcome (OrdersAPI.list self net page limit status since) = Raise KeyError)
    /\ (forall page limit category_id status search,
        outcome (ProductsAPI.list self net page limit category_id status search)
        = Raise KeyError)
    /\ (forall product_id, outcome (ProductsAPI.get self net product_id) = Raise TypeError)
    /\ (forall product_id updates,
        outcome (ProductsAPI.update self net product_id updates) = Raise TypeError)
    /\ (forall sku name description price category_id images inventory
               compare_at_price attributes,
        outcome (ProductsAPI.create self net sku name description price category_id
                   images inventory compare_at_price attributes) = Raise TypeError)
    /\ (forall url events,
        outcome (WebhooksAPI.create self net url events) = Raise TypeError)
    /\ (forall webhook_id url events active,
        outcome (WebhooksAPI.update self net webhook_id url events active)
        = Raise TypeError)
    /\ (forall products,
        outcome (ProductsAPI.bulk_create self net products) = Ok (VList []))
    /\ outcome (WebhooksAPI.list self net) = Ok (VList [])
    /\ outcome (CategoriesAPI.list self net) = Ok (VDict [])
    /\ (forall category_id,
        outcome (CategoriesAPI.get self net category_id) = Ok (VDict [])).
Proof.
  intros api_key base_url timeout max_retries net r Hnet H204 self.
  assert (Hlt : status_code r < 400) by lia.
  assert (Hret : returned r = Ok (VDict [])).
  { unfold returned. apply Z.eqb_eq in H204. now rewrite H204. }
  subst self.
  repeat match goal with |- _ /\ _ => split end; intros;
    unfold OrdersAPI.get, OrdersAPI.update_status, OrdersAPI.cancel, OrdersAPI.refund,
      OrdersAPI.list, ProductsAPI.list, ProductsAPI.get, ProductsAPI.update,
      ProductsAPI.create, WebhooksAPI.create, WebhooksAPI.update,
      ProductsAPI.bulk_create, WebhooksAPI.list, CategoriesAPI.list, CategoriesAPI.get;
    match goal with
    | |- outcome (x <~ _request _ _ ?m ?path ?params ?json ;; lift (@?f x)) = _ =>
        rewrite (proj1 (router_decodes api_key base_url timeout max_retries net
                          m path params json r f Hnet Hlt)), Hret; reflexivity
    | |- outcome (_request _ _ ?m ?path ?params ?json) = _ =>
        rewrite (proj1 (request_returned api_key base_url timeout max_retries net
                          m path params json r Hnet Hlt)); exact Hret
    end.
Qed.

Lemma no_content_through_the_decoders_witness :
  let self := ShopClient_init (lit "key") None None None in
  let r := {| status_code := 204; text := []; json_body := None;
              retry_after := None |} in
  outcome (OrdersAPI.get self (fun _ => Responded r) (lit "42")) = Raise KeyError
  /\ outcome (WebhooksAPI.list self (fun _ => Responded r)) = Ok (VList []).
Proof.
  intros self r.
  destruct (no_content_through_the_decoders (lit "key") None None None
              (fun _ => Responded r) r eq_refl eq_refl)
    as [Hget [_ [_ [_ [_ [_ [_ [_ [_ [_ [_ [_ [Hlist _]]]]]]]]]]]]].
  split; [exact (Hget (lit "42")) | exact Hlist].
Defined.

End RouterResults.

(* ===================================================================== *)
(** * Entity Codec: what the decoders accept, return and raise            *)
(* ===================================================================== *)

Module CodecFacts.
Import Py Types Obj Codec Spec PyFacts EntityCodec.
Local Open Scope string_scope.
Local Open Scope list_scope.

(** ** Lists of results *)

Lemma mapM_Forall2 {A B} (f : A -> result B) l bs :
  mapM f l = Ok bs <-> Forall2 (fun a b => f a = Ok b) l bs.
Proof.
  revert bs. induction l as [|a l IH]; intros bs; simpl.
  - split.
    + intros H. inversion H. constructor.
    + intros H. inversion H. reflexivity.
  - split.
    + destruct (f a) as [b|e] eqn:Ea; [|discriminate]. cbn [bind].
      destruct (mapM f l) as [bs'|e] eqn:El; [|discriminate]. cbn [bind].
      intros H. inversion H; subst. constructor; [exact Ea|]. now apply IH.
    + intros H. inversion H as [|a' b l' bs' Hab Hrest]; subst.
      rewrite Hab. cbn [bind]. apply IH in Hrest. now rewrite Hrest.
Qed.

Lemma mapM_raises {A B} (f : A -> result B) (P : exn -> Prop) l e :
  (forall x e', In x l -> f x = Raise e' -> P e') ->
  mapM f l = Raise e -> P e.
Proof.
  induction l as [|a l IH]; intros Hf; simpl; [discriminate|].
  destruct (f a) as [b|e'] eqn:Ea; cbn [bind].
  - destruct (mapM f l) as [bs|e'] eqn:El; cbn [bind]; [discriminate|].
    intros H. inversion H; subst. apply IH; [|reflexivity].
    intros x e1 Hin. apply Hf. now right.
  - intros H. inversion H; subst. apply (Hf a); [now left | exact Ea].
Qed.

Lemma mapM_first_failure {A B} (f : A -> result B) l1 x l2 e :
  Forall (fun y => exists o, f y = Ok o) l1 ->
  f x = Raise e ->
  mapM f (l1 ++ x :: l2) = Raise e.
Proof.
  intros Hl1 Hx. induction Hl1 as [|y l1 [o Ho] _ IH]; simpl.
  - now rewrite Hx.
  - rewrite Ho. cbn [bind]. now rewrite IH.
Qed.

(** ** The constructors of the dataclasses *)

Lemma new_raises cls kw e : new cls kw = Raise e -> e = TypeError.
Proof.
  unfold new. destruct (existsb _ kw); [congruence|].
  destruct (existsb _ (required _)); [congruence | discriminate].
Qed.

Lemma kwargs_raises v e : kwargs v = Raise e -> e = TypeError.
Proof. destruct v; simpl; congruence. Qed.

Lemma new_each_raises cls v e : new_each cls v = Raise e -> e = TypeError.
Proof.
  unfold new_each. destruct (iterate v) as [l|e'] eqn:Ei; cbn [bind].
  - destruct (mapM _ l) as [objs|e'] eqn:El; cbn [bind]; [discriminate|].
    intros H. inversion H; subst.
    apply (mapM_raises (fun x => kw <- kwargs x ;; new cls kw)
             (fun e => e = TypeError) l e); [|exact El].
    intros x e' _. destruct (kwargs x) as [kw|e1] eqn:Ek; cbn [bind].
    + apply new_raises.
    + intros H1. inversion H1; subst. now apply (kwargs_raises x).
  - intros H. inversion H; subst. destruct v; simpl in Ei; congruence.
Qed.

Lemma getitem_raises v k e : getitem v k = Raise e -> e = KeyError \/ e = TypeError.
Proof.
  destruct v; simpl; try (intros H; inversion H; now right).
  destruct (dict_get k d); [discriminate|]. intros H; inversion H; now left.
Qed.

Lemma setitem_raises v k x e : setitem v k x = Raise e -> e = TypeError.
Proof. destruct v; simpl; congruence. Qed.

Lemma OrderStatus_call_raises v e : OrderStatus_call v = Raise e -> e = ValueError.
Proof.
  destruct v; unfold OrderStatus_call; try congruence.
  destruct (find (fun m => str_eqb s (OrderStatus_value m)) OrderStatus_members);
    congruence.
Qed.

(** What a constructor that returns has checked, and what it has stored. *)
Lemma existsb_false {A} (p : A -> bool) l x :
  existsb p l = false -> In x l -> p x = false.
Proof.
  intros H Hin. destruct (p x) eqn:E; [|reflexivity].
  assert (existsb p l = true) by (apply existsb_exists; now exists x).
  congruence.
Qed.

Lemma new_checked cls kw o :
  new cls kw = Ok o ->
  (forall k, In k (map fst kw) -> In k (field_names (dataclass_schema cls)))
  /\ (forall r, In r (required (dataclass_schema cls)) ->
        dict_get (lit r) kw <> None)
  /\ o = VObject cls
           (map (fun r => (lit r, field_value kw r VNone))
                (required (dataclass_schema cls))
            ++ map (fun p => (lit (fst p), field_value kw (fst p) (snd p)))
                   (optional (dataclass_schema cls))).
Proof.
  unfold new.
  destruct (existsb _ kw) eqn:E1; [discriminate|].
  destruct (existsb _ (required _)) eqn:E2; [discriminate|].
  intros H. inversion H; subst. split; [|split; [|reflexivity]].
  - intros k Hin. apply in_map_iff in Hin. destruct Hin as [[k' v] [Hk Hin]].
    simpl in Hk. subst k'.
    pose proof (existsb_false _ _ _ E1 Hin) as Hf. simpl in Hf.
    apply negb_false_iff in Hf. apply existsb_exists in Hf.
    destruct Hf as [name [Hname Heq]]. apply str_eqb_eq in Heq. now subst.
  - intros r Hin Hnone.
    pose proof (existsb_false _ _ _ E2 Hin) as Hf. simpl in Hf.
    rewrite Hnone in Hf. discriminate.
Qed.

Lemma dict_get_remove_other k k' d :
  k <> k' -> dict_get k (dict_remove k' d) = dict_get k d.
Proof.
  intros Hne. induction d as [|[k0 v0] d IH]; simpl; [reflexivity|].
  destruct (str_eqb k' k0) eqn:E; simpl.
  - apply str_eqb_eq in E. subst k0. apply str_eqb_neq in Hne. now rewrite Hne.
  - now rewrite IH.
Qed.

Lemma keys_set k v d x : In x (map fst d) -> In x (map fst (dict_set k v d)).
Proof.
  induction d as [|[k0 v0] d IH]; simpl; [tauto|].
  destruct (str_eqb k k0); simpl; tauto.
Qed.

Lemma keys_remove k d x :
  In x (map fst d) -> x <> k -> In x (map fst (dict_remove k d)).
Proof.
  intros Hin Hne. induction d as [|[k0 v0] d IH]; simpl in *; [tauto|].
  destruct (str_eqb k k0) eqn:E; simpl.
  - apply str_eqb_eq in E. subst k0. destruct Hin as [Hx|Hx]; [congruence | exact Hx].
  - destruct Hin as [Hx|Hx]; [now left | right; now apply IH].
Qed.

(** ** [Order.from_dict] *)

(** The steps of a decoding that returns. *)
Lemma Order_from_dict_ok d o :
  Order_from_dict (VDict d) = Ok o ->
  exists st0 st sa kw1 a ba kw2 b its items,
    dict_get (lit "status") d = Some st0 /\ OrderStatus_call st0 = Ok st
    /\ dict_get (lit "shipping_address") d = Some sa
    /\ kwargs sa = Ok kw1 /\ new Address kw1 = Ok a
    /\ dict_get (lit "billing_address") d = Some ba
    /\ kwargs ba = Ok kw2 /\ new Address kw2 = Ok b
    /\ dict_get (lit "items") d = Some its /\ new_each OrderItem its = Ok items
    /\ new Order
         (dict_set (lit "items") items
            (dict_set (lit "billing_address") b
               (dict_set (lit "shipping_address") a
                  (dict_set (lit "status") (VStatus st) d)))) = Ok o.
Proof.
  unfold Order_from_dict. run.
  destruct (dict_get (lit "status") d) as [st0|] eqn:E1; [|discriminate]. run.
  destruct (OrderStatus_call st0) as [st|] eqn:E2; [|discriminate]. run.
  rewrite dict_get_set_other by (vm_compute; discriminate).
  destruct (dict_get (lit "shipping_address") d) as [sa|] eqn:E3; [|discriminate]. run.
  destruct (kwargs sa) as [kw1|] eqn:E4; [|discriminate]. run.
  destruct (new Address kw1) as [a|] eqn:E5; [|discriminate]. run.
  rewrite !dict_get_set_other by (vm_compute; discriminate).
  destruct (dict_get (lit "billing_address") d) as [ba|] eqn:E6; [|discriminate]. run.
  destruct (kwargs ba) as [kw2|] eqn:E7; [|discriminate]. run.
  destruct (new Address kw2) as [b|] eqn:E8; [|discriminate]. run.
  rewrite !dict_get_set_other by (vm_compute; discriminate).
  destruct (dict_get (lit "items") d) as [its|] eqn:E9; [|discriminate]. run.
  destruct (new_each OrderItem its) as [items|] eqn:E10; [|discriminate]. run.
  intros Hnew. exists st0, st, sa, kw1, a, ba, kw2, b, its, items.
  repeat match goal with |- _ /\ _ => split end; (reflexivity || assumption).
Qed.

(** One step of a decoding that raises. *)
Ltac raising :=
  match goal with
  | |- bind ?c _ = Raise _ -> _ =>
      let E := fresh "E" in
      let H := fresh "H" in
      destruct c eqn:E; cbn [bind];
      [| intros H; inversion H; subst; clear H;
         first [ apply getitem_raises in E; tauto
               | apply OrderStatus_call_raises in E; tauto
               | apply setitem_raises in E; tauto
               | apply kwargs_raises in E; tauto
               | apply new_raises in E; tauto
               | apply new_each_raises in E; tauto ] ]
  end.

(** X13.  [Order.from_dict] raises nothing but [KeyError], [ValueError]
    and [TypeError]: [TypeError] when the data is not an object,
    [KeyError] when [status] is missing, and also when the status is valid
    but [shipping_address] is missing. *)
Theorem order_decoding_failures :
  forall data,
    (forall e, Order_from_dict data = Raise e ->
       e = KeyError \/ e = ValueError \/ e = TypeError)
    /\ ((forall d, data <> VDict d) -> Order_from_dict data = Raise TypeError)
    /\ (forall d, data = VDict d ->
        dict_get (lit "status") d = None -> Order_from_dict data = Raise KeyError)
    /\ (forall d st, data = VDict d ->
        dict_get (lit "status") d = Some (VStr (OrderStatus_value st)) ->
        dict_get (lit "shipping_address") d = None ->
        Order_from_dict data = Raise KeyError).
Proof.
  intros data. split; [|split; [|split]].
  - intros e. unfold Order_from_dict.
    do 15 raising. intros H. apply new_raises in H. tauto.
  - intros Hnot. destruct data; try reflexivity. exfalso. now apply (Hnot d).
  - intros d -> Hst. unfold Order_from_dict. run. now rewrite Hst.
  - intros d st -> Hst Hsa. rewrite (Order_from_dict_status d _ Hst).
    rewrite OrderStatus_call_member. run.
    rewrite dict_get_set_other by (vm_compute; discriminate). now rewrite Hsa.
Qed.

(** X14.  An order that [Order.from_dict] returns keeps every scalar
    field of the raw object as it is ([notes] is [None] when absent), has
    the two addresses and the items rebuilt by their dataclasses, and the
    raw object had every required field and no key that is not a field of
    [Order]. *)
Theorem decoded_order_fields :
  forall d o,
    Order_from_dict (VDict d) = Ok o ->
    (forall f, In f ["id"; "order_number"; "customer_email"; "customer_name";
                     "subtotal"; "shipping_cost"; "tax"; "discount"; "total";
                     "currency"; "created_at"; "updated_at"] ->
       getattr o f = dict_get (lit f) d /\ dict_get (lit f) d <> None)
    /\ getattr o "notes" = Some (field_value d "notes" VNone)
    /\ (exists kw a, dict_get (lit "shipping_address") d = Some (VDict kw)
                     /\ new Address kw = Ok a
                     /\ getattr o "shipping_address" = Some a)
    /\ (exists kw b, dict_get (lit "billing_address") d = Some (VDict kw)
                     /\ new Address kw = Ok b
                     /\ getattr o "billing_address" = Some b)
    /\ (exists its items, dict_get (lit "items") d = Some its
                          /\ new_each OrderItem its = Ok items
                          /\ getattr o "items" = Some items)
    /\ (forall k, In k (map fst d) -> In k (field_names (dataclass_schema Order))).
Proof.
  intros d o Ho.
  destruct (Order_from_dict_ok d o Ho)
    as [st0 [st [sa [kw1 [a [ba [kw2 [b [its [items
         [H1 [H2 [H3 [H4 [H5 [H6 [H7 [H8 [H9 [H10 Hnew]]]]]]]]]]]]]]]]]]]].
  set (d1 := dict_set (lit "status") (VStatus st) d) in *.
  set (d2 := dict_set (lit "shipping_address") a d1) in *.
  set (d3 := dict_set (lit "billing_address") b d2) in *.
  set (d4 := dict_set (lit "items") items d3) in *.
  destruct (new_checked Order d4 o Hnew) as [Hkeys [Hreq Hobj]].
  assert (K : map fst d4 = map fst d).
  { assert (K1 : map fst d1 = map fst d) by exact (dict_set_keys _ _ d st0 H1).
    assert (K2 : map fst d2 = map fst d).
    { unfold d2. rewrite (dict_set_keys _ a d1 sa); [exact K1|].
      unfold d1. now rewrite dict_get_set_other by (vm_compute; discriminate). }
    assert (K3 : map fst d3 = map fst d).
    { unfold d3. rewrite (dict_set_keys _ b d2 ba); [exact K2|].
      unfold d2, d1. now rewrite !dict_get_set_other by (vm_compute; discriminate). }
    unfold d4. rewrite (dict_set_keys _ items d3 its); [exact K3|].
    unfold d3, d2, d1. now rewrite !dict_get_set_other by (vm_compute; discriminate). }
  repeat match goal with |- _ /\ _ => split end.
  - intros f Hin.
    assert (Hget : getattr o f = Some (field_value d4 f VNone)
                   /\ dict_get (lit f) d4 = dict_get (lit f) d
                   /\ dict_get (lit f) d4 <> None).
    { simpl in Hin.
      repeat (destruct Hin as [<-|Hin]; [| ]); try contradiction;
        (split; [rewrite Hobj; reflexivity|]; split;
         [ unfold d4, d3, d2, d1;
           now rewrite !dict_get_set_other by (vm_compute; discriminate)
         | apply Hreq; vm_compute; tauto ]). }
    destruct Hget as [Hg [He Hn]]. rewrite Hg. unfold field_value.
    rewrite <- He. destruct (dict_get (lit f) d4); [split; [reflexivity | discriminate]|].
    contradiction.
  - rewrite Hobj. change (Some (field_value d4 "notes" VNone)
                          = Some (field_value d "notes" VNone)).
    unfold field_value, d4, d3, d2, d1.
    now rewrite !dict_get_set_other by (vm_compute; discriminate).
  - destruct sa; try discriminate. simpl in H4. injection H4 as ->.
    exists kw1, a. split; [exact H3|]. split; [exact H5|].
    rewrite Hobj. change (Some (field_value d4 "shipping_address" VNone) = Some a).
    unfold field_value, d4, d3, d2.
    rewrite !dict_get_set_other by (vm_compute; discriminate).
    now rewrite dict_get_set_same.
  - destruct ba; try discriminate. simpl in H7. injection H7 as ->.
    exists kw2, b. split; [exact H6|]. split; [exact H8|].
    rewrite Hobj. change (Some (field_value d4 "billing_address" VNone) = Some b).
    unfold field_value, d4, d3.
    rewrite !dict_get_set_other by (vm_compute; discriminate).
    now rewrite dict_get_set_same.
  - exists its, items. split; [exact H9|]. split; [exact H10|].
    rewrite Hobj. change (Some (field_value d4 "items" VNone) = Some items).
    unfold field_value, d4. now rewrite dict_get_set_same.
  - intros k Hin. apply Hkeys. now rewrite K.
Qed.

Lemma decoded_order_fields_witness :
  exists o, Order_from_dict (VDict (raw_order "paid")) = Ok o
            /\ getattr o "order_number" = Some (VStr (lit "1001"))
            /\ getattr o "notes" = Some VNone.
Proof.
  destruct (Order_from_dict (VDict (raw_order "paid"))) as [o|e] eqn:E;
    [|vm_compute in E; discriminate].
  exists o. split; [reflexivity|].
  destruct (decoded_order_fields (raw_order "paid") o E) as [Hs [Hn _]].
  split.
  - exact (proj1 (Hs "order_number" (or_intror (or_introl eq_refl)))).
  - exact Hn.
Defined.

(** ** [Product.from_dict] *)

Lemma Product_from_dict_ok d o :
  Product_from_dict (VDict d) = Ok o ->
  exists vs,
    new_each ProductVariant (field_value d "variants" (VList [])) = Ok vs
    /\ new Product (dict_set (lit "variants") vs (dict_remove (lit "variants") d))
       = Ok o.
Proof.
  unfold Product_from_dict, field_value.
  destruct (new_each ProductVariant _) as [vs|] eqn:E; [|discriminate].
  cbn [bind]. intros H. exists vs. split; [reflexivity | exact H].
Qed.

Lemma decoded_product_keys d o :
  Product_from_dict (VDict d) = Ok o ->
  forall k, In k (map fst d) -> In k (field_names (dataclass_schema Product)).
Proof.
  intros Ho k Hin.
  destruct (Product_from_dict_ok d o Ho) as [vs [_ Hnew]].
  destruct (str_eqb k (lit "variants")) eqn:E.
  - apply str_eqb_eq in E. subst k. vm_compute. tauto.
  - apply str_eqb_neq in E. apply (proj1 (new_checked Product _ o Hnew)).
    apply keys_set. now apply keys_remove.
Qed.

(** X15.  A product that [Product.from_dict] returns keeps every field of
    the raw object other than [variants] as it is ([compare_at_price] is
    [None] and [attributes] the empty map when absent), has its variants
    rebuilt by [ProductVariant], none when the raw object has no
    [variants], and the raw object had every required field and no key
    that is not a field of [Product]. *)
Theorem decoded_product_fields :
  forall d o,
    Product_from_dict (VDict d) = Ok o ->
    (forall f, In f ["id"; "sku"; "name"; "description"; "price"; "currency";
                     "category_id"; "images"; "inventory"; "status";
                     "created_at"; "updated_at"] ->
       getattr o f = dict_get (lit f) d /\ dict_get (lit f) d <> None)
    /\ getattr o "compare_at_price" = Some (field_value d "compare_at_price" VNone)
    /\ getattr o "attributes" = Some (field_value d "attributes" (VDict []))
    /\ (exists vs,
          new_each ProductVariant (field_value d "variants" (VList [])) = Ok vs
          /\ getattr o "variants" = Some vs)
    /\ (dict_get (lit "variants") d = None -> getattr o "variants" = Some (VList []))
    /\ (forall k, In k (map fst d) -> In k (field_names (dataclass_schema Product))).
Proof.
  intros d o Ho.
  destruct (Product_from_dict_ok d o Ho) as [vs [Hvs Hnew]].
  set (d1 := dict_set (lit "variants") vs (dict_remove (lit "variants") d)) in *.
  destruct (new_checked Product d1 o Hnew) as [Hkeys [Hreq Hobj]].
  assert (Hother : forall k, k <> lit "variants" -> dict_get k d1 = dict_get k d).
  { intros k Hk. unfold d1. rewrite dict_get_set_other by exact Hk.
    now apply dict_get_remove_other. }
  assert (Hvariants : getattr o "variants" = Some vs).
  { rewrite Hobj. change (Some (field_value d1 "variants" (VList [])) = Some vs).
    unfold field_value, d1. now rewrite dict_get_set_same. }
  repeat match goal with |- _ /\ _ => split end.
  - intros f Hin.
    assert (Hget : getattr o f = Some (field_value d1 f VNone)
                   /\ dict_get (lit f) d1 = dict_get (lit f) d
                   /\ dict_get (lit f) d1 <> None).
    { simpl in Hin.
      repeat (destruct Hin as [<-|Hin]; [| ]); try contradiction;
        (split; [rewrite Hobj; reflexivity|]; split;
         [ apply Hother; vm_compute; discriminate
         | apply Hreq; vm_compute; tauto ]). }
    destruct Hget as [Hg [He Hn]]. rewrite Hg. unfold field_value.
    rewrite <- He. destruct (dict_get (lit f) d1); [split; [reflexivity | discriminate]|].
    contradiction.
  - rewrite Hobj. change (Some (field_value d1 "compare_at_price" VNone)
                          = Some (field_value d "compare_at_price" VNone)).
    unfold field_value. now rewrite Hother by (vm_compute; discriminate).
  - rewrite Hobj. change (Some (field_value d1 "attributes" (VDict []))
                          = Some (field_value d "attributes" (VDict []))).
    unfold field_value. now rewrite Hother by (vm_compute; discriminate).
  - exists vs. split; [exact Hvs | exact Hvariants].
  - intros Hnone. rewrite Hvariants. unfold field_value in Hvs.
    rewrite Hnone in Hvs. vm_compute in Hvs. congruence.
  - exact (decoded_product_keys d o Ho).
Qed.

Lemma decoded_product_fields_witness :
  let raw := dict_of [("id", VStr (lit "p1")); ("sku", VStr (lit "S-1"));
                      ("name", VStr (lit "Shoe")); ("description", VStr (lit "A shoe"));
                      ("price", VFloat 10%float); ("currency", VStr (lit "GBP"));
                      ("category_id", VStr (lit "shoes")); ("images", VList []);
                      ("inventory", VInt 3); ("status", VStr (lit "active"));
                      ("created_at", VStr (lit "2024-01-01T00:00:00Z"));
                      ("updated_at", VStr (lit "2024-01-02T00:00:00Z"))] in
  exists o, Product_from_dict (VDict raw) = Ok o
            /\ getattr o "sku" = Some (VStr (lit "S-1"))
            /\ getattr o "variants" = Some (VList []).
Proof.
  intros raw.
  destruct (Product_from_dict (VDict raw)) as [o|e] eqn:E;
    [|vm_compute in E; discriminate].
  exists o. split; [reflexivity|].
  destruct (decoded_product_fields raw o E) as [Hs [_ [_ [_ [Hv _]]]]].
  split.
  - exact (proj1 (Hs "sku" (or_intror (or_introl eq_refl)))).
  - exact (Hv eq_refl).
Defined.

(** X16.  [Product.from_dict] raises nothing but [TypeError] on an object
    and on a list, and [AttributeError] on any other value; and both
    decoders refuse an object with a key that is not a field of their
    dataclass. *)
Theorem decoders_refuse_unknown_keys :
  forall data,
    (forall e, Product_from_dict data = Raise e ->
       match data with
       | VDict _ | VList _ => e = TypeError
       | _ => e = AttributeError
       end)
    /\ (forall d k, data = VDict d -> In k (map fst d) ->
        ~ In k (field_names (dataclass_schema Product)) ->
        Product_from_dict data = Raise TypeError)
    /\ (forall d k, data = VDict d -> In k (map fst d) ->
        ~ In k (field_names (dataclass_schema Order)) ->
        exists e, Order_from_dict data = Raise e).
Proof.
  intros data.
  assert (Hraise : forall e, Product_from_dict data = Raise e ->
            match data with
            | VDict _ | VList _ => e = TypeError
            | _ => e = AttributeError
            end).
  { intros e. destruct data; simpl; try congruence.
    destruct (new_each ProductVariant _) as [vs|e'] eqn:E; cbn [bind].
    - apply new_raises.
    - intros H. inversion H; subst. now apply new_each_raises in E. }
  split; [exact Hraise|]. split.
  - intros d k -> Hin Hnot.
    destruct (Product_from_dict (VDict d)) as [o|e] eqn:E.
    + exfalso. apply Hnot.
      now apply (decoded_product_keys d o E).
    + f_equal. exact (Hraise e eq_refl).
  - intros d k -> Hin Hnot.
    destruct (Order_from_dict (VDict d)) as [o|e] eqn:E; [|now exists e].
    exfalso. apply Hnot.
    destruct (Order_from_dict_ok d o E)
      as [st0 [st [sa [kw1 [a [ba [kw2 [b [its [items
           [H1 [H2 [H3 [H4 [H5 [H6 [H7 [H8 [H9 [H10 Hnew]]]]]]]]]]]]]]]]]]]].
    apply (proj1 (new_checked Order _ o Hnew)).
    do 4 apply keys_set. exact Hin.
Qed.

(** ** Pages *)

Lemma paginated_first_failure (f : value -> result value) res l1 x l2 e :
  getitem res (lit "items") = Ok (VList (l1 ++ x :: l2)) ->
  Forall (fun y => exists o, f y = Ok o) l1 ->
  f x = Raise e ->
  paginated f res = Raise e.
Proof.
  intros Hits Hl1 Hx. unfold paginated. rewrite Hits. cbn [bind iterate].
  now rewrite (mapM_first_failure f l1 x l2 e Hl1 Hx).
Qed.

(** X17.  A page that is returned holds the decoded items of the raw
    [items], one for each and in the same order, and the four pagination
    fields of the raw object as they are. *)
Theorem page_items_are_decoded_in_order :
  forall (f : value -> result value) res o,
    paginated f res = Ok o ->
    exists d its l items total page limit total_pages,
      res = VDict d
      /\ dict_get (lit "items") d = Some its /\ iterate its = Ok l
      /\ Forall2 (fun x y => f x = Ok y) l items
      /\ dict_get (lit "total") d = Some total
      /\ dict_get (lit "page") d = Some page
      /\ dict_get (lit "limit") d = Some limit
      /\ dict_get (lit "total_pages") d = Some total_pages
      /\ o = VObject PaginatedList
               [(lit "items", VList items); (lit "total", total); (lit "page", page);
                (lit "limit", limit); (lit "total_pages", total_pages)].
Proof.
  intros f res o. unfold paginated.
  destruct res; try discriminate. cbn [getitem].
  destruct (dict_get (lit "items") d) as [its|] eqn:E1; [|discriminate]. cbn [bind].
  destruct (iterate its) as [l|] eqn:E2; [|discriminate]. cbn [bind].
  destruct (mapM f l) as [items|] eqn:E3; [|discriminate]. cbn [bind].
  destruct (dict_get (lit "total") d) as [total|] eqn:E4; [|discriminate]. cbn [bind].
  destruct (dict_get (lit "page") d) as [page|] eqn:E5; [|discriminate]. cbn [bind].
  destruct (dict_get (lit "limit") d) as [limit|] eqn:E6; [|discriminate]. cbn [bind].
  destruct (dict_get (lit "total_pages") d) as [total_pages|] eqn:E7; [|discriminate].
  cbn [bind]. intros H.
  exists d, its, l, items, total, page, limit, total_pages.
  repeat match goal with |- _ /\ _ => split end; try reflexivity; try assumption.
  - now apply mapM_Forall2.
  - vm_compute in H. now inversion H.
Qed.

Lemma page_items_are_decoded_in_order_witness :
  let res := VDict (dict_of [("items", VList [VDict (raw_order "paid")]);
                             ("total", VInt 1); ("page", VInt 1);
                             ("limit", VInt 20); ("total_pages", VInt 1)]) in
  exists o order,
    paginated Order_from_dict res = Ok o
    /\ Order_from_dict (VDict (raw_order "paid")) = Ok order
    /\ getattr o "items" = Some (VList [order])
    /\ getattr o "total_pages" = Some (VInt 1).
Proof.
  intros res.
  destruct (paginated Order_from_dict res) as [o|e] eqn:E;
    [|vm_compute in E; discriminate].
  destruct (page_items_are_decoded_in_order Order_from_dict res o E)
    as [d [its [l [items [total [page [limit [total_pages
         [Hres [Hits [Hl [Hitems [Ht [Hp [Hlim [Htp Ho]]]]]]]]]]]]]]]].
  injection Hres as <-.
  injection Hits as <-. injection Hl as <-. injection Htp as <-.
  inversion Hitems as [|x order l' items' Hx Hrest]; subst.
  inversion Hrest; subst.
  exists (VObject PaginatedList
            [(lit "items", VList [order]); (lit "total", total); (lit "page", page);
             (lit "limit", limit); (lit "total_pages", VInt 1)]), order.
  split; [reflexivity|]. split; [exact Hx|]. split; reflexivity.
Defined.

End CodecFacts.

(* ===================================================================== *)
(** * From the response to the entity                                     *)
(* ===================================================================== *)

Module RouterDecoding.
Import Py Types Obj Http Urllib3 Codec Client Spec PyFacts ExecutorFacts RouterFacts
       EntityCodec ExecutorBounds RouterTable RouterResults CodecFacts.
Local Open Scope string_scope.
Local Open Scope list_scope.
Local Open Scope Z_scope.

Lemma returned_body r v :
  status_code r <> 204 -> json_body r = Some v -> returned r = Ok v.
Proof.
  intros Hne Hv. unfold returned. apply Z.eqb_neq in Hne. now rewrite Hne, Hv.
Qed.

(** X18.  A decoding failure fails the call, after its one attempt.  For
    a first response below 400 that is neither a 204 nor a redirect
    status: an order whose status is outside the enumeration makes
    [orders.get], [orders.update_status], [orders.cancel] and
    [orders.refund] raise [ValueError], and one item that does not decode
    makes [orders.list] and [products.list] raise its exception instead of
    returning the items that do. *)
Theorem decoding_failure_fails_the_call :
  forall api_key base_url timeout max_retries net r,
    net O = Responded r ->
    status_code r < 400 ->
    status_code r <> 204 ->
    mem (status_code r) REDIRECT_STATI = false ->
    let self := ShopClient_init api_key base_url timeout max_retries in
    (forall d s,
        json_body r = Some (VDict d) ->
        dict_get (lit "status") d = Some (VStr s) ->
        ~ In s (map OrderStatus_value OrderStatus_members) ->
        (forall order_id,
            outcome (OrdersAPI.get self net order_id) = Raise ValueError
            /\ attempts (OrdersAPI.get self net order_id) = 1%nat)
        /\ (forall order_id status,
            outcome (OrdersAPI.update_status self net order_id status) = Raise ValueError
            /\ attempts (OrdersAPI.update_status self net order_id status) = 1%nat)
        /\ (forall order_id reason,
            outcome (OrdersAPI.cancel self net order_id reason) = Raise ValueError
            /\ attempts (OrdersAPI.cancel self net order_id reason) = 1%nat)
        /\ (forall order_id amount reason,
            outcome (OrdersAPI.refund self net order_id amount reason) = Raise ValueError
            /\ attempts (OrdersAPI.refund self net order_id amount reason) = 1%nat))
    /\ (forall res l1 x l2 e,
        json_body r = Some res ->
        getitem res (lit "items") = Ok (VList (l1 ++ x :: l2)) ->
        Forall (fun y => exists o, Order_from_dict y = Ok o) l1 ->
        Order_from_dict x = Raise e ->
        forall page limit status since,
          outcome (OrdersAPI.list self net page limit status since) = Raise e
          /\ attempts (OrdersAPI.list self net page limit status since) = 1%nat)
    /\ (forall res l1 x l2 e,
        json_body r = Some res ->
        getitem res (lit "items") = Ok (VList (l1 ++ x :: l2)) ->
        Forall (fun y => exists o, Product_from_dict y = Ok o) l1 ->
        Product_from_dict x = Raise e ->
        forall page limit category_id status search,
          outcome (ProductsAPI.list self net page limit category_id status search)
          = Raise e
          /\ attempts (ProductsAPI.list self net page limit category_id status search)
             = 1%nat).
Proof.
  intros api_key base_url timeout max_retries net r Hnet Hlt Hne _ self. subst self.
  split; [|split].
  - intros d s Hbody Hst Hnot.
    assert (Hdec : (v <- returned r ;; Order_from_dict v) = Raise ValueError).
    { rewrite (returned_body r _ Hne Hbody). cbn [bind].
      rewrite (Order_from_dict_status d _ Hst).
      now rewrite (OrderStatus_call_unknown s Hnot). }
    repeat match goal with |- _ /\ _ => split end; intros;
      unfold OrdersAPI.get, OrdersAPI.update_status, OrdersAPI.cancel, OrdersAPI.refund;
      match goal with
      | |- context [x <~ _request _ _ ?m ?path ?params ?json ;; lift (Order_from_dict x)] =>
          destruct (router_decodes api_key base_url timeout max_retries net
                      m path params json r Order_from_dict Hnet Hlt) as [Ho Ha]
      end;
      (split; [rewrite Ho; exact Hdec | exact Ha]).
  - intros res l1 x l2 e Hbody Hits Hl1 Hx page limit status since.
    unfold OrdersAPI.list.
    destruct (router_decodes api_key base_url timeout max_retries net
                GET (lit "/orders") (Some (OrdersAPI.list_params page limit status since))
                None r (paginated Order_from_dict) Hnet Hlt) as [Ho Ha].
    split; [|exact Ha].
    rewrite Ho, (returned_body r _ Hne Hbody). cbn [bind].
    now apply (paginated_first_failure Order_from_dict res l1 x l2 e).
  - intros res l1 x l2 e Hbody Hits Hl1 Hx page limit category_id status search.
    unfold ProductsAPI.list.
    destruct (router_decodes api_key base_url timeout max_retries net
                GET (lit "/products")
                (Some (ProductsAPI.list_params page limit category_id status search))
                None r (paginated Product_from_dict) Hnet Hlt) as [Ho Ha].
    split; [|exact Ha].
    rewrite Ho, (returned_body r _ Hne Hbody). cbn [bind].
    now apply (paginated_first_failure Product_from_dict res l1 x l2 e).
Qed.

(** The order of the specification's example, alone and as the second
    item of a page whose first item decodes. *)
Lemma decoding_failure_fails_the_call_witness :
  let self := ShopClient_init (lit "key") None None None in
  let one := {| status_code := 200; text := lit "...";
                json_body := Some (VDict (raw_order "archived"));
                retry_after := None |} in
  let page := {| status_code := 200; text := lit "...";
                 json_body := Some (VDict (dict_of
                   [("items", VList [VDict (raw_order "paid");
                                     VDict (raw_order "archived")]);
                    ("total", VInt 2); ("page", VInt 1); ("limit", VInt 20);
                    ("total_pages", VInt 1)]));
                 retry_after := None |} in
  outcome (OrdersAPI.get self (fun _ => Responded one) (lit "o1")) = Raise ValueError
  /\ outcome (OrdersAPI.list self (fun _ => Responded page) 1 20 None None)
     = Raise ValueError.
Proof.
  intros self one page.
  assert (Hlt : 200 < 400) by exact (proj1 (Z.ltb_lt 200 400) eq_refl).
  assert (Hne : 200 <> 204) by exact (proj1 (Z.eqb_neq 200 204) eq_refl).
  destruct (decoding_failure_fails_the_call (lit "key") None None None
              (fun _ => Responded one) one eq_refl Hlt Hne eq_refl) as [Hone _].
  destruct (decoding_failure_fails_the_call (lit "key") None None None
              (fun _ => Responded page) page eq_refl Hlt Hne eq_refl) as [_ [Hpage _]].
  split.
  - refine (proj1 (proj1 (Hone (raw_order "archived") (lit "archived")
                            eq_refl eq_refl _) (lit "o1"))).
    vm_compute. intros H.
    repeat match goal with
           | H : _ \/ _ |- _ => destruct H as [H|H]; try discriminate
           | H : False |- _ => destruct H
           end.
  - refine (proj1 (Hpage _ [VDict (raw_order "paid")] (VDict (raw_order "archived")) []
                     ValueError eq_refl eq_refl _ _ 1 20 None None)).
    + constructor; [|constructor]. eexists. vm_compute. reflexivity.
    + vm_compute. reflexivity.
Defined.

End RouterDecoding.

(* ===================================================================== *)
(** * Dataclasses, enumerations and the bodies built from options         *)
(* ===================================================================== *)

Module Entities.
Import Py Types Obj Http Urllib3 Codec Client Spec PyFacts ExecutorFacts RouterFacts
       ResourceRouters EntityCodec CodecFacts.
Local Open Scope string_scope.
Local Open Scope list_scope.

(** X19.  The constructor of each dataclass stores the keyword arguments
    as they are given, without converting or validating them: a required
    field holds the value of its keyword, which must be there, an optional
    field its keyword or its default, and every keyword is a field. *)
Theorem constructor_stores_keywords :
  forall cls kw o,
    new cls kw = Ok o ->
    (forall f, In f (required (dataclass_schema cls)) ->
       getattr o f = dict_get (lit f) kw /\ dict_get (lit f) kw <> None)
    /\ (forall f default, In (f, default) (optional (dataclass_schema cls)) ->
          getattr o f = Some (field_value kw f default))
    /\ (forall k, In k (map fst kw) -> In k (field_names (dataclass_schema cls))).
Proof.
  intros cls kw o Hnew.
  destruct (new_checked cls kw o Hnew) as [Hkeys [Hreq Hobj]].
  split; [|split; [|exact Hkeys]].
  - intros f Hin. pose proof (Hreq f Hin) as Hsome.
    assert (Hget : getattr o f = Some (field_value kw f VNone)).
    { rewrite Hobj. clear Hobj Hnew Hreq Hkeys Hsome.
      destruct cls; simpl in Hin;
        repeat (destruct Hin as [<-|Hin]; [reflexivity|]); contradiction. }
    rewrite Hget. unfold field_value.
    destruct (dict_get (lit f) kw); [split; [reflexivity | discriminate] | contradiction].
  - intros f default Hin. rewrite Hobj. clear Hobj Hnew Hreq Hkeys.
    destruct cls; simpl in Hin;
      repeat (destruct Hin as [Hin|Hin]; [inversion Hin; subst; reflexivity|]);
      contradiction.
Qed.

(** A webhook whose events are not names of [WebhookEvent] is built all
    the same. *)
Lemma constructor_stores_keywords_witness :
  let kw := dict_of [("id", VStr (lit "w1")); ("url", VStr (lit "https://example.com"));
                     ("events", VList [VStr (lit "order.archived")]);
                     ("active", VBool true);
                     ("created_at", VStr (lit "2024-01-01T00:00:00Z"))] in
  exists o, new Webhook kw = Ok o
            /\ getattr o "events" = Some (VList [VStr (lit "order.archived")])
            /\ getattr o "secret" = Some VNone.
Proof.
  intros kw.
  destruct (new Webhook kw) as [o|e] eqn:E; [|vm_compute in E; discriminate].
  exists o. split; [reflexivity|].
  destruct (constructor_stores_keywords Webhook kw o E) as [Hr [Ho _]].
  split.
  - exact (proj1 (Hr "events" (or_intror (or_intror (or_introl eq_refl))))).
  - exact (Ho "secret" VNone (or_introl eq_refl)).
Defined.

Lemma OrderStatus_value_injective a b :
  OrderStatus_value a = OrderStatus_value b -> a = b.
Proof. destruct a, b; intros H; try reflexivity; vm_compute in H; discriminate. Qed.

Lemma WebhookEvent_value_injective a b :
  WebhookEvent_value a = WebhookEvent_value b -> a = b.
Proof. destruct a, b; intros H; try reflexivity; vm_compute in H; discriminate. Qed.

(** X20.  The enumerations encode and decode one to one: [OrderStatus]
    called on a string returns a member exactly when the string is the
    value of that member, a member is returned as it is, and distinct
    members of [OrderStatus] and of [WebhookEvent] have distinct values, so
    that the events of [webhooks.create] are sent without loss. *)
Theorem enumerations_round_trip :
  (forall s st, OrderStatus_call (VStr s) = Ok st <-> OrderStatus_value st = s)
  /\ (forall st, OrderStatus_call (VStatus st) = Ok st)
  /\ (forall a b, OrderStatus_value a = OrderStatus_value b -> a = b)
  /\ (forall a b, WebhookEvent_value a = WebhookEvent_value b -> a = b)
  /\ (forall events events',
        WebhooksAPI.event_values events = WebhooksAPI.event_values events' ->
        events = events').
Proof.
  split; [|split; [|split; [|split]]].
  - intros s st. split.
    + unfold OrderStatus_call.
      destruct (find (fun m => str_eqb s (OrderStatus_value m)) OrderStatus_members)
        as [m|] eqn:E; [|discriminate].
      intros H. inversion H; subst. apply find_some in E.
      symmetry. now apply str_eqb_eq.
    + intros <-. apply OrderStatus_call_member.
  - reflexivity.
  - exact OrderStatus_value_injective.
  - exact WebhookEvent_value_injective.
  - unfold WebhooksAPI.event_values. intros events.
    induction events as [|e events IH]; intros [|e' events'] H; simpl in H;
      try discriminate; [reflexivity|].
    inversion H as [[He Hrest]]. f_equal.
    + now apply WebhookEvent_value_injective.
    + apply IH. simpl. now rewrite Hrest.
Qed.

(** X21.  The body of [webhooks.update]: [active] is sent whenever it is
    given, [False] included, while an empty [url] and an empty list of
    [events] are left out like absent ones; nothing else is sent. *)
Theorem webhook_update_body :
  forall self net webhook_id url events active,
    every_body
      (fun d =>
         dict_get (lit "active") d = option_map VBool active
         /\ dict_get (lit "url") d
            = match url with Some (c :: u) => Some (VStr (c :: u)) | _ => None end
         /\ dict_get (lit "events") d
            = match events with
              | Some (e :: es) => Some (WebhooksAPI.event_values (e :: es))
              | _ => None
              end
         /\ (forall k, In k (map fst d) -> In k (map lit ["url"; "events"; "active"])))
      (WebhooksAPI.update self net webhook_id url events active)
    /\ WebhooksAPI.update self net webhook_id (Some []) events active
       = WebhooksAPI.update self net webhook_id None events active
    /\ WebhooksAPI.update self net webhook_id url (Some []) active
       = WebhooksAPI.update self net webhook_id url None active.
Proof.
  intros self net webhook_id url events active.
  split; [|split; reflexivity].
  apply webhooks_update_sends. unfold WebhooksAPI.update_data.
  destruct url as [[|c u]|]; destruct events as [[|e es]|]; destruct active as [b|];
    (repeat match goal with |- _ /\ _ => split end; try reflexivity;
     intros k Hin; simpl in Hin; simpl;
     repeat match goal with
            | H : _ \/ _ |- _ => destruct H as [H|H]
            | H : False |- _ => destruct H
            end; subst; tauto).
Qed.

(** X22.  The query of the two list operations: [page] and [limit] are
    always sent, as given; [products.list] leaves out an empty filter like
    an absent one, and [orders.list] sends every [status] and every
    [since] it is given. *)
Theorem list_queries :
  forall self net page limit,
    (forall category_id status search,
        every_query
          (fun d =>
             dict_get (lit "page") d = Some (VInt page)
             /\ dict_get (lit "limit") d = Some (VInt limit)
             /\ dict_get (lit "category_id") d
                = match category_id with Some (c :: s) => Some (VStr (c :: s)) | _ => None end
             /\ dict_get (lit "status") d
                = match status with Some (c :: s) => Some (VStr (c :: s)) | _ => None end
             /\ dict_get (lit "search") d
                = match search with Some (c :: s) => Some (VStr (c :: s)) | _ => None end)
          (ProductsAPI.list self net page limit category_id status search))
    /\ (forall status since,
        every_query
          (fun d =>
             dict_get (lit "page") d = Some (VInt page)
             /\ dict_get (lit "limit") d = Some (VInt limit)
             /\ dict_get (lit "status") d
                = option_map (fun s => VStr (OrderStatus_value s)) status
             /\ dict_get (lit "since") d
                = option_map (fun t => VStr (OrdersAPI.isoformat t)) since)
          (OrdersAPI.list self net page limit status since)).
Proof.
  intros self net page limit. split.
  - intros category_id status search. apply products_list_sends.
    unfold ProductsAPI.list_params.
    destruct category_id as [[|c1 s1]|]; destruct status as [[|c2 s2]|];
      destruct search as [[|c3 s3]|]; repeat split.
  - intros status since. apply orders_list_sends.
    unfold OrdersAPI.list_params.
    destruct status as [[]|]; destruct since as [t|]; repeat split.
Qed.

End Entities.

(* ===================================================================== *)
(** * Signature Verifier: the signatures that are accepted                *)
(* ===================================================================== *)

Module SignatureFacts.
Import Py Types Obj Spec PyFacts DigestFacts SignatureVerifier.
Import WebhooksAPI.

(** A hex digest is written with the sixteen lowercase digits. *)
Lemma hex_digit_in n : In (Hmac.hex_digit n) Hmac.hex_digits.
Proof.
  unfold Hmac.hex_digit. apply nth_In.
  change (length Hmac.hex_digits) with 16%nat.
  assert (H : (n mod 16 < 16)%N) by (apply N.mod_lt; discriminate).
  lia.
Qed.

Lemma hexdigest_digits digest :
  Forall (fun c => In c Hmac.hex_digits) (Hmac.hexdigest digest).
Proof.
  unfold Hmac.hexdigest. induction digest as [|b digest IH]; [constructor|].
  cbn [flat_map Hmac.hex_of_byte app].
  constructor; [apply hex_digit_in|]. constructor; [apply hex_digit_in | exact IH].
Qed.

Lemma accepted_is_expected payload signature secret :
  verify_signature payload signature secret = Ok true ->
  expected_signature payload secret = Ok signature.
Proof.
  intros H. destruct (expected_signature payload secret) as [expected|e] eqn:E.
  - destruct (verify_signature_expected payload signature secret expected E)
      as [_ [_ Hv]].
    rewrite Hv in H. destruct (isascii signature); [|discriminate].
    inversion H as [Heq]. apply str_eqb_eq in Heq. now subst.
  - unfold verify_signature in H. rewrite E in H. discriminate.
Qed.

(** X23.  A signature that [verify_signature] accepts has 64 characters,
    each of them one of [0123456789abcdef]: the same digest written with
    uppercase digits, or with a prefix such as [sha256=], is not
    accepted. *)
Theorem accepted_signature_is_lowercase_hex :
  forall payload signature secret,
    verify_signature payload signature secret = Ok true ->
    length signature = 64%nat
    /\ Forall (fun c => In c (lit "0123456789abcdef")) signature
    /\ (forall prefix,
          verify_signature payload (prefix ++ signature) secret = Ok true ->
          prefix = [])
    /\ (forall other, verify_signature payload other secret = Ok true ->
          other = signature).
Proof.
  intros payload signature secret H.
  apply accepted_is_expected in H.
  destruct (verify_signature_expected payload signature secret signature H)
    as [_ [Hlen _]].
  assert (Hsame : forall other, verify_signature payload other secret = Ok true ->
                             other = signature).
  { intros other Ho. apply accepted_is_expected in Ho. congruence. }
  split; [exact Hlen|]. split; [|split; [|exact Hsame]].
  - unfold expected_signature in H.
    destruct (encode secret) as [key|]; [|discriminate].
    destruct (encode payload) as [msg|]; [|discriminate].
    cbn [bind] in H. inversion H. apply hexdigest_digits.
  - intros prefix Hp. apply Hsame in Hp.
    apply (f_equal (@length N)) in Hp. rewrite length_app in Hp.
    destruct prefix; [reflexivity | simpl in Hp; lia].
Qed.

Lemma accepted_signature_is_lowercase_hex_witness :
  length payload_signature = 64%nat
  /\ Forall (fun c => In c (lit "0123456789abcdef")) payload_signature.
Proof.
  destruct (accepted_signature_is_lowercase_hex (lit "payload") payload_signature
              (lit "secret") payload_signature_verifies) as [Hlen [Hhex _]].
  split; [exact Hlen | exact Hhex].
Defined.

(** The key of the HMAC is padded with zero bytes up to the block. *)
Lemma block_key_padded key n :
  (length key + n <= 64)%nat ->
  Hmac.block_key (key ++ repeat 0%N n) = Hmac.block_key key.
Proof.
  intros Hlen. unfold Hmac.block_key, Hmac.block_size.
  rewrite length_app, repeat_length.
  assert (E1 : (64 <? length key + n)%nat = false) by (apply Nat.ltb_ge; lia).
  assert (E2 : (64 <? length key)%nat = false) by (apply Nat.ltb_ge; lia).
  rewrite E1, E2. rewrite length_app, repeat_length, <- app_assoc.
  f_equal. rewrite <- repeat_app. f_equal. lia.
Qed.

Lemma encode_app s t :
  encode (s ++ t)
  = (a <- encode s ;; b <- encode t ;; Ok (a ++ b)).
Proof.
  induction s as [|c s IH]; simpl.
  - destruct (encode t); reflexivity.
  - destruct (encode_cp c) as [bs|]; cbn [bind]; [|reflexivity].
    rewrite IH. destruct (encode s) as [a|]; cbn [bind]; [|reflexivity].
    destruct (encode t) as [b|]; cbn [bind]; [|reflexivity].
    now rewrite app_assoc.
Qed.

Lemma encode_nuls n : encode (repeat 0%N n) = Ok (repeat 0%N n).
Proof.
  induction n as [|n IH]; [reflexivity|].
  simpl. rewrite IH. reflexivity.
Qed.

(** X24.  As the key of the HMAC is padded with zero bytes, a secret of
    less than 64 bytes and the same secret followed by NUL characters (up
    to 64 bytes) verify the same signatures. *)
Theorem nul_padded_secret_verifies_the_same :
  forall payload signature secret key n,
    encode secret = Ok key ->
    (length key + n <= 64)%nat ->
    verify_signature payload signature (secret ++ repeat 0%N n)
    = verify_signature payload signature secret.
Proof.
  intros payload signature secret key n Hkey Hlen.
  unfold verify_signature, expected_signature.
  rewrite encode_app, Hkey, encode_nuls. cbn [bind].
  destruct (encode payload) as [msg|]; cbn [bind]; [|reflexivity].
  unfold Hmac.hmac_sha256. now rewrite (block_key_padded key n Hlen).
Qed.

Lemma nul_padded_secret_verifies_the_same_witness :
  verify_signature (lit "payload") payload_signature (lit "secret" ++ [0%N])
  = Ok true.
Proof.
  exact (eq_trans
           (nul_padded_secret_verifies_the_same (lit "payload") payload_signature
              (lit "secret") (lit "secret") 1 eq_refl
              (proj1 (Nat.leb_le 7 64) eq_refl))
           payload_signature_verifies).
Defined.

End SignatureFacts.
